(** * Memoria Scholae: the reasoning core of the backend, embedded from the
    Python sources under [services/].

    Part I holds the embedding (one module per source file), Part II the
    theorems.  Python values are modelled by [Py.pyval], exceptions by the
    error monad [Py.outcome], and a [try: ... except Exception] block by
    [Py.try_except].  Python floats are modelled by real numbers ([R]) where
    the code calls [math.exp] and [math.log], and by rationals ([Q]) where it
    only multiplies, divides and rounds. *)

From Stdlib Require Import Reals Lra Lia ZArith QArith Qround Qminmax String Ascii List
  Permutation Sorted.
From Stdlib Require Lqa.
From stdpp Require Import gmap strings list pretty.
From Equations Require Import Equations.
Import ListNotations.

Set Warnings "-register-all,-clear-no-such-hyp".
Local Open Scope string_scope.

(* ===================================================================== *)
(** * Part I: the embedding                                               *)
(* ===================================================================== *)

(** ** Python values, exceptions and the builtins the sources use *)

Module Py.

Inductive exn_kind : Type :=
| TypeError | ValueError | ZeroDivisionError | OverflowError
| AttributeError | KeyError | ServiceError.

(** An exception object: its class and the text [str(e)] gives. *)
Record exn : Type := Exn { exn_class : exn_kind; exn_str : string }.

Inductive outcome (A : Type) : Type :=
| Ok (a : A)
| Raise (e : exn).
Arguments Ok {A} a.
Arguments Raise {A} e.

Definition bind {A B : Type} (c : outcome A) (k : A -> outcome B) : outcome B :=
  match c with
  | Ok a => k a
  | Raise e => Raise e
  end.

(** The sequencing notation [x ← c; k] is stdpp's, through these instances. *)
#[global] Instance outcome_ret : MRet outcome := fun A a => Ok a.
#[global] Instance outcome_bind : MBind outcome := fun A B k c => bind c k.

(** [try: body  except Exception as e: return handler e]. *)
Definition try_except {A : Type} (body : outcome A) (handler : exn -> outcome A) : outcome A :=
  match body with
  | Ok a => Ok a
  | Raise e => handler e
  end.

(** [datetime.datetime]: the wall-clock reading in microseconds since
    0001-01-01T00:00:00 and, for an aware value, its UTC offset in
    microseconds. *)
Record datetime : Type := DateTime { wall_micros : Z; utcoffset : option Z }.

Inductive pyval : Type :=
| PNone
| PBool (b : bool)
| PInt (z : Z)
| PFloat (q : Q)
| PStr (s : string)
| PDatetime (d : datetime)
| PList (l : list pyval)
| PDict (kv : list (string * pyval)).

Fixpoint assoc {A : Type} (k : string) (kv : list (string * A)) : option A :=
  match kv with
  | [] => None
  | (k', v) :: rest => if String.eqb k k' then Some v else assoc k rest
  end.

(** [d.get(k, default)]; only a dict has the method. *)
Definition py_get (d : pyval) (k : string) (default : pyval) : outcome pyval :=
  match d with
  | PDict kv => Ok (match assoc k kv with Some v => v | None => default end)
  | _ => Raise (Exn AttributeError "object has no attribute 'get'")
  end.

(** Truth value testing, as [not x] and [if x:] use it. *)
Definition truthy (v : pyval) : bool :=
  match v with
  | PNone => false
  | PBool b => b
  | PInt z => negb (Z.eqb z 0)
  | PFloat q => negb (Qeq_bool q 0)
  | PStr s => negb (String.eqb s "")
  | PDatetime _ => true
  | PList l => match l with [] => false | _ => true end
  | PDict kv => match kv with [] => false | _ => true end
  end.

(** [a - b] on two datetimes, as a timedelta in microseconds: naive and
    aware values do not mix. *)
Definition datetime_sub (a b : datetime) : outcome Z :=
  match utcoffset a, utcoffset b with
  | None, None => Ok (wall_micros a - wall_micros b)%Z
  | Some oa, Some ob => Ok ((wall_micros a - oa) - (wall_micros b - ob))%Z
  | _, _ => Raise (Exn TypeError "can't subtract offset-naive and offset-aware datetimes")
  end.

(** [current_time - v] for an arbitrary right operand. *)
Definition datetime_minus (a : datetime) (v : pyval) : outcome Z :=
  match v with
  | PDatetime b => datetime_sub a b
  | _ => Raise (Exn TypeError "unsupported operand type(s) for -")
  end.

(** [timedelta.total_seconds()]. *)
Definition total_seconds (td : Z) : R := (IZR td / 1000000)%R.

(** [s.replace('Z', '+00:00')]. *)
Fixpoint replace_Z (s : string) : string :=
  match s with
  | EmptyString => EmptyString
  | String c rest =>
      if Ascii.eqb c "Z"%char then "+00:00" ++ replace_Z rest
      else String c (replace_Z rest)
  end.

(** The largest finite double; [math.exp] raises [OverflowError] beyond it.
    Floats are read as reals: rounding, and the underflow of [math.exp] to
    0.0 below about -745, are not modelled, so the properties of the
    strength state no strict inequality between two strengths. *)
Definition float_max : R := ((2 - / 2 ^ 52) * 2 ^ 1023)%R.

Definition math_log (x : R) : outcome R :=
  if Rlt_dec 0 x then Ok (ln x) else Raise (Exn ValueError "math domain error").

Definition math_exp (x : R) : outcome R :=
  if Rlt_dec float_max (exp x) then Raise (Exn OverflowError "math range error")
  else Ok (exp x).

Definition truediv (a b : R) : outcome R :=
  if Req_dec_T b 0 then Raise (Exn ZeroDivisionError "float division by zero")
  else Ok (a / b)%R.

(** [v + 1] read as a number, for the values [+] accepts with an int. *)
Definition plus_one (v : pyval) : outcome R :=
  match v with
  | PInt z => Ok (IZR (z + 1))
  | PBool b => Ok (IZR (Z.b2z b + 1))
  | PFloat q => Ok (Q2R q + 1)%R
  | _ => Raise (Exn TypeError "unsupported operand type(s) for +")
  end.

(** Iteration, as [for x in v] and [list.extend(v)] perform it. *)
Definition py_iter (v : pyval) : outcome (list pyval) :=
  match v with
  | PList l => Ok l
  | PStr s => Ok (List.map (fun c => PStr (String c EmptyString)) (list_ascii_of_string s))
  | PDict kv => Ok (List.map (fun p => PStr (fst p)) kv)
  | _ => Raise (Exn TypeError "object is not iterable")
  end.

(** Only hashable values can be dict keys or set members. *)
Definition hashable (v : pyval) : bool :=
  match v with
  | PList _ | PDict _ => false
  | _ => true
  end.

Definition as_number (v : pyval) : option Q :=
  match v with
  | PBool b => Some (inject_Z (Z.b2z b))
  | PInt z => Some (inject_Z z)
  | PFloat q => Some q
  | _ => None
  end.

Definition datetime_eqb (a b : datetime) : bool :=
  match utcoffset a, utcoffset b with
  | None, None => Z.eqb (wall_micros a) (wall_micros b)
  | Some oa, Some ob => Z.eqb (wall_micros a - oa) (wall_micros b - ob)
  | _, _ => false
  end.

(** [a == b] on hashable values (numbers compare across bool, int, float). *)
Definition key_eqb (a b : pyval) : bool :=
  match as_number a, as_number b with
  | Some x, Some y => Qeq_bool x y
  | None, None =>
      match a, b with
      | PNone, PNone => true
      | PStr s, PStr t => String.eqb s t
      | PDatetime d, PDatetime e => datetime_eqb d e
      | _, _ => false
      end
  | _, _ => false
  end.

(** [v == "literal"]. *)
Definition eq_str (v : pyval) (s : string) : bool :=
  match v with
  | PStr t => String.eqb t s
  | _ => false
  end.

(** [a < b], as [list.sort] uses it on keys: numbers, strings and datetimes
    of one kind are ordered; the ordering of lists is not modelled. *)
Definition py_lt (a b : pyval) : outcome bool :=
  match as_number a, as_number b with
  | Some x, Some y => Ok (if Qlt_le_dec x y then true else false)
  | None, None =>
      match a, b with
      | PStr s, PStr t => Ok (String.ltb s t)
      | PDatetime d, PDatetime e =>
          match utcoffset d, utcoffset e with
          | None, None => Ok (Z.ltb (wall_micros d) (wall_micros e))
          | Some od, Some oe => Ok (Z.ltb (wall_micros d - od) (wall_micros e - oe))
          | _, _ => Raise (Exn TypeError "can't compare offset-naive and offset-aware datetimes")
          end
      | _, _ => Raise (Exn TypeError "'<' not supported between instances")
      end
  | _, _ => Raise (Exn TypeError "'<' not supported between instances")
  end.

(** [l[:n]] on a list, for any integer [n]. *)
Definition slice_to {A : Type} (n : Z) (l : list A) : list A :=
  if (0 <=? n)%Z then firstn (Z.to_nat n) l
  else firstn (length l - Z.to_nat (- n)) l.

(** [l[i+1:]] is [skipn (S i) l]; [v[:n]] on a value. *)
Definition py_slice_to (n : Z) (v : pyval) : outcome pyval :=
  match v with
  | PStr s => Ok (PStr (string_of_list_ascii (slice_to n (list_ascii_of_string s))))
  | PList l => Ok (PList (slice_to n l))
  | _ => Raise (Exn TypeError "object is not subscriptable")
  end.

(** [d[k]] on a dict. *)
Definition py_getitem (d : pyval) (k : string) : outcome pyval :=
  match d with
  | PDict kv =>
      match assoc k kv with
      | Some v => Ok v
      | None => Raise (Exn KeyError k)
      end
  | _ => Raise (Exn TypeError "object is not subscriptable")
  end.

(** [d[k] = v] on a dict: the key keeps its place when present. *)
Fixpoint assoc_set {A : Type} (k : string) (v : A) (kv : list (string * A)) : list (string * A) :=
  match kv with
  | [] => [(k, v)]
  | (k', v') :: rest =>
      if String.eqb k k' then (k, v) :: rest else (k', v') :: assoc_set k v rest
  end.

Definition ascii_lower (c : ascii) : ascii :=
  let n := nat_of_ascii c in
  if andb (65 <=? n)%nat (n <=? 90)%nat then ascii_of_nat (n + 32) else c.

(** [s.lower()], on the ASCII letters (other bytes are kept). *)
Fixpoint str_lower (s : string) : string :=
  match s with
  | EmptyString => EmptyString
  | String c rest => String (ascii_lower c) (str_lower rest)
  end.

(** [sub in s] on strings. *)
Definition str_contains (sub s : string) : bool :=
  match String.index 0 sub s with
  | Some _ => true
  | None => false
  end.

Fixpoint mapM {A B : Type} (f : A -> outcome B) (l : list A) : outcome (list B) :=
  match l with
  | [] => Ok []
  | x :: rest => y ← f x; ys ← mapM f rest; Ok (y :: ys)
  end.

Fixpoint foldM {A S : Type} (f : S -> A -> outcome S) (l : list A) (s : S) : outcome S :=
  match l with
  | [] => Ok s
  | x :: rest => s' ← f s x; foldM f rest s'
  end.

(** Stable insertion sort, the order [list.sort] and [sorted] produce:
    [before x y] says that [x] must come before [y]. *)
Fixpoint insert_sorted {A : Type} (before : A -> A -> bool) (x : A) (l : list A) : list A :=
  match l with
  | [] => [x]
  | y :: rest => if before x y then x :: y :: rest else y :: insert_sorted before x rest
  end.

Definition stable_sort {A : Type} (before : A -> A -> bool) (l : list A) : list A :=
  fold_left (fun acc x => insert_sorted before x acc) l [].

(** The same with a comparison that can raise. *)
Fixpoint insert_sortedM {A : Type} (before : A -> A -> outcome bool) (x : A) (l : list A)
  : outcome (list A) :=
  match l with
  | [] => Ok [x]
  | y :: rest =>
      bind (before x y) (fun b : bool =>
        if b then Ok (x :: y :: rest)
        else (r ← insert_sortedM before x rest; Ok (y :: r)))
  end.

Definition stable_sortM {A : Type} (before : A -> A -> outcome bool) (l : list A)
  : outcome (list A) :=
  foldM (fun acc x => insert_sortedM before x acc) l [].

(** A dict keyed by hashable values, in insertion order. *)
Fixpoint vassoc {A : Type} (k : pyval) (kv : list (pyval * A)) : option A :=
  match kv with
  | [] => None
  | (k', v) :: rest => if key_eqb k k' then Some v else vassoc k rest
  end.

(** [d[k] = f(d[k])] on a [defaultdict] whose missing entries read [dflt]. *)
Fixpoint vassoc_update {A : Type} (k : pyval) (dflt : A) (f : A -> A)
    (kv : list (pyval * A)) : list (pyval * A) :=
  match kv with
  | [] => [(k, f dflt)]
  | (k', v) :: rest =>
      if key_eqb k k' then (k', f v) :: rest
      else (k', v) :: vassoc_update k dflt f rest
  end.

(** A set of hashable values, as a duplicate-free list. *)
Definition set_mem (x : pyval) (s : list pyval) : bool := existsb (key_eqb x) s.
Definition set_add (x : pyval) (s : list pyval) : list pyval :=
  if set_mem x s then s else s ++ [x].
Definition set_inter (s1 s2 : list pyval) : list pyval :=
  List.filter (fun x => set_mem x s2) s1.

(** [round(x)] to the nearest integer, ties to even, and [round(x, 2)]. *)
Definition round_half_even (q : Q) : Z :=
  let f := Qfloor q in
  let r := (q - inject_Z f)%Q in
  match (r ?= 1 # 2)%Q with
  | Lt => f
  | Gt => (f + 1)%Z
  | Eq => if Z.even f then f else (f + 1)%Z
  end.

Definition round2 (q : Q) : Q := (inject_Z (round_half_even (q * 100)) / 100)%Q.

(** The result of an operation that answers [{"error": str(e)}] on failure. *)
Inductive result (A : Type) : Type :=
| Result (a : A)
| ErrorDict (msg : string).
Arguments Result {A} a.
Arguments ErrorDict {A} msg.

End Py.


(** ** services/memory_service.py and services/graph_service.py: the
    capabilities the reasoning services call *)

Module Services.
Import Py.

(** The memory store, as the services use it.  [store_memory] is the method
    the agents and the orchestrator call on it. *)
Record MemoryService : Type := {
  recall_paper_memories : string -> pyval -> Z -> outcome (list pyval);
  search_memories : string -> string -> Z -> outcome (list pyval);
  get_recent_context : string -> Z -> outcome (list pyval);
  store_memory : string -> string -> pyval -> outcome unit
}.

Definition mock_search_results : list pyval :=
  [ PDict [("id", PInt 101); ("score", PFloat (95 # 100));
           ("content", PDict [("type", PStr "paper_reading");
                              ("paper_id", PStr "mock-paper-1");
                              ("title", PStr "Mock Paper 1: Semantic Search");
                              ("abstract", PStr "This paper discusses semantic search.");
                              ("key_concepts", PList [PStr "Semantic Search"; PStr "Vector Databases"])])];
    PDict [("id", PInt 102); ("score", PFloat (88 # 100));
           ("content", PDict [("type", PStr "paper_reading");
                              ("paper_id", PStr "mock-paper-2");
                              ("title", PStr "Mock Paper 2: Graph Reasoning");
                              ("abstract", PStr "This paper discusses graph reasoning.");
                              ("key_concepts", PList [PStr "Neo4j"; PStr "Cypher"])])] ].

Definition mock_recent_context : list pyval :=
  [ PDict [("id", PInt 401);
           ("content", PDict [("type", PStr "paper_reading");
                              ("paper_id", PStr "mock-paper-1");
                              ("title", PStr "Mock Paper 1")])];
    PDict [("id", PInt 402);
           ("content", PDict [("type", PStr "annotation");
                              ("paper_id", PStr "mock-paper-1");
                              ("annotation", PStr "Key finding noted.")])] ].

(** [MockMemoryService], over the contents of its [mock_memories] dict.  The
    class defines no [store_memory]: the attribute lookup raises. *)
Definition MockMemoryService (mock_memories : list (string * list pyval)) : MemoryService :=
  {| recall_paper_memories := fun researcher_id paper_id limit =>
       let memories :=
         match assoc researcher_id mock_memories with Some l => l | None => [] end in
       memories ←
         (if truthy paper_id then
            foldM (fun acc m =>
                     content ← py_get m "content" (PDict []);
                     pid ← py_get content "paper_id" PNone;
                     Ok (if key_eqb pid paper_id then (acc ++ [m])%list else acc))
                  memories []
          else Ok memories);
       Ok (slice_to limit memories);
     search_memories := fun _ _ limit => Ok (slice_to limit mock_search_results);
     get_recent_context := fun _ _ => Ok mock_recent_context;
     store_memory := fun _ _ _ =>
       Raise (Exn AttributeError "'MockMemoryService' object has no attribute 'store_memory'")
  |}.

(** Rows of the graph queries: the columns of each [RETURN] clause.  Columns
    the code computes with carry the type the graph schema gives them; columns
    it only copies into its answer are arbitrary values. *)
Record analogy_row := { an_method : pyval; an_source_papers : pyval; an_target_papers : pyval }.
Record citation_row := { citing_paper : pyval; citing_title : pyval;
                         cited_paper : pyval; cited_title : pyval }.
Record connection_row := { cn_concept : pyval; cn_paper_count : Z }.
Record year_row := { yr_year : Z; yr_paper_count : Z }.
Record citing_row := { ct_citing_id : pyval; ct_title : pyval; ct_year : pyval; ct_distance : Z }.
Record paper_row := { pr_paper_id : pyval; pr_title : pyval; pr_year : pyval }.
Record method_row := { mr_method : pyval; mr_covered_concepts : pyval; mr_concept_count : Z }.
Record collab_row := { author1 : string; author2 : string; collaborations : Z }.

(** The graph store.  [driver_session] is
    [graph_service.driver.session(database=graph_service.database)]; each
    [run_*] field is [session.run] on one of the queries of
    graph_reasoning.py, with the query's parameters. *)
Record GraphService : Type := {
  driver_session : outcome unit;
  run_analogies : string -> string -> Z -> outcome (list analogy_row);
  run_contradictions : string -> outcome (list citation_row);
  run_missing_connections : string -> outcome (list connection_row);
  run_unexplored_methods : string -> outcome (list pyval);
  run_lifecycle : string -> outcome (list year_row);
  run_influence : string -> Z -> outcome (list citing_row);
  run_existing_synthesis : list string -> outcome (list paper_row);
  run_shared_methods : list string -> outcome (list method_row);
  run_collaborations : outcome (list collab_row);
  get_related_papers : string -> Z -> outcome (list pyval);
  get_researcher_papers : string -> outcome (list pyval);
  find_bridge_concepts : string -> string -> outcome (list pyval);
  get_emerging_concepts : Z -> outcome (list pyval)
}.

Definition no_driver : exn :=
  Exn AttributeError "'MockGraphService' object has no attribute 'driver'".

(** [MockGraphService]: it has no [driver] attribute, so no session opens
    and no query runs. *)
Definition MockGraphService : GraphService :=
  {| driver_session := Raise no_driver;
     run_analogies := fun _ _ _ => Raise no_driver;
     run_contradictions := fun _ => Raise no_driver;
     run_missing_connections := fun _ => Raise no_driver;
     run_unexplored_methods := fun _ => Raise no_driver;
     run_lifecycle := fun _ => Raise no_driver;
     run_influence := fun _ _ => Raise no_driver;
     run_existing_synthesis := fun _ => Raise no_driver;
     run_shared_methods := fun _ => Raise no_driver;
     run_collaborations := Raise no_driver;
     get_related_papers := fun _ _ =>
       Ok [PDict [("paper_id", PStr "mock-paper-1"); ("title", PStr "Mock Paper 1");
                  ("year", PInt 2024)]];
     get_researcher_papers := fun _ =>
       Ok [PDict [("paper_id", PStr "mock-paper-1"); ("title", PStr "Mock Paper 1");
                  ("read_at", PStr "2025-12-18"); ("notes", PStr "Mock notes")]];
     find_bridge_concepts := fun _ _ => Ok [PStr "Bridge Concept A"; PStr "Bridge Concept B"];
     get_emerging_concepts := fun _ =>
       Ok [PDict [("concept", PStr "Mock Emerging Concept"); ("recent_count", PInt 5)]]
  |}.

End Services.

(** ** services/memory_consolidation.py *)

Module MemoryConsolidation.
Import Py.

Section Strength.
(** [datetime.fromisoformat], a builtin of the Python runtime: it returns
    the parsed value or raises [ValueError]. *)
Variable fromisoformat : string -> outcome datetime.

(** The [try] block of [calculate_memory_strength]. *)
Definition calculate_memory_strength_body
    (memory : pyval) (current_time : datetime) : outcome R :=
  content ← py_get memory "content" (PDict []);
  timestamp ← py_get content "timestamp" PNone;
  if negb (truthy timestamp) then Ok 0.5%R
  else
    memory_time ← match timestamp with
                   | PStr s => d ← fromisoformat (replace_Z s); Ok (PDatetime d)
                   | _ => Ok timestamp
                   end;
    delta ← datetime_minus current_time memory_time;
    let time_elapsed := (total_seconds delta / 86400)%R in
    metadata ← py_get memory "metadata" (PDict []);
    access_count ← py_get metadata "access_count" (PInt 1);
    n ← plus_one access_count;
    l ← math_log n;
    let strength := (l + 1)%R in
    q ← truediv (- time_elapsed) (strength * 30);
    retention ← math_exp q;
    Ok (Rmin 1 retention).

Definition calculate_memory_strength
    (memory : pyval) (current_time : datetime) : outcome R :=
  try_except (calculate_memory_strength_body memory current_time)
             (fun _ => Ok 0.5%R).

(** An entry of [memory_strengths]: [{"memory": ..., "strength": ...}]. *)
Record strength_item : Type := { item_memory : pyval; item_strength : R }.

Definition Rltb (x y : R) : bool := if Rlt_dec x y then true else false.

(** [_group_by_concept]: a dict from concept to the items that carry it, in
    insertion order. *)
Definition _group_by_concept (memory_strengths : list strength_item)
  : outcome (list (pyval * list strength_item)) :=
  foldM (fun concept_groups item =>
           content ← py_get (item_memory item) "content" (PDict []);
           concepts ← py_get content "key_concepts" (PList []);
           cs ← py_iter concepts;
           foldM (fun groups concept =>
                    if hashable concept
                    then Ok (vassoc_update concept [] (fun l => (l ++ [item])%list) groups)
                    else Raise (Exn TypeError "unhashable type"))
                 cs concept_groups)
        memory_strengths [].

(** The set [{m["memory"].get("content", {}).get("paper_id") for m in group}]. *)
Definition paper_id_set (group : list strength_item) : outcome (list pyval) :=
  foldM (fun acc m =>
           content ← py_get (item_memory m) "content" (PDict []);
           pid ← py_get content "paper_id" PNone;
           if hashable pid then Ok (set_add pid acc)
           else Raise (Exn TypeError "unhashable type"))
        group [].

Record cross_reference : Type := {
  xr_concept1 : pyval; xr_concept2 : pyval; xr_shared_papers : nat; xr_strength : Q }.

(** The inner loop of [_build_cross_references], for one [concept1]. *)
Definition cross_references_from (concept1 : pyval) (group1 : list strength_item)
    (later : list (pyval * list strength_item)) (cross_refs : list cross_reference)
  : outcome (list cross_reference) :=
  foldM (fun refs entry =>
           let '(concept2, group2) := entry in
           group1_papers ← paper_id_set group1;
           group2_papers ← paper_id_set group2;
           let overlap := set_inter group1_papers group2_papers in
           match overlap with
           | [] => Ok refs
           | _ =>
               Ok (refs ++
                   [{| xr_concept1 := concept1; xr_concept2 := concept2;
                       xr_shared_papers := length overlap;
                       xr_strength :=
                         (inject_Z (Z.of_nat (length overlap))
                          / inject_Z (Z.of_nat (Nat.min (length group1_papers)
                                                        (length group2_papers))))%Q |}])%list
           end)
        later cross_refs.

Fixpoint build_from (concepts : list (pyval * list strength_item))
    (cross_refs : list cross_reference) : outcome (list cross_reference) :=
  match concepts with
  | [] => Ok cross_refs
  | (concept1, group1) :: later =>
      refs ← cross_references_from concept1 group1 later cross_refs;
      build_from later refs
  end.

Definition _build_cross_references (concept_groups : list (pyval * list strength_item))
  : outcome (list cross_reference) :=
  build_from concept_groups [].
End Strength.

Section Reports.
Variable fromisoformat : string -> outcome datetime.
(** The builtin [str], as f-strings and [str(x)] apply it. *)
Variable py_str : pyval -> string.
Variable memory_service : Services.MemoryService.
Variable graph_service : Services.GraphService.

(** [_generate_summary]. *)
Definition _generate_summary {A : Type} (concept_groups : list (pyval * list A)) : string :=
  let top_concepts :=
    firstn 5 (stable_sort (fun x y => (length (snd y) <? length (snd x))%nat)
                          concept_groups) in
  fold_left (fun summary entry =>
               summary ++ "- " ++ py_str (fst entry) ++ ": "
               ++ pretty (length (snd entry)) ++ " memories" ++ String "010"%char "")
            top_concepts ("Top consolidated concepts:" ++ String "010"%char "").

Record consolidation : Type := {
  co_total_memories : nat;
  co_strong_memories : nat;
  co_weak_memories : nat;
  co_concept_groups : nat;
  co_cross_references : nat;
  co_consolidation_summary : string }.

(** [consolidate_memories]; [current_time] is the reading of
    [datetime.now()]. *)
Definition consolidate_memories (researcher_id : string) (time_window_days : Z)
    (current_time : datetime) : outcome (result consolidation) :=
  try_except
    (memories ← Services.recall_paper_memories memory_service researcher_id PNone 100;
     memory_strengths ←
       mapM (fun memory =>
               strength ← calculate_memory_strength fromisoformat memory current_time;
               Ok {| item_memory := memory; item_strength := strength |})
            memories;
     let memory_strengths :=
       stable_sort (fun x y => Rltb (item_strength y) (item_strength x)) memory_strengths in
     concept_groups ← _group_by_concept memory_strengths;
     cross_refs ← _build_cross_references concept_groups;
     let to_strengthen :=
       List.filter (fun m => Rltb 0.7 (item_strength m)) memory_strengths in
     let to_prune :=
       List.filter (fun m => Rltb (item_strength m) 0.2) memory_strengths in
     Ok (Result {| co_total_memories := length memories;
                   co_strong_memories := length to_strengthen;
                   co_weak_memories := length to_prune;
                   co_concept_groups := length concept_groups;
                   co_cross_references := length cross_refs;
                   co_consolidation_summary := _generate_summary concept_groups |}))
    (fun e => Ok (ErrorDict (exn_str e))).

(** [_calculate_mastery]. *)
Definition _calculate_mastery (exposure_count : Z) : string :=
  if (10 <=? exposure_count)%Z then "expert"
  else if (5 <=? exposure_count)%Z then "proficient"
  else if (2 <=? exposure_count)%Z then "familiar"
  else "novice".

Record exposure : Type := {
  ex_timestamp : pyval; ex_paper_id : pyval; ex_title : pyval; ex_context : pyval }.

Record evolution : Type := {
  ev_concept : string;
  ev_first_encountered : option pyval;
  ev_total_exposures : nat;
  ev_evolution_score : Q;
  ev_timeline : list exposure;
  ev_mastery_level : string }.

(** [min(1.0, x)]. *)
Definition min_one (x : Q) : Q := if Qlt_le_dec x 1 then x else 1%Q.

(** [track_concept_evolution]. *)
Definition track_concept_evolution (researcher_id concept : string)
  : outcome (result evolution) :=
  try_except
    (memories ← Services.search_memories memory_service researcher_id concept 50;
     timeline ←
       foldM (fun timeline memory =>
                content ← py_get memory "content" (PDict []);
                key_concepts ← py_get content "key_concepts" (PList []);
                if str_contains (str_lower concept) (str_lower (py_str key_concepts))
                then
                  timestamp ← py_get content "timestamp" (PStr "");
                  paper_id ← py_get content "paper_id" PNone;
                  title ← py_get content "title" PNone;
                  abstract ← py_get content "abstract" (PStr "");
                  context ← py_slice_to 200 abstract;
                  Ok (timeline ++ [{| ex_timestamp := timestamp; ex_paper_id := paper_id;
                                      ex_title := title; ex_context := context |}])%list
                else Ok timeline)
             memories [];
     timeline ← stable_sortM (fun x y => py_lt (ex_timestamp x) (ex_timestamp y)) timeline;
     let evolution_score := (inject_Z (Z.of_nat (length timeline)) * (1 # 10))%Q in
     Ok (Result {| ev_concept := concept;
                   ev_first_encountered :=
                     match timeline with
                     | first :: _ => Some (ex_timestamp first)
                     | [] => None
                     end;
                   ev_total_exposures := length timeline;
                   ev_evolution_score := min_one evolution_score;
                   ev_timeline := timeline;
                   ev_mastery_level := _calculate_mastery (Z.of_nat (length timeline)) |}))
    (fun e => Ok (ErrorDict (exn_str e))).

Record knowledge_gap : Type := {
  gap_concept : pyval; gap_importance : pyval;
  gap_reason : string; gap_recommended_action : string }.

(** [identify_memory_gaps]: [known_concepts] stays the empty set, so every
    hashable concept passes the membership test. *)
Definition identify_memory_gaps (researcher_id : string) : outcome (list knowledge_gap) :=
  try_except
    (papers ← Services.get_researcher_papers graph_service researcher_id;
     emerging ← Services.get_emerging_concepts graph_service 2023;
     foldM (fun gaps concept_data =>
              concept ← py_get concept_data "concept" PNone;
              if hashable concept then
                importance ← py_get concept_data "recent_count" (PInt 0);
                Ok (gaps ++ [{| gap_concept := concept; gap_importance := importance;
                                gap_reason := "Emerging trend in recent papers";
                                gap_recommended_action :=
                                  "Read papers discussing this concept" |}])%list
              else Raise (Exn TypeError "unhashable type"))
           (firstn 10 emerging) [])
    (fun _ => Ok []).

(** [_generate_recommendations]. *)
Definition _generate_recommendations (avg_strength : R) (gap_count : nat) : list string :=
  ((if Rltb avg_strength 0.5 then ["Review older papers to strengthen memories"] else [])
   ++ (if (5 <? gap_count)%nat then ["Explore emerging concepts to fill knowledge gaps"] else [])
   ++ ["Regular reading maintains memory strength"])%list.

(** [round(x, 2)] on a float read as a real: nearest hundredth, ties to even. *)
Definition round2_R (x : R) : R :=
  let y := (x * 100)%R in
  let f := Int_part y in
  let r := frac_part y in
  (IZR (if Rlt_dec r (1 / 2) then f
        else if Rlt_dec (1 / 2) r then (f + 1)%Z
        else if Z.even f then f else (f + 1)%Z) / 100)%R.

Record memory_report : Type := {
  rp_researcher_id : string;
  rp_total_memories : nat;
  rp_average_memory_strength : R;
  rp_strong_memories : nat;
  rp_weak_memories : nat;
  rp_unique_concepts : nat;
  rp_top_concepts : list (pyval * nat);
  rp_knowledge_gaps : list knowledge_gap;
  rp_recommendations : list string }.

(** [generate_memory_report]. *)
Definition generate_memory_report (researcher_id : string) (current_time : datetime)
  : outcome (result memory_report) :=
  try_except
    (memories ← Services.recall_paper_memories memory_service researcher_id PNone 100;
     strengths ←
       mapM (fun m => calculate_memory_strength fromisoformat m current_time) memories;
     let avg_strength :=
       match strengths with
       | [] => 0%R
       | _ => (fold_left Rplus strengths 0 / INR (length strengths))%R
       end in
     all_concepts ←
       foldM (fun all memory =>
                content ← py_get memory "content" (PDict []);
                concepts ← py_get content "key_concepts" (PList []);
                cs ← py_iter concepts;
                Ok (all ++ cs)%list)
             memories [];
     concept_freq ←
       foldM (fun freq concept =>
                if hashable concept then Ok (vassoc_update concept 0%nat S freq)
                else Raise (Exn TypeError "unhashable type"))
             all_concepts [];
     let top_concepts :=
       firstn 10 (stable_sort (fun x y => (snd y <? snd x)%nat) concept_freq) in
     gaps ← identify_memory_gaps researcher_id;
     Ok (Result {| rp_researcher_id := researcher_id;
                   rp_total_memories := length memories;
                   rp_average_memory_strength := round2_R avg_strength;
                   rp_strong_memories :=
                     length (List.filter (fun s => Rltb 0.7 s) strengths);
                   rp_weak_memories :=
                     length (List.filter (fun s => Rltb s 0.3) strengths);
                   rp_unique_concepts := length concept_freq;
                   rp_top_concepts := top_concepts;
                   rp_knowledge_gaps := firstn 5 gaps;
                   rp_recommendations :=
                     _generate_recommendations avg_strength (length gaps) |}))
    (fun e => Ok (ErrorDict (exn_str e))).
End Reports.

End MemoryConsolidation.

(** ** services/graph_reasoning.py *)

Module GraphReasoning.
Import Py Services.

(** A call on the graph store. *)
Inductive gcall : Type :=
| OpenSession
| RunAnalogies (source_domain target_domain : string) (max_analogies : Z)
| RunContradictions (concept : string)
| RunMissingConnections (research_area : string)
| RunUnexploredMethods (research_area : string)
| RunLifecycle (concept : string)
| RunInfluence (paper_id : string) (max_depth : Z)
| RunExistingSynthesis (concepts : list string)
| RunSharedMethods (concepts : list string)
| RunCollaborations
| GetRelatedPapers (concept : string) (limit : Z)
| FindBridgeConcepts (concept1 concept2 : string).

(** A computation that may raise and that records, in order, the calls it
    makes on the graph store. *)
Record G (A : Type) : Type := MkG { runG : list gcall -> outcome A * list gcall }.
Arguments MkG {A} runG.
Arguments runG {A} g log.

#[global] Instance G_ret : MRet G := fun A a => MkG (fun log => (Ok a, log)).
#[global] Instance G_bind : MBind G := fun A B k c =>
  MkG (fun log =>
         match runG c log with
         | (Ok a, log') => runG (k a) log'
         | (Raise e, log') => (Raise e, log')
         end).

Definition raiseG {A : Type} (e : exn) : G A := MkG (fun log => (Raise e, log)).

(** The call [c] on the store, which answers [o]. *)
Definition ask {A : Type} (c : gcall) (o : outcome A) : G A :=
  MkG (fun log => (o, (log ++ [c])%list)).

Definition try_exceptG {A : Type} (body : G A) (handler : exn -> G A) : G A :=
  MkG (fun log =>
         match runG body log with
         | (Ok a, log') => (Ok a, log')
         | (Raise e, log') => runG (handler e) log'
         end).

(** What the operation answers, and the calls it made. *)
Definition answer {A : Type} (g : G A) : outcome A := fst (runG g []).
Definition calls {A : Type} (g : G A) : list gcall := snd (runG g []).

Inductive analogy : Type :=
| Methodological (shared_method source_examples target_examples : pyval)
                 (insight : string) (transferability_score : Q)
| Conceptual (bridge_concept : pyval) (insight : string) (transferability_score : Q).

Record contradiction : Type := {
  cd_type : string;
  cd_paper1_id : pyval; cd_paper1_title : pyval;
  cd_paper2_id : pyval; cd_paper2_title : pyval;
  cd_confidence : Q; cd_requires_investigation : bool }.

Record missing_connection : Type := {
  mc_concept : pyval; mc_current_papers : Z; mc_opportunity_score : Q;
  mc_recommendation : string }.

Record unexplored_method : Type := {
  um_method : pyval; um_status : string; um_potential : string; um_recommendation : string }.

Record research_gaps : Type := {
  missing_connections : list missing_connection;
  under_explored_methods : list unexplored_method;
  novel_combinations : list pyval }.

Record lifecycle : Type := {
  lc_concept : string;
  lc_first_appeared : Z;
  lc_total_years : nat;
  lc_lifecycle_stage : string;
  lc_growth_rate : Q;
  lc_timeline : list year_row;
  lc_prediction : string }.

Record citing_paper_entry : Type := { ip_paper_id : pyval; ip_title : pyval; ip_year : pyval }.

Record influence : Type := {
  inf_paper_id : string;
  inf_direct_citations : nat;
  inf_indirect_citations : nat;
  inf_influence_score : R;
  inf_max_depth_reached : Z;
  inf_influence_by_distance : list (string * nat) }.

Inductive synthesis_path : Type :=
| ExistingSynthesis (paper_id title year : pyval) (concepts_combined : list string)
                    (novelty : string)
| MethodologicalSynthesis (shared_method concepts_covered : pyval) (novelty : string)
                          (recommendation : string).

Record community : Type := {
  cm_type : string; cm_members : list string; cm_size : nat; cm_cohesion : string }.

(** [sep.join(l)]. *)
Fixpoint join (sep : string) (l : list string) : string :=
  match l with
  | [] => ""
  | [x] => x
  | x :: rest => x ++ sep ++ join sep rest
  end.

Section Operations.
Variable py_str : pyval -> string.
Variable graph_service : GraphService.

(** [find_analogies]. *)
Definition find_analogies (source_domain target_domain : string) (max_analogies : Z)
  : G (list analogy) :=
  try_exceptG
    (source_papers ← ask (GetRelatedPapers source_domain 20)
                         (get_related_papers graph_service source_domain 20);
     target_papers ← ask (GetRelatedPapers target_domain 20)
                         (get_related_papers graph_service target_domain 20);
     session ← ask OpenSession (driver_session graph_service);
     rows ← ask (RunAnalogies source_domain target_domain max_analogies)
                (run_analogies graph_service source_domain target_domain max_analogies);
     let analogies :=
       List.map (fun record =>
                   Methodological (an_method record) (an_source_papers record)
                     (an_target_papers record)
                     ("Method '" ++ py_str (an_method record)
                      ++ "' successfully used in both domains")
                     (8 # 10))
                rows in
     match analogies with
     | [] =>
         bridges ← ask (FindBridgeConcepts source_domain target_domain)
                       (find_bridge_concepts graph_service source_domain target_domain);
         mret (List.map (fun bridge =>
                           Conceptual bridge
                             ("Concept '" ++ py_str bridge ++ "' connects both domains")
                             (6 # 10))
                        (slice_to max_analogies bridges))
     | _ => mret analogies
     end)
    (fun _ => mret []).

(** [detect_contradictions]. *)
Definition detect_contradictions (concept : string) : G (list contradiction) :=
  try_exceptG
    (papers ← ask (GetRelatedPapers concept 30) (get_related_papers graph_service concept 30);
     session ← ask OpenSession (driver_session graph_service);
     rows ← ask (RunContradictions concept) (run_contradictions graph_service concept);
     mret (List.map (fun record =>
                       {| cd_type := "citation_based";
                          cd_paper1_id := citing_paper record;
                          cd_paper1_title := citing_title record;
                          cd_paper2_id := cited_paper record;
                          cd_paper2_title := cited_title record;
                          cd_confidence := 6 # 10;
                          cd_requires_investigation := true |})
                    rows))
    (fun _ => mret []).

(** [analyze_research_gaps]. *)
Definition analyze_research_gaps (research_area : string) : G (result research_gaps) :=
  try_exceptG
    (session ← ask OpenSession (driver_session graph_service);
     rows ← ask (RunMissingConnections research_area)
                (run_missing_connections graph_service research_area);
     let missing :=
       List.map (fun record =>
                   {| mc_concept := cn_concept record;
                      mc_current_papers := cn_paper_count record;
                      mc_opportunity_score := (1 - inject_Z (cn_paper_count record) / 10)%Q;
                      mc_recommendation :=
                        "Explore connections between " ++ research_area ++ " and "
                        ++ py_str (cn_concept record) |})
                rows in
     methods ← ask (RunUnexploredMethods research_area)
                   (run_unexplored_methods graph_service research_area);
     let unexplored :=
       List.map (fun method =>
                   {| um_method := method; um_status := "not_applied";
                      um_potential := "high";
                      um_recommendation :=
                        "Apply " ++ py_str method ++ " to " ++ research_area |})
                methods in
     mret (Result {| missing_connections := missing;
                     under_explored_methods := unexplored;
                     novel_combinations := [] |}))
    (fun e => mret (ErrorDict (exn_str e))).

(** [_predict_trajectory]. *)
Definition _predict_trajectory (timeline : list year_row) (stage : string) : string :=
  if String.eqb stage "emerging" then "Concept is new and gaining attention"
  else if String.eqb stage "rapid_growth"
       then "Expect continued strong growth in next 2-3 years"
  else if String.eqb stage "steady_growth"
       then "Stable research area with consistent output"
  else if String.eqb stage "mature" then "Well-established field, may plateau soon"
  else "Declining interest, may be superseded by newer concepts".

Definition sum_papers (rows : list year_row) : Z :=
  fold_left (fun acc t => (acc + yr_paper_count t)%Z) rows 0%Z.

(** The growth rate and the stage [track_concept_lifecycle] derives from a
    timeline. *)
Definition growth_rate_of (timeline : list year_row) : Q :=
  let recent_years := List.filter (fun t => (2020 <=? yr_year t)%Z) timeline in
  let early_years := List.filter (fun t => (yr_year t <? 2015)%Z) timeline in
  let total_recent := sum_papers recent_years in
  let total_early := match early_years with [] => 1%Z | _ => sum_papers early_years end in
  if (0 <? total_early)%Z then (inject_Z total_recent / inject_Z total_early)%Q else 0%Q.

Definition Qltb (x y : Q) : bool := if Qlt_le_dec x y then true else false.

Definition stage_of (timeline : list year_row) (growth_rate : Q) : string :=
  if (length timeline <? 3)%nat then "emerging"
  else if Qltb 2 growth_rate then "rapid_growth"
  else if Qltb 1 growth_rate then "steady_growth"
  else if Qltb (1 # 2) growth_rate then "mature"
  else "declining".

(** [track_concept_lifecycle]. *)
Definition track_concept_lifecycle (concept : string) : G (result lifecycle) :=
  try_exceptG
    (session ← ask OpenSession (driver_session graph_service);
     timeline ← ask (RunLifecycle concept) (run_lifecycle graph_service concept);
     match timeline with
     | [] => mret (ErrorDict "No temporal data available")
     | first :: _ =>
         let growth_rate := growth_rate_of timeline in
         let stage := stage_of timeline growth_rate in
         mret (Result {| lc_concept := concept;
                         lc_first_appeared := yr_year first;
                         lc_total_years := length timeline;
                         lc_lifecycle_stage := stage;
                         lc_growth_rate := round2 growth_rate;
                         lc_timeline := timeline;
                         lc_prediction := _predict_trajectory timeline stage |})
     end)
    (fun e => mret (ErrorDict (exn_str e))).

(** [influence_map.get(distance)]. *)
Fixpoint assoc_Z {A : Type} (k : Z) (m : list (Z * A)) : option A :=
  match m with
  | [] => None
  | (d, v) :: rest => if Z.eqb d k then Some v else assoc_Z k rest
  end.

(** [influence_map[distance].append(entry)] on the [defaultdict(list)]. *)
Fixpoint map_append (distance : Z) (entry : citing_paper_entry)
    (m : list (Z * list citing_paper_entry)) : list (Z * list citing_paper_entry) :=
  match m with
  | [] => [(distance, [entry])]
  | (d, l) :: rest =>
      if Z.eqb d distance then (d, (l ++ [entry])%list) :: rest
      else (d, l) :: map_append distance entry rest
  end.

(** The loop that sums the influence: [1.0 / (distance ** 1.5)] divides by
    zero at distance 0 and is a complex number at a negative distance, which
    [round] then refuses. *)
Definition total_influence_of (influence_map : list (Z * list citing_paper_entry))
  : outcome R :=
  bind (foldM (fun (acc : R * bool) (entry : Z * list citing_paper_entry) =>
                 let '(total, complex) := acc in
                 let '(distance, papers) := entry in
                 if (distance =? 0)%Z
                 then Raise (Exn ZeroDivisionError "float division by zero")
                 else if (distance <? 0)%Z then Ok (total, true)
                 else Ok ((total + INR (length papers)
                                   * (1 / Rpower (IZR distance) 1.5))%R, complex))
              influence_map (0%R, false))
       (fun acc : R * bool =>
          if snd acc
          then Raise (Exn TypeError "type complex doesn't define __round__ method")
          else Ok (MemoryConsolidation.round2_R (fst acc))).

(** [calculate_influence_propagation]. *)
Definition calculate_influence_propagation (paper_id : string) (max_depth : Z)
  : G (result influence) :=
  try_exceptG
    (session ← ask OpenSession (driver_session graph_service);
     rows ← ask (RunInfluence paper_id max_depth)
                (run_influence graph_service paper_id max_depth);
     let influence_map :=
       fold_left (fun m record =>
                    map_append (ct_distance record)
                      {| ip_paper_id := ct_citing_id record; ip_title := ct_title record;
                         ip_year := ct_year record |} m)
                 rows [] in
     match total_influence_of influence_map with
     | Raise e => raiseG e
     | Ok score =>
         mret (Result
           {| inf_paper_id := paper_id;
              inf_direct_citations :=
                match assoc_Z 1 influence_map with Some l => length l | None => 0%nat end;
              inf_indirect_citations :=
                fold_left (fun acc e => if (1 <? fst e)%Z then (acc + length (snd e))%nat
                                        else acc)
                          influence_map 0%nat;
              inf_influence_score := score;
              inf_max_depth_reached :=
                match influence_map with
                | [] => 0%Z
                | e :: rest => fold_left (fun m x => Z.max m (fst x)) rest (fst e)
                end;
              inf_influence_by_distance :=
                List.map (fun e => ("depth_" ++ pretty (fst e), length (snd e)))
                         influence_map |})
     end)
    (fun e => mret (ErrorDict (exn_str e))).

(** [find_synthesis_paths]. *)
Definition find_synthesis_paths (concepts : list string) : G (list synthesis_path) :=
  try_exceptG
    (if (length concepts <? 2)%nat then mret []
     else
       session ← ask OpenSession (driver_session graph_service);
       papers ← ask (RunExistingSynthesis concepts)
                    (run_existing_synthesis graph_service concepts);
       let existing :=
         List.map (fun record =>
                     ExistingSynthesis (pr_paper_id record) (pr_title record)
                       (pr_year record) concepts "low")
                  papers in
       methods ← ask (RunSharedMethods concepts) (run_shared_methods graph_service concepts);
       mret (existing ++
             List.map (fun record =>
                         MethodologicalSynthesis (mr_method record)
                           (mr_covered_concepts record) "medium"
                           ("Apply " ++ py_str (mr_method record) ++ " to synthesize "
                            ++ join ", " concepts))
                      methods)%list)
    (fun _ => mret []).
End Operations.

(** *** Community detection *)

(** [graph.get(node, set())] on the collaboration graph, a [defaultdict(set)]
    in insertion order. *)
Fixpoint neighbours (graph : list (string * gset string)) (node : string) : gset string :=
  match graph with
  | [] => ∅
  | (k, s) :: rest => if String.eqb k node then s else neighbours rest node
  end.

(** [collab_graph[a].add(b)]. *)
Fixpoint graph_add (a b : string) (graph : list (string * gset string))
  : list (string * gset string) :=
  match graph with
  | [] => [(a, {[b]})]
  | (k, s) :: rest =>
      if String.eqb k a then (k, s ∪ {[b]}) :: rest else (k, s) :: graph_add a b rest
  end.

(** The neighbours the inner [for] loop appends to the queue. *)
Definition to_enqueue (graph : list (string * gset string)) (node : string)
    (visited : gset string) : list string :=
  List.filter (fun neighbor => negb (bool_decide (neighbor ∈ visited)))
              (elements (neighbours graph node)).

(** The measure under which the [while queue] loop terminates: the length
    of the queue plus the sizes of the neighbour sets of the unvisited keys. *)
Definition unvisited_weight (graph : list (string * gset string)) (visited : gset string)
  : nat :=
  sum_list (List.map (fun e : string * gset string =>
                        if bool_decide (fst e ∈ visited) then 0%nat else size (snd e))
                     graph).

Lemma unvisited_weight_cons k s graph visited :
  unvisited_weight ((k, s) :: graph) visited =
  ((if bool_decide (k ∈ visited) then 0 else size s) + unvisited_weight graph visited)%nat.
Proof. reflexivity. Qed.

Lemma unvisited_weight_mono graph visited node :
  (unvisited_weight graph ({[node]} ∪ visited) <= unvisited_weight graph visited)%nat.
Proof.
  induction graph as [|[k s] g IH]; [reflexivity|].
  rewrite !unvisited_weight_cons.
  destruct (bool_decide (k ∈ visited)) eqn:H1.
  - apply bool_decide_eq_true_1 in H1.
    assert (H2 : k ∈ {[node]} ∪ visited) by set_solver.
    rewrite (bool_decide_eq_true_2 _ H2). lia.
  - destruct (bool_decide (k ∈ {[node]} ∪ visited)); lia.
Qed.

Lemma unvisited_weight_visit graph visited node :
  node ∉ visited ->
  (unvisited_weight graph ({[node]} ∪ visited) + size (neighbours graph node)
   <= unvisited_weight graph visited)%nat.
Proof.
  intros Hn. induction graph as [|[k s] g IH].
  - cbn [neighbours]. rewrite size_empty. unfold unvisited_weight. simpl. lia.
  - rewrite !unvisited_weight_cons. cbn [neighbours].
    destruct (String.eqb k node) eqn:Hk.
    + apply String.eqb_eq in Hk. subst k.
      pose proof (unvisited_weight_mono g visited node) as Hm.
      assert (H2 : node ∈ {[node]} ∪ visited) by set_solver.
      rewrite (bool_decide_eq_true_2 _ H2), (bool_decide_eq_false_2 _ Hn). lia.
    + apply String.eqb_neq in Hk.
      destruct (bool_decide (k ∈ visited)) eqn:H1.
      * apply bool_decide_eq_true_1 in H1.
        assert (H2 : k ∈ {[node]} ∪ visited) by set_solver.
        rewrite (bool_decide_eq_true_2 _ H2). lia.
      * apply bool_decide_eq_false_1 in H1.
        assert (H2 : k ∉ {[node]} ∪ visited) by set_solver.
        rewrite (bool_decide_eq_false_2 _ H2). lia.
Qed.

Lemma to_enqueue_length graph node visited :
  (length (to_enqueue graph node visited) <= size (neighbours graph node))%nat.
Proof. unfold to_enqueue. apply List.filter_length_le. Qed.

(** The [while queue] loop of [_bfs_community]: it returns the community and
    the [visited] set, which the caller shares with it. *)
Equations? bfs_loop (graph : list (string * gset string)) (queue : list string)
    (visited community : gset string) : gset string * gset string
    by wf (length queue + unvisited_weight graph visited)%nat lt :=
  bfs_loop graph [] visited community := (community, visited);
  bfs_loop graph (node :: queue) visited community with decide (node ∈ visited) := {
    | left _ := bfs_loop graph queue visited community;
    | right Hn :=
        bfs_loop graph (queue ++ to_enqueue graph node ({[node]} ∪ visited))%list
                 ({[node]} ∪ visited) (community ∪ {[node]}) }.
Proof.
  rewrite length_app.
  pose proof (unvisited_weight_visit graph visited node Hn).
  pose proof (to_enqueue_length graph node ({[node]} ∪ visited)). lia.
Qed.

(** [_bfs_community]. *)
Definition _bfs_community (start : string) (graph : list (string * gset string))
    (visited : gset string) : gset string * gset string :=
  bfs_loop graph [start] visited ∅.

(** One turn of the loop over the authors of [detect_research_communities]:
    the state is the [visited] set and the communities found so far. *)
Definition community_step (collab_graph : list (string * gset string))
    (min_community_size : Z) (st : gset string * list community) (author : string)
  : gset string * list community :=
  let '(visited, communities) := st in
  if bool_decide (author ∈ visited) then st
  else
    let '(community, visited) := _bfs_community author collab_graph visited in
    if (min_community_size <=? Z.of_nat (size community))%Z
    then (visited,
          (communities ++
           [{| cm_type := "author_collaboration";
               cm_members := elements community;
               cm_size := size community;
               cm_cohesion := "high" |}])%list)
    else (visited, communities).

Definition communities_of (collab_graph : list (string * gset string))
    (min_community_size : Z) : list community :=
  snd (fold_left (community_step collab_graph min_community_size)
                 (List.map fst collab_graph) (∅, [])).

(** [detect_research_communities]. *)
Definition detect_research_communities (graph_service : GraphService)
    (min_community_size : Z) : G (list community) :=
  try_exceptG
    (session ← ask OpenSession (driver_session graph_service);
     rows ← ask RunCollaborations (run_collaborations graph_service);
     let collab_graph :=
       fold_left (fun g record =>
                    graph_add (author2 record) (author1 record)
                      (graph_add (author1 record) (author2 record) g))
                 rows [] in
     mret (communities_of collab_graph min_community_size))
    (fun _ => mret []).

End GraphReasoning.

(** ** services/memory_graph_fusion.py *)

Module MemoryGraphFusion.
Import Py Services.

Record recommendation : Type := {
  rec_type : string;
  rec_message : string;
  rec_reason : string;
  rec_papers_to_review : option (list pyval) }.

Record schedule : Type := {
  papers_per_day : Z; review_frequency : string;
  deep_reading_time : string; review_time : string }.

Record cognitive_load : Type := {
  cl_papers_today : nat;
  cl_load_level : string;
  cl_total_memories : nat;
  cl_weak_memories : nat;
  cl_needs_review : bool;
  cl_recommendations : list recommendation;
  cl_optimal_schedule : schedule }.

Section Fusion.
Variable fromisoformat : string -> outcome datetime.
Variable memory_service : MemoryService.

(** [cognitive_load_optimizer]; [current_time] is the reading of
    [datetime.now()]. *)
Definition cognitive_load_optimizer (researcher_id : string) (current_time : datetime)
  : outcome (result cognitive_load) :=
  try_except
    (recent_memories ← get_recent_context memory_service researcher_id 24;
     read_today ←
       foldM (fun acc m =>
                content ← py_get m "content" (PDict []);
                type ← py_get content "type" PNone;
                Ok (if eq_str type "paper_reading" then (acc ++ [m])%list else acc))
             recent_memories [];
     let papers_today := length read_today in
     all_memories ← recall_paper_memories memory_service researcher_id PNone 50;
     weak_memories ←
       foldM (fun acc m =>
                strength ← MemoryConsolidation.calculate_memory_strength
                             fromisoformat m current_time;
                Ok (if MemoryConsolidation.Rltb strength 0.4 then (acc ++ [m])%list
                    else acc))
             all_memories [];
     let recommendations :=
       if (5 <? papers_today)%nat then
         [{| rec_type := "overload_warning";
             rec_message := "You've read many papers today. Consider taking a break.";
             rec_reason := "Cognitive overload reduces retention";
             rec_papers_to_review := None |}]
       else if (papers_today =? 0)%nat then
         [{| rec_type := "engagement";
             rec_message := "Good time to read a new paper";
             rec_reason := "Fresh cognitive capacity available";
             rec_papers_to_review := None |}]
       else [] in
     recommendations ←
       (if (10 <? length weak_memories)%nat then
          titles ← mapM (fun m =>
                           content ← py_get m "content" (PDict []);
                           py_get content "title" PNone)
                        (firstn 5 weak_memories);
          Ok (recommendations ++
              [{| rec_type := "review_needed";
                  rec_message := "Review " ++ pretty (length weak_memories)
                                 ++ " papers with weak memory";
                  rec_reason := "Strengthen memories before they fade";
                  rec_papers_to_review := Some titles |}])%list
        else Ok recommendations);
     Ok (Result {| cl_papers_today := papers_today;
                   cl_load_level :=
                     if (5 <? papers_today)%nat then "high"
                     else if (papers_today <=? 3)%nat then "optimal"
                     else "moderate";
                   cl_total_memories := length all_memories;
                   cl_weak_memories := length weak_memories;
                   cl_needs_review := (10 <? length weak_memories)%nat;
                   cl_recommendations := recommendations;
                   cl_optimal_schedule :=
                     {| papers_per_day := 3; review_frequency := "every 3 days";
                        deep_reading_time := "morning"; review_time := "evening" |} |}))
    (fun e => Ok (ErrorDict (exn_str e))).
End Fusion.

End MemoryGraphFusion.

(** ** services/multi_agent.py *)

Module MultiAgent.
Import Py Services.

(** [min(x, 1.0)]. *)
Definition min_with_one (x : Q) : Q := if Qlt_le_dec 1 x then 1%Q else x.

(** [_calculate_collaboration_score]. *)
Definition _calculate_collaboration_score {A B C : Type}
    (papers : list A) (patterns : list B) (hypotheses : list C) : Q :=
  let score := 0%Q in
  let score :=
    (score + min_with_one (inject_Z (Z.of_nat (length papers)) / 10) * (3 # 10))%Q in
  let score :=
    (score + min_with_one (inject_Z (Z.of_nat (length patterns)) / 5) * (3 # 10))%Q in
  let score :=
    (score + min_with_one (inject_Z (Z.of_nat (length hypotheses)) / 3) * (4 # 10))%Q in
  round2 score.

(** One step of [_agent_debate]: the three assignments on the hypothesis,
    which is the dict the caller's list holds. *)
Definition debate_one (hypothesis : pyval) : outcome pyval :=
  basis ← py_get hypothesis "basis" PNone;
  match hypothesis with
  | PDict kv =>
      if eq_str basis "pattern_analysis" then
        Ok (PDict (assoc_set "spotter_support" (PBool true)
                     (assoc_set "scout_support" (PBool true)
                        (assoc_set "confidence_after_debate" (PFloat (8 # 10)) kv))))
      else
        Ok (PDict (assoc_set "spotter_support" (PBool true)
                     (assoc_set "scout_support" (PBool false)
                        (assoc_set "confidence_after_debate" (PFloat (7 # 10)) kv))))
  | _ => Raise (Exn TypeError "object does not support item assignment")
  end.

(** [_agent_debate]. *)
Definition _agent_debate (hypotheses : list pyval) : outcome (list pyval) :=
  mapM debate_one (firstn 5 hypotheses).

Record insights : Type := { scout : string; spotter : string; generator : string }.

Record collaboration : Type := {
  research_topic_of : string;
  papers_discovered : list pyval;
  patterns_identified : list pyval;
  hypotheses_generated : list pyval;
  agent_insights : insights;
  collaboration_score : Q }.

Section Orchestrator.
Variable memory_service : MemoryService.
(** [datetime.isoformat], a builtin. *)
Variable isoformat : datetime -> string.
(** The three agents.  Each of [scout_papers], [spot_patterns] and
    [generate_creative_hypotheses] catches every exception and answers a
    list; the orchestrator sees nothing else of them. *)
Variable scout_papers : string -> string -> list pyval.
Variable spot_patterns : string -> list pyval -> list pyval.
Variable generate_creative_hypotheses : string -> string -> list pyval -> list pyval.

(** [collaborative_research]; [now] is the reading of [datetime.now()].
    The debate updates the first five hypotheses in place, so the list the
    score is computed from holds the refined dicts. *)
Definition collaborative_research (researcher_id research_topic : string) (now : datetime)
  : outcome (result collaboration) :=
  try_except
    (let papers := scout_papers researcher_id research_topic in
     paper_ids ← mapM (fun p => py_getitem p "paper_id") papers;
     let patterns := spot_patterns researcher_id paper_ids in
     let hypotheses := generate_creative_hypotheses researcher_id research_topic patterns in
     refined_hypotheses ← _agent_debate hypotheses;
     let hypotheses := (refined_hypotheses ++ skipn 5 hypotheses)%list in
     _ ← store_memory memory_service researcher_id "project"
           (PDict [("type", PStr "multi_agent_collaboration");
                   ("topic", PStr research_topic);
                   ("papers_scouted", PInt (Z.of_nat (length papers)));
                   ("patterns_found", PInt (Z.of_nat (length patterns)));
                   ("hypotheses_generated", PInt (Z.of_nat (length hypotheses)));
                   ("refined_hypotheses", PList refined_hypotheses);
                   ("timestamp", PStr (isoformat now))]);
     Ok (Result {| research_topic_of := research_topic;
                   papers_discovered := firstn 5 papers;
                   patterns_identified := firstn 5 patterns;
                   hypotheses_generated := firstn 5 refined_hypotheses;
                   agent_insights :=
                     {| scout := "Found " ++ pretty (length papers) ++ " relevant papers";
                        spotter := "Identified " ++ pretty (length patterns) ++ " patterns";
                        generator := "Generated " ++ pretty (length hypotheses)
                                     ++ " hypotheses" |};
                   collaboration_score :=
                     _calculate_collaboration_score papers patterns hypotheses |}))
    (fun e => Ok (ErrorDict (exn_str e))).
End Orchestrator.

End MultiAgent.

(** ** The quantities the specification names *)

Module Spec.
Import Py.

(** The value under [memory["content"]["timestamp"]], read as the code reads it. *)
Definition memory_timestamp (m : pyval) : outcome pyval :=
  content ← py_get m "content" (PDict []); py_get content "timestamp" PNone.

(** The memory's timestamp as a datetime: [None] when it is missing (absent,
    [None] or empty) or unparseable. *)
Definition memory_time (fromisoformat : string -> outcome datetime) (m : pyval)
  : option datetime :=
  match memory_timestamp m with
  | Ok ts =>
      if truthy ts then
        match ts with
        | PStr s => match fromisoformat (replace_Z s) with Ok d => Some d | Raise _ => None end
        | PDatetime d => Some d
        | _ => None
        end
      else None
  | Raise _ => None
  end.

(** The value under [memory["metadata"]["access_count"]], 1 when absent. *)
Definition memory_access_count (m : pyval) : outcome pyval :=
  metadata ← py_get m "metadata" (PDict []); py_get metadata "access_count" (PInt 1).

(** A timedelta of [td] microseconds, in days. *)
Definition elapsed_days (td : Z) : R := (total_seconds td / 86400)%R.

(** [exp(-elapsed_days / ((ln(access_count + 1) + 1) * 30))]. *)
Definition retention (elapsed_days access_count : R) : R :=
  exp (- elapsed_days / ((ln (access_count + 1) + 1) * 30)).

(** The point in time a datetime denotes, a naive one being read as UTC. *)
Definition instant (d : datetime) : Z :=
  (wall_micros d - match utcoffset d with Some o => o | None => 0 end)%Z.

(** The strength as the specification words it: 0.5 when the timestamp is
    missing or unparseable, and otherwise [min(1.0, retention)] at the time
    from the timestamp to [now], with an access count of 1 when absent. *)
Definition spec_strength (fromisoformat : string -> outcome datetime)
    (m : pyval) (now : datetime) : R :=
  match memory_time fromisoformat m with
  | None => 0.5%R
  | Some t =>
      Rmin 1 (retention (elapsed_days (instant now - instant t))
                        (match memory_access_count m with
                         | Ok (PInt a) => IZR a
                         | _ => 1%R
                         end))
  end.

(** A reported community is large enough, its size counts its members, and
    no member is listed twice. *)
Definition well_formed (min_community_size : Z) (c : GraphReasoning.community) : Prop :=
  (min_community_size <= Z.of_nat (GraphReasoning.cm_size c))%Z /\
  GraphReasoning.cm_size c = length (GraphReasoning.cm_members c) /\
  base.NoDup (GraphReasoning.cm_members c).

(** No author is a member of two communities of the list. *)
Definition pairwise_disjoint (communities : list GraphReasoning.community) : Prop :=
  forall i j ci cj,
    i <> j -> communities !! i = Some ci -> communities !! j = Some cj ->
    forall a, a ∈ GraphReasoning.cm_members ci -> a ∉ GraphReasoning.cm_members cj.

(** What holds of the loop state of [detect_research_communities]: the
    communities found so far lie within [visited]. *)
Definition gathered (min_community_size : Z)
    (st : gset string * list GraphReasoning.community) : Prop :=
  (forall c a, c ∈ st.2 -> a ∈ GraphReasoning.cm_members c -> a ∈ st.1) /\
  pairwise_disjoint st.2 /\
  Forall (well_formed min_community_size) st.2.

(** A graph store that opens sessions and answers the lifecycle query with
    [years] and the collaboration query with [pairs]; its other queries
    return no row. *)
Definition sample_graph (years : list Services.year_row) (pairs : list Services.collab_row)
  : Services.GraphService :=
  {| Services.driver_session := Ok tt;
     Services.run_analogies := fun _ _ _ => Ok [];
     Services.run_contradictions := fun _ => Ok [];
     Services.run_missing_connections := fun _ => Ok [];
     Services.run_unexplored_methods := fun _ => Ok [];
     Services.run_lifecycle := fun _ => Ok years;
     Services.run_influence := fun _ _ => Ok [];
     Services.run_existing_synthesis := fun _ => Ok [];
     Services.run_shared_methods := fun _ => Ok [];
     Services.run_collaborations := Ok pairs;
     Services.get_related_papers := fun _ _ => Ok [];
     Services.get_researcher_papers := fun _ => Ok [];
     Services.find_bridge_concepts := fun _ _ => Ok [];
     Services.get_emerging_concepts := fun _ => Ok []
  |}.

(** Three pairs of co-authors. *)
Definition three_pairs : list Services.collab_row :=
  [ {| Services.author1 := "Ada"; Services.author2 := "Bob"; Services.collaborations := 2 |};
    {| Services.author1 := "Bob"; Services.author2 := "Cy"; Services.collaborations := 3 |};
    {| Services.author1 := "Dee"; Services.author2 := "Eve"; Services.collaborations := 2 |} ].

(** A call on the store raises. *)
Definition fails {A : Type} (o : outcome A) : Prop := exists e, o = Raise e.

(** The builtin [str] on strings, integers, [None], booleans and flat lists
    of them (strings without quotes or escapes); the empty string elsewhere. *)
Definition repr_atom (v : pyval) : string :=
  match v with
  | PStr s => "'" ++ s ++ "'"
  | PInt z => pretty z
  | PNone => "None"
  | PBool true => "True"
  | PBool false => "False"
  | _ => ""
  end.

Definition str_of_strings (v : pyval) : string :=
  match v with
  | PStr s => s
  | PList l => "[" ++ GraphReasoning.join ", " (List.map repr_atom l) ++ "]"
  | _ => repr_atom v
  end.

(** The memory is the record of a paper that was read. *)
Definition is_paper_reading (m : pyval) : bool :=
  match py_get m "content" (PDict []) with
  | Ok content =>
      match py_get content "type" PNone with
      | Ok type => eq_str type "paper_reading"
      | Raise _ => false
      end
  | Raise _ => false
  end.

(** The memory's key concepts mention the concept (the test of
    [track_concept_evolution]). *)
Definition mentions (py_str : pyval -> string) (concept : string) (m : pyval) : bool :=
  match py_get m "content" (PDict []) with
  | Ok content =>
      match py_get content "key_concepts" (PList []) with
      | Ok key_concepts =>
          str_contains (str_lower concept) (str_lower (py_str key_concepts))
      | Raise _ => false
      end
  | Raise _ => false
  end.

(** The strengths of a list of memories at [now]. *)
Definition strengths_of (fromisoformat : string -> outcome datetime) (now : datetime)
    (memories : list pyval) : list R :=
  List.map (fun m =>
              match MemoryConsolidation.calculate_memory_strength fromisoformat m now with
              | Ok r => r
              | Raise _ => 0.5%R
              end)
           memories.

(** The number of reals of a list that satisfy a test. *)
Definition count (test : R -> bool) (l : list R) : nat := length (List.filter test l).

(** A memory store that holds [memories] for every researcher, finds
    [found] on every search and accepts every write. *)
Definition sample_store (memories found recent : list pyval) : Services.MemoryService :=
  {| Services.recall_paper_memories := fun _ _ limit => Ok (slice_to limit memories);
     Services.search_memories := fun _ _ limit => Ok (slice_to limit found);
     Services.get_recent_context := fun _ _ => Ok recent;
     Services.store_memory := fun _ _ _ => Ok tt |}.

(** A memory of a paper on transformers. *)
Definition transformer_memory : pyval :=
  PDict [("content",
          PDict [("type", PStr "paper_reading");
                 ("paper_id", PStr "p-1");
                 ("title", PStr "Attention Is All You Need");
                 ("abstract", PStr "A sequence model built on attention.");
                 ("key_concepts", PList [PStr "Transformers"; PStr "Attention"]);
                 ("timestamp", PStr "2025-12-01T10:00:00")])].

(** The reading load as the specification words it. *)
Definition spec_load_level (papers_today : nat) : string :=
  if (5 <? papers_today)%nat then "high"
  else if (papers_today =? 0)%nat then "optimal"
  else "moderate".

(** [min(p/10,1)*0.3 + min(t/5,1)*0.3 + min(h/3,1)*0.4]. *)
Definition spec_collaboration_sum (p t h : nat) : Q :=
  (Qmin (inject_Z (Z.of_nat p) / 10) 1 * (3 # 10)
   + Qmin (inject_Z (Z.of_nat t) / 5) 1 * (3 # 10)
   + Qmin (inject_Z (Z.of_nat h) / 3) 1 * (4 # 10))%Q.

(** Sample data: 2026-01-01T00:00:00 as a naive datetime, a parser that
    accepts nothing, and memories stamped a number of days before that
    instant. *)
Definition day_micros : Z := 86400000000.
Definition new_year_2026 : datetime := DateTime (739616 * day_micros) None.
Definition no_parser : string -> outcome datetime :=
  fun _ => Raise (Exn ValueError "Invalid isoformat string").

Definition memory_aged (days : Z) (metadata : list (string * pyval)) : pyval :=
  PDict [("content",
          PDict [("type", PStr "paper_reading");
                 ("timestamp",
                  PDatetime (DateTime ((739616 - days) * day_micros) None))]);
         ("metadata", PDict metadata)].

(** What [cognitive_load_optimizer] reports on the store of the repository. *)
Definition mock_report : MemoryGraphFusion.cognitive_load :=
  {| MemoryGraphFusion.cl_papers_today := 1;
     MemoryGraphFusion.cl_load_level := "optimal";
     MemoryGraphFusion.cl_total_memories := 0;
     MemoryGraphFusion.cl_weak_memories := 0;
     MemoryGraphFusion.cl_needs_review := false;
     MemoryGraphFusion.cl_recommendations := [];
     MemoryGraphFusion.cl_optimal_schedule :=
       {| MemoryGraphFusion.papers_per_day := 3;
          MemoryGraphFusion.review_frequency := "every 3 days";
          MemoryGraphFusion.deep_reading_time := "morning";
          MemoryGraphFusion.review_time := "evening" |} |}.

(** Three agents that find ten papers, five patterns and three hypotheses,
    and a clock that prints one date: spec scenario 3. *)
Definition ten_papers : string -> string -> list pyval :=
  fun _ _ => repeat (PDict [("paper_id", PStr "p-1"); ("title", PStr "A paper")]) 10.
Definition five_patterns : string -> list pyval -> list pyval :=
  fun _ _ => repeat (PDict [("type", PStr "concept_co_occurrence")]) 5.
Definition three_hypotheses : string -> string -> list pyval -> list pyval :=
  fun _ _ _ => repeat (PDict [("basis", PStr "pattern_analysis")]) 3.
Definition fixed_isoformat : datetime -> string := fun _ => "2026-01-01T00:00:00".

(** A parser that knows one string: the timestamp of memory_helpers.py after
    its [Z] was replaced, 2025-12-17T16:00:00 at UTC. *)
Definition utc_parser : string -> outcome datetime :=
  fun s =>
    if String.eqb s "2025-12-17T16:00:00+00:00"
    then Ok (DateTime (739601 * day_micros + 16 * 3600000000) (Some 0%Z))
    else Raise (Exn ValueError "Invalid isoformat string").

End Spec.

(** ** Reachability in the collaboration graph *)

Module Reachability.
Import GraphReasoning.

(** [reach graph avoid x z]: a path of neighbours leads from [x] to [z]
    through authors outside [avoid] only. *)
Inductive reach (graph : list (string * gset string)) (avoid : gset string)
  : string -> string -> Prop :=
| reach_here x : x ∉ avoid -> reach graph avoid x x
| reach_step x y z :
    x ∉ avoid -> y ∈ neighbours graph x -> reach graph avoid y z -> reach graph avoid x z.

(** The collaboration graph [detect_research_communities] builds from the
    rows of its query. *)
Definition collab_graph_of (rows : list Services.collab_row) : list (string * gset string) :=
  fold_left (fun g record =>
               graph_add (Services.author2 record) (Services.author1 record)
                 (graph_add (Services.author1 record) (Services.author2 record) g))
            rows [].

(** The authors connected to [a]: its connected component. *)
Definition component_of (graph : list (string * gset string)) (a : string)
    (members : gset string) : Prop :=
  forall x, x ∈ members <-> reach graph ∅ a x.

(** An author of one of the rows. *)
Definition author_of (rows : list Services.collab_row) (a : string) : Prop :=
  exists record, record ∈ rows /\
                 (a = Services.author1 record \/ a = Services.author2 record).

(** The invariant of the loop over the authors: the visited set is closed
    under collaboration, every community found is a whole component of at
    least the minimum size, and every visited author is in a community or in
    a component that is too small. *)
Definition components_so_far (graph : list (string * gset string)) (min_community_size : Z)
    (st : gset string * list community) : Prop :=
  (forall x y, x ∈ st.1 -> y ∈ neighbours graph x -> y ∈ st.1) /\
  (forall c, c ∈ st.2 ->
     exists a members,
       cm_members c = elements members /\ cm_size c = size members /\
       component_of graph a members /\ (min_community_size <= Z.of_nat (size members))%Z) /\
  (forall x, x ∈ st.1 ->
     (exists c, c ∈ st.2 /\ x ∈ cm_members c) \/
     (forall members, component_of graph x members ->
                      (Z.of_nat (size members) < min_community_size)%Z)).

End Reachability.

(** ** Further quantities the properties name *)

Module Quantities.
Import Py Services GraphReasoning.

(** The number of rows of the influence query at the distances [test]
    accepts. *)
Definition citations_at (test : Z -> bool) (rows : list citing_row) : nat :=
  length (List.filter (fun row => test (ct_distance row)) rows).

Definition is_methodological (a : analogy) : bool :=
  match a with
  | Methodological _ _ _ _ _ => true
  | Conceptual _ _ _ => false
  end.

Definition transferability (a : analogy) : Q :=
  match a with
  | Methodological _ _ _ _ score => score
  | Conceptual _ _ score => score
  end.

(** The papers since 2020 and the papers before 2015 of a timeline, the
    latter read as 1 when no year before 2015 is on it. *)
Definition recent_papers (timeline : list year_row) : Z :=
  sum_papers (List.filter (fun t => (2020 <=? yr_year t)%Z) timeline).

Definition early_papers (timeline : list year_row) : Z :=
  let early_years := List.filter (fun t => (yr_year t <? 2015)%Z) timeline in
  match early_years with
  | [] => 1%Z
  | _ => sum_papers early_years
  end.

(** The lifecycle stage in terms of the two counts. *)
Definition stage_by_counts (recent early : Z) : string :=
  if (early <=? 0)%Z then "declining"
  else if (2 * early <? recent)%Z then "rapid_growth"
  else if (early <? recent)%Z then "steady_growth"
  else if (early <? 2 * recent)%Z then "mature"
  else "declining".

(** The citing papers filed under a distance, and the number of entries at
    the distances [test] accepts, in the [influence_map] of
    [calculate_influence_propagation]; and that map, built from the rows. *)
Definition entries_at (d : Z) (m : list (Z * list citing_paper_entry)) : nat :=
  match assoc_Z d m with Some l => length l | None => 0%nat end.

Definition weight (test : Z -> bool) (m : list (Z * list citing_paper_entry)) : nat :=
  list_sum (List.map (fun e => if test (fst e) then length (snd e) else 0%nat) m).

Definition influence_map_of (rows : list citing_row) (m : list (Z * list citing_paper_entry)) :=
  fold_left (fun m record =>
               map_append (ct_distance record)
                 {| ip_paper_id := ct_citing_id record; ip_title := ct_title record;
                    ip_year := ct_year record |} m)
            rows m.

(** A graph store that answers the influence query with [rows] and every
    other call as [gs] does. *)
Definition with_influence (rows : list citing_row) (gs : GraphService) : GraphService :=
  {| driver_session := driver_session gs;
     run_analogies := run_analogies gs;
     run_contradictions := run_contradictions gs;
     run_missing_connections := run_missing_connections gs;
     run_unexplored_methods := run_unexplored_methods gs;
     run_lifecycle := run_lifecycle gs;
     run_influence := fun _ _ => Ok rows;
     run_existing_synthesis := run_existing_synthesis gs;
     run_shared_methods := run_shared_methods gs;
     run_collaborations := run_collaborations gs;
     get_related_papers := get_related_papers gs;
     get_researcher_papers := get_researcher_papers gs;
     find_bridge_concepts := find_bridge_concepts gs;
     get_emerging_concepts := get_emerging_concepts gs |}.

(** A paper cited once directly and twice at two hops. *)
Definition three_citations : list citing_row :=
  [ {| ct_citing_id := PStr "p-2"; ct_title := PStr "Second"; ct_year := PInt 2022;
       ct_distance := 1 |};
    {| ct_citing_id := PStr "p-3"; ct_title := PStr "Third"; ct_year := PInt 2024;
       ct_distance := 2 |};
    {| ct_citing_id := PStr "p-4"; ct_title := PStr "Fourth"; ct_year := PInt 2023;
       ct_distance := 2 |} ].

(** Four years of a concept that first appears in 2019. *)
Definition young_timeline : list year_row :=
  [ {| yr_year := 2019; yr_paper_count := 4 |};
    {| yr_year := 2020; yr_paper_count := 1 |};
    {| yr_year := 2021; yr_paper_count := 1 |};
    {| yr_year := 2022; yr_paper_count := 1 |} ].

End Quantities.

Module AgentQuantities.
Import Py Services MultiAgent.

(** The hundredths a number of hypotheses (capped at three) adds to the
    collaboration score: a third of forty, rounded. *)
Definition hypothesis_hundredths (h : Z) : Z :=
  if (h <=? 0)%Z then 0 else if (h =? 1)%Z then 13 else if (h =? 2)%Z then 27 else 40.

(** The collaboration score in hundredths. *)
Definition score_hundredths (p t h : nat) : Z :=
  3 * Z.min (Z.of_nat p) 10 + 6 * Z.min (Z.of_nat t) 5
  + hypothesis_hundredths (Z.of_nat h).

Definition is_dict (v : pyval) : bool :=
  match v with PDict _ => true | _ => false end.

(** The keys [_agent_debate] writes. *)
Definition debate_keys : list string :=
  ["confidence_after_debate"; "scout_support"; "spotter_support"].

(** Two hypotheses, one from a pattern and one from an analogy. *)
Definition two_hypotheses : list pyval :=
  [ PDict [("hypothesis_text", PStr "A and B interact"); ("basis", PStr "pattern_analysis")];
    PDict [("hypothesis_text", PStr "Apply M"); ("basis", PStr "cross_domain_analogy")] ].

End AgentQuantities.

Module FusionQuantities.
Import Py Services MemoryGraphFusion Spec.

(** Twelve memories read 42 days ago and never accessed since. *)
Definition twelve_fading : list pyval :=
  repeat (memory_aged 42 [("access_count", PInt 0)]) 12.

End FusionQuantities.

Module EvolutionQuantities.
Import Py Services MemoryConsolidation Spec.

(** The text of an exposure's timestamp, when it is a string. *)
Definition timestamp_text (x : exposure) : string :=
  match ex_timestamp x with
  | PStr s => s
  | _ => ""
  end.

Definition has_text_timestamp (x : exposure) : Prop :=
  exists s, ex_timestamp x = PStr s.

(** A memory of a paper stored without an abstract, as
    [store_paper_memory] records it. *)
Definition memory_without_abstract : pyval :=
  PDict [("content",
          PDict [("type", PStr "paper_reading");
                 ("paper_id", PStr "p-2");
                 ("title", PStr "Untitled draft");
                 ("abstract", PNone);
                 ("key_concepts", PList [PStr "Transformers"]);
                 ("timestamp", PStr "2025-12-02T10:00:00")])].

(** A later memory of a paper on transformers. *)
Definition later_memory : pyval :=
  PDict [("content",
          PDict [("paper_id", PStr "p-3");
                 ("title", PStr "Efficient Transformers");
                 ("abstract", PStr "A survey.");
                 ("key_concepts", PList [PStr "Transformers"]);
                 ("timestamp", PStr "2025-12-20T09:00:00")])].

End EvolutionQuantities.

Module CrossQuantities.
Import Py Services MemoryConsolidation Spec.

(** No two members of the list are equal as Python values. *)
Fixpoint distinct_keys (s : list pyval) : bool :=
  match s with
  | [] => true
  | x :: rest => negb (set_mem x rest) && distinct_keys rest
  end.

(** A cross-reference that shares a paper and has a strength in (0,1]. *)
Definition sound_reference (x : cross_reference) : Prop :=
  (1 <= xr_shared_papers x)%nat /\ (0 < xr_strength x)%Q /\ (xr_strength x <= 1)%Q.

(** Three concept groups: the first two share paper p-1, the third stands
    alone. *)
Definition item_of (paper_id : string) : strength_item :=
  {| item_memory := PDict [("content", PDict [("paper_id", PStr paper_id)])];
     item_strength := 1%R |}.

Definition three_groups : list (pyval * list strength_item) :=
  [ (PStr "Attention", [item_of "p-1"; item_of "p-2"]);
    (PStr "Transformers", [item_of "p-1"]);
    (PStr "Graphs", [item_of "p-3"]) ].

End CrossQuantities.

(** ** services/memory_service.py: the writes of [MockMemoryService] *)

Module MockStore.
Import Py Services.

(** The [mock_memories] dict: researcher to memories, in insertion order. *)
Definition store : Type := list (string * list pyval).

(** [self.mock_memories.get(user_id, [])]. *)
Definition memories_of (mock_memories : store) (user_id : string) : list pyval :=
  match assoc user_id mock_memories with Some l => l | None => [] end.

(** [_store_mock_memory]: the store after the call, and the receipt. *)
Definition _store_mock_memory (mock_memories : store) (user_id : string)
    (memory_data : list (string * pyval)) : store * pyval :=
  let mock_memories :=
    match assoc user_id mock_memories with
    | Some _ => mock_memories
    | None => assoc_set user_id [] mock_memories
    end in
  let id := PInt (Z.of_nat (length (memories_of mock_memories user_id)) + 1) in
  let memory_data := assoc_set "id" id memory_data in
  (assoc_set user_id (memories_of mock_memories user_id ++ [PDict memory_data])%list
     mock_memories,
   PDict [("id", id); ("status", PStr "success")]).

(** [store_paper_memory]; [now] is [datetime.now().isoformat()]. *)
Definition store_paper_memory (mock_memories : store) (researcher_id paper_id : string)
    (paper_data : pyval) (now : string) : outcome (store * pyval) :=
  title ← py_get paper_data "title" PNone;
  abstract ← py_get paper_data "abstract" PNone;
  key_concepts ← py_get paper_data "concepts" (PList []);
  full_text ← py_get paper_data "full_text" (PStr "");
  full_content ← py_slice_to 100 full_text;
  Ok (_store_mock_memory mock_memories researcher_id
        [("user_id", PStr researcher_id);
         ("memory_type", PStr "personal");
         ("content", PDict [("type", PStr "paper_reading");
                            ("paper_id", PStr paper_id);
                            ("title", title);
                            ("abstract", abstract);
                            ("key_concepts", key_concepts);
                            ("timestamp", PStr now);
                            ("full_content", full_content)]);
         ("metadata", PDict [("source", PStr "pdf_upload")])]).

(** [store_annotation]. *)
Definition store_annotation (mock_memories : store)
    (researcher_id paper_id annotation annotation_type now : string) : store * pyval :=
  _store_mock_memory mock_memories researcher_id
    [("user_id", PStr researcher_id);
     ("memory_type", PStr "personal");
     ("content", PDict [("type", PStr "annotation");
                        ("paper_id", PStr paper_id);
                        ("annotation", PStr annotation);
                        ("annotation_type", PStr annotation_type);
                        ("timestamp", PStr now)]);
     ("metadata", PDict [("source", PStr "user_annotation")])].

(** A write on the store. *)
Inductive operation : Type :=
| StorePaper (researcher_id paper_id : string) (paper_data : pyval) (now : string)
| StoreAnnotation (researcher_id paper_id annotation annotation_type now : string).

(** The store after a write; a write that raises leaves it as it was. *)
Definition apply_operation (mock_memories : store) (op : operation) : store :=
  match op with
  | StorePaper researcher_id paper_id paper_data now =>
      match store_paper_memory mock_memories researcher_id paper_id paper_data now with
      | Ok (mock_memories', _) => mock_memories'
      | Raise _ => mock_memories
      end
  | StoreAnnotation researcher_id paper_id annotation annotation_type now =>
      fst (store_annotation mock_memories researcher_id paper_id annotation
             annotation_type now)
  end.

(** The store a fresh [MockMemoryService] holds after a sequence of writes. *)
Definition after (ops : list operation) : store := fold_left apply_operation ops [].

(** The paper a memory is about, as [recall_paper_memories] reads it. *)
Definition paper_of (m : pyval) : outcome pyval :=
  content ← py_get m "content" (PDict []); py_get content "paper_id" PNone.

(** A stored memory: a dict that names its researcher, its position and,
    in its content, its paper. *)
Definition filed (user_id : string) (position : nat) (m : pyval) : Prop :=
  py_get m "id" PNone = Ok (PInt (Z.of_nat position + 1)) /\
  py_get m "user_id" PNone = Ok (PStr user_id) /\
  exists paper_id, paper_of m = Ok (PStr paper_id).

Definition well_filed (mock_memories : store) : Prop :=
  forall user_id position m,
    memories_of mock_memories user_id !! position = Some m -> filed user_id position m.

(** A paper as the upload endpoint describes it. *)
Definition sample_paper : pyval :=
  PDict [("title", PStr "Attention Is All You Need");
         ("concepts", PList [PStr "Transformers"; PStr "Attention"]);
         ("full_text", PStr "The dominant sequence transduction models.")].

End MockStore.

(** ** services/multi_agent.py: the agents' shared memory and the scout *)

Module Agents.
Import Py Services.

Section Scout.
(** The builtin [==] on values. *)
Variable py_eq : pyval -> pyval -> bool.
Variable memory_service : MemoryService.
Variable graph_service : GraphService.

(** [ResearchAgent.store_insight]; [now] is [datetime.now().isoformat()]. *)
Definition store_insight (agent_id role researcher_id : string) (insight : pyval)
    (now : string) : outcome unit :=
  store_memory memory_service researcher_id "project"
    (PDict [("type", PStr "agent_insight");
            ("agent_id", PStr agent_id);
            ("agent_role", PStr role);
            ("insight", insight);
            ("timestamp", PStr now)]).

(** [ResearchAgent.retrieve_insights]. *)
Definition retrieve_insights (role researcher_id : string) (limit : Z)
  : outcome (list pyval) :=
  memories ← search_memories memory_service researcher_id ("agent_insight " ++ role) limit;
  mapM (fun m => py_get m "content" (PDict [])) memories.

(** [any(p.get("paper_id") == paper_id for p in past_papers)]: the search
    stops at the first match. *)
Fixpoint already_read (paper_id : pyval) (past_papers : list pyval) : outcome bool :=
  match past_papers with
  | [] => Ok false
  | p :: rest =>
      bind (py_get p "paper_id" PNone) (fun pid : pyval =>
        if py_eq pid paper_id then Ok true else already_read paper_id rest)
  end.

(** [LiteratureScoutAgent.scout_papers]. *)
Definition scout_papers (researcher_id research_interest now : string)
  : outcome (list pyval) :=
  try_except
    (past_papers ← get_researcher_papers graph_service researcher_id;
     candidates ← get_related_papers graph_service research_interest 20;
     recommendations ←
       foldM (fun recommendations paper =>
                paper_id ← py_get paper "paper_id" PNone;
                bind (already_read paper_id past_papers) (fun read : bool =>
                  if read then Ok recommendations
                  else
                    title ← py_get paper "title" PNone;
                    Ok (recommendations ++
                        [PDict [("paper_id", paper_id);
                                ("title", title);
                                ("relevance_score", PFloat (8 # 10));
                                ("novelty_score", PFloat (9 # 10));
                                ("scout_reasoning",
                                 PStr "Emerging paper in your research area")]])%list))
             (slice_to 10 candidates) [];
     _ ← store_insight "scout_001" "literature_scout" researcher_id
           (PDict [("action", PStr "paper_scouting");
                   ("topic", PStr research_interest);
                   ("papers_found", PInt (Z.of_nat (length recommendations)));
                   ("recommendations", PList (slice_to 5 recommendations))])
           now;
     Ok recommendations)
    (fun _ => Ok []).
End Scout.

(** A recommendation of the scout: a dict with a paper id and the two fixed
    scores. *)
Definition is_recommendation (rec : pyval) : Prop :=
  (exists paper_id, py_getitem rec "paper_id" = Ok paper_id) /\
  py_get rec "relevance_score" PNone = Ok (PFloat (8 # 10)) /\
  py_get rec "novelty_score" PNone = Ok (PFloat (9 # 10)).

(** No paper of [past_papers] has the id of the recommended paper. *)
Definition unread (py_eq : pyval -> pyval -> bool) (past_papers : list pyval)
    (rec : pyval) : Prop :=
  forall paper_id p pid,
    py_get rec "paper_id" PNone = Ok paper_id ->
    In p past_papers -> py_get p "paper_id" PNone = Ok pid ->
    py_eq pid paper_id = false.

End Agents.

(** ** services/memory_graph_fusion.py: the personalized graph view *)

Module GraphView.
Import Py Services MemoryConsolidation.

(** A node of the view: a concept with its strength, or a paper, whose
    ["read"] entry is always [True]. *)
Inductive node : Type :=
| ConceptNode (id : pyval) (memory_strength : R) (mastery_level : string) (size : R)
| PaperNode (id title : pyval).

Record edge : Type := {
  ed_source : pyval; ed_target : pyval; ed_weight : R; ed_bridge_concepts : list pyval }.

Record statistics : Type := {
  st_total_concepts : nat; st_strong_concepts : nat; st_weak_concepts : nat;
  st_papers_read : nat }.

Record graph_view : Type := {
  gv_researcher_id : string;
  gv_nodes : list node;
  gv_edges : list edge;
  gv_graph_statistics : statistics }.

(** [_strength_to_mastery]. *)
Definition _strength_to_mastery (strength : R) : string :=
  if Rltb 0.8 strength then "expert"
  else if Rltb 0.6 strength then "proficient"
  else if Rltb 0.4 strength then "familiar"
  else "novice".

(** The update of [concept_strengths] for one concept of a memory:
    [max(concept_strengths[concept], strength)] when the concept is there,
    [strength] otherwise. *)
Fixpoint strengthen (concept : pyval) (strength : R) (concept_strengths : list (pyval * R))
  : list (pyval * R) :=
  match concept_strengths with
  | [] => [(concept, strength)]
  | (k, v) :: rest =>
      if key_eqb concept k then (k, Rmax v strength) :: rest
      else (k, v) :: strengthen concept strength rest
  end.

Section View.
Variable fromisoformat : string -> outcome datetime.
Variable memory_service : MemoryService.
Variable graph_service : GraphService.
(** [graph_service.find_bridge_concepts], as it is called on two concepts
    of the memories. *)
Variable find_bridge_concepts : pyval -> pyval -> outcome (list pyval).

(** The inner loop of the edges, for one [concept1]. *)
Definition edges_from (concept1 : pyval) (strength1 : R) (later : list (pyval * R))
    (edges : list edge) : outcome (list edge) :=
  foldM (fun edges entry =>
           let '(concept2, strength2) := entry in
           bridges ← find_bridge_concepts concept1 concept2;
           match bridges with
           | [] => Ok edges
           | _ =>
               Ok (edges ++ [{| ed_source := concept1; ed_target := concept2;
                                ed_weight := ((strength1 + strength2) / 2)%R;
                                ed_bridge_concepts := slice_to 3 bridges |}])%list
           end)
        later edges.

Fixpoint edges_of (concept_strengths : list (pyval * R)) (edges : list edge)
  : outcome (list edge) :=
  match concept_strengths with
  | [] => Ok edges
  | (concept1, strength1) :: later =>
      edges ← edges_from concept1 strength1 later edges;
      edges_of later edges
  end.

(** The loop over the memories that fills [concept_strengths]. *)
Definition concept_strengths_of (memories : list pyval) (current_time : datetime)
    (concept_strengths : list (pyval * R)) : outcome (list (pyval * R)) :=
  foldM (fun concept_strengths memory =>
           content ← py_get memory "content" (PDict []);
           concepts ← py_get content "key_concepts" (PList []);
           strength ← calculate_memory_strength fromisoformat memory current_time;
           concepts ← py_iter concepts;
           foldM (fun concept_strengths concept =>
                    if hashable concept
                    then Ok (strengthen concept strength concept_strengths)
                    else Raise (Exn TypeError "unhashable type"))
                 concepts concept_strengths)
        memories concept_strengths.

(** [personalized_graph_view]; [current_time] is the reading of
    [datetime.now()]. *)
Definition personalized_graph_view (researcher_id : string) (current_time : datetime)
  : outcome (result graph_view) :=
  try_except
    (memories ← recall_paper_memories memory_service researcher_id PNone 50;
     concept_strengths ← concept_strengths_of memories current_time [];
     papers ← get_researcher_papers graph_service researcher_id;
     let concept_nodes :=
       List.map (fun entry : pyval * R =>
                   ConceptNode (fst entry) (snd entry) (_strength_to_mastery (snd entry))
                     (snd entry * 100)%R)
                concept_strengths in
     paper_nodes ←
       mapM (fun paper =>
               paper_id ← py_get paper "paper_id" PNone;
               title ← py_get paper "title" PNone;
               Ok (PaperNode paper_id title))
            papers;
     edges ← edges_of concept_strengths [];
     Ok (Result
           {| gv_researcher_id := researcher_id;
              gv_nodes := (concept_nodes ++ paper_nodes)%list;
              gv_edges := edges;
              gv_graph_statistics :=
                {| st_total_concepts := length concept_strengths;
                   st_strong_concepts :=
                     length (List.filter (fun s => Rltb 0.7 s)
                                         (List.map snd concept_strengths));
                   st_weak_concepts :=
                     length (List.filter (fun s => Rltb s 0.3)
                                         (List.map snd concept_strengths));
                   st_papers_read := length papers |} |}))
    (fun e => Ok (ErrorDict (exn_str e))).
End View.

(** The concepts a memory carries, when they can be read. *)
Definition concepts_of (memory : pyval) : list pyval :=
  match (content ← py_get memory "content" (PDict []);
         concepts ← py_get content "key_concepts" (PList []);
         py_iter concepts) with
  | Ok concepts => concepts
  | Raise _ => []
  end.

(** The strength of a memory, as [calculate_memory_strength] answers it. *)
Definition strength_of (fromisoformat : string -> outcome datetime) (now : datetime)
    (memory : pyval) : R :=
  match calculate_memory_strength fromisoformat memory now with
  | Ok r => r
  | Raise _ => 0.5%R
  end.

(** The concepts the memories carry, each with the strength of its memory,
    in the order the loops of [personalized_graph_view] meet them. *)
Definition mentions (fromisoformat : string -> outcome datetime) (now : datetime)
    (memories : list pyval) : list (pyval * R) :=
  flat_map (fun memory =>
              List.map (fun concept => (concept, strength_of fromisoformat now memory))
                       (concepts_of memory))
           memories.

(** [concept_strengths] keeps, for what it has seen, an entry per concept,
    with a strength that one of the mentions has and no mention exceeds. *)
Definition tracks (seen concept_strengths : list (pyval * R)) : Prop :=
  (forall k v, In (k, v) concept_strengths ->
     exists c, In (c, v) seen /\ key_eqb c k = true) /\
  (forall c s, In (c, s) seen ->
     exists k v, In (k, v) concept_strengths /\ key_eqb c k = true /\ (s <= v)%R) /\
  CrossQuantities.distinct_keys (List.map fst concept_strengths) = true.

(** A bridge lookup that finds two bridges between any two concepts, as
    the graph store of the repository does. *)
Definition two_bridges : pyval -> pyval -> outcome (list pyval) :=
  fun _ _ => Ok [PStr "Bridge Concept A"; PStr "Bridge Concept B"].

(** The entry of [concept_strengths] holds the strength of the strongest
    memory that carries its concept. *)
Definition strongest (fromisoformat : string -> outcome datetime) (now : datetime)
    (memories : list pyval) (entry : pyval * R) : Prop :=
  (exists memory concept,
     In memory memories /\ In concept (concepts_of memory) /\
     key_eqb concept (fst entry) = true /\
     snd entry = strength_of fromisoformat now memory) /\
  (forall memory concept,
     In memory memories -> In concept (concepts_of memory) ->
     key_eqb concept (fst entry) = true ->
     (strength_of fromisoformat now memory <= snd entry)%R).

(** The concept nodes of a view. *)
Definition concept_entries (nodes : list node) : list (pyval * R) :=
  flat_map (fun n => match n with
                     | ConceptNode id strength _ _ => [(id, strength)]
                     | PaperNode _ _ => []
                     end) nodes.

Definition well_formed_node (n : node) : Prop :=
  match n with
  | ConceptNode _ strength mastery size =>
      (0 <= strength <= 1)%R /\ mastery = _strength_to_mastery strength /\
      size = (strength * 100)%R
  | PaperNode _ _ => True
  end.

(** Whether a node is a concept node (and not a paper node). *)
Definition is_concept_node (n : node) : bool :=
  match n with
  | ConceptNode _ _ _ _ => true
  | PaperNode _ _ => false
  end.

(** An edge with a weight in [0,1] and one to three bridge concepts. *)
Definition sound_edge (e : edge) : Prop :=
  (0 <= ed_weight e <= 1)%R /\ ed_bridge_concepts e <> [] /\
  (length (ed_bridge_concepts e) <= 3)%nat.

End GraphView.

Module GroupQuantities.
Import Py Services MemoryConsolidation Spec GraphView.

(** The concepts the items carry, each with its item, in the order
    [_group_by_concept] meets them. *)
Definition item_mentions (memory_strengths : list strength_item)
  : list (pyval * strength_item) :=
  flat_map (fun item =>
              List.map (fun concept => (concept, item)) (concepts_of (item_memory item)))
           memory_strengths.

(** One step of the grouping. *)
Definition file_item (groups : list (pyval * list strength_item))
    (mention : pyval * strength_item) : list (pyval * list strength_item) :=
  vassoc_update (fst mention) [] (fun l => (l ++ [snd mention])%list) groups.

(** The groups hold exactly what has been seen: each mention is in the
    group of its concept, each member of a group is a mention of the group's
    concept, no group is empty, no two groups have the same concept, and the
    groups together have as many members as there are mentions. *)
Definition groups_of (seen : list (pyval * strength_item))
    (groups : list (pyval * list strength_item)) : Prop :=
  (forall c item, In (c, item) seen ->
     exists k members, In (k, members) groups /\ key_eqb c k = true /\ In item members) /\
  (forall k members item, In (k, members) groups -> In item members ->
     exists c, In (c, item) seen /\ key_eqb c k = true) /\
  Forall (fun g => snd g <> []) groups /\
  CrossQuantities.distinct_keys (List.map fst groups) = true /\
  list_sum (List.map (fun g => length (snd g)) groups) = length seen.

(** Two memories that share the concept of transformers. *)
Definition attention_item : strength_item :=
  {| item_memory := transformer_memory; item_strength := 1%R |}.

Definition survey_item : strength_item :=
  {| item_memory :=
       PDict [("content", PDict [("paper_id", PStr "p-3");
                                 ("key_concepts", PList [PStr "Transformers"])])];
     item_strength := 1%R |}.

End GroupQuantities.

(* ===================================================================== *)
(** * Part II: the theorems                                               *)
(* ===================================================================== *)

(** ** The memory strength model *)

Module StrengthFacts.
Import Py MemoryConsolidation Spec.

(** *** Real analysis used below *)

Lemma float_max_ge_1 : (1 <= float_max)%R.
Proof.
  unfold float_max.
  assert (H1 : (1 <= 2 ^ 1023)%R) by (apply pow_R1_Rle; lra).
  assert (H2 : (1 <= 2 ^ 52)%R) by (apply pow_R1_Rle; lra).
  assert (H3 : (/ 2 ^ 52 <= 1)%R).
  { rewrite <- Rinv_1. apply Rinv_le_contravar; lra. }
  nra.
Qed.

Lemma float_max_lt_pow : (float_max < 2 ^ 1024)%R.
Proof.
  unfold float_max.
  assert (H1 : (0 < 2 ^ 1023)%R) by (apply pow_lt; lra).
  assert (H2 : (0 < / 2 ^ 52)%R) by (apply Rinv_0_lt_compat, pow_lt; lra).
  replace (2 ^ 1024)%R with (2 * 2 ^ 1023)%R
    by (change 1024%nat with (S 1023); rewrite <- tech_pow_Rmult; reflexivity).
  nra.
Qed.

Lemma exp_ge_pow2 (n : nat) : (2 ^ n <= exp (INR n))%R.
Proof.
  induction n as [|n IH].
  - simpl. rewrite exp_0. lra.
  - rewrite S_INR, exp_plus, <- tech_pow_Rmult.
    pose proof (exp_ineq1_le 1) as H1.
    pose proof (exp_pos (INR n)) as H2.
    assert (0 < 2 ^ n)%R by (apply pow_lt; lra).
    nra.
Qed.

Lemma exp_nonpos_le_1 q : (q <= 0)%R -> (exp q <= 1)%R.
Proof.
  intros [Hlt| ->].
  - left. rewrite <- exp_0. now apply exp_increasing.
  - rewrite exp_0. lra.
Qed.

Lemma exp_le_mono a b : (a <= b)%R -> (exp a <= exp b)%R.
Proof.
  intros [Hlt| ->]; [left; now apply exp_increasing | lra].
Qed.

Lemma ln_2_lt_1 : (ln 2 < 1)%R.
Proof.
  rewrite <- (ln_exp 1). apply ln_increasing; [lra|].
  pose proof (exp_ineq1 1). lra.
Qed.

Lemma ln_succ_nonneg a : (0 <= a)%Z -> (0 <= ln (IZR a + 1))%R.
Proof.
  intros Ha. apply IZR_le in Ha.
  destruct Ha as [Hlt|Heq].
  - left. rewrite <- ln_1. apply ln_increasing; lra.
  - rewrite <- Heq, Rplus_0_l, ln_1. lra.
Qed.

(** *** The exponent of the forgetting curve *)

Definition base30 (a : Z) : R := ((ln (IZR a + 1) + 1) * 30)%R.

Lemma retention_eq td a :
  retention (elapsed_days td) (IZR a) = exp (- elapsed_days td / base30 a).
Proof. reflexivity. Qed.


Lemma elapsed_days_nonneg td : (0 <= td)%Z -> (0 <= elapsed_days td)%R.
Proof. intros H. apply IZR_le in H. unfold elapsed_days, total_seconds. lra. Qed.


Lemma base30_ge a : (0 <= a)%Z -> (30 <= base30 a)%R.
Proof. intros H. pose proof (ln_succ_nonneg a H). unfold base30. lra. Qed.



Lemma exponent_nonpos td a :
  (0 <= a)%Z -> (0 <= td)%Z -> (- elapsed_days td / base30 a <= 0)%R.
Proof.
  intros Ha Htd.
  pose proof (base30_ge a Ha). pose proof (elapsed_days_nonneg _ Htd).
  assert (0 < / base30 a)%R by (apply Rinv_0_lt_compat; lra).
  unfold Rdiv. nra.
Qed.



Lemma retention_past_le_1 td a :
  (0 <= a)%Z -> (0 <= td)%Z -> (retention (elapsed_days td) (IZR a) <= 1)%R.
Proof. intros Ha Htd. rewrite retention_eq. now apply exp_nonpos_le_1, exponent_nonpos. Qed.


(** *** What the code returns on a well-formed memory *)

(** The value on a memory whose timestamp lies [td] microseconds before the
    evaluation time and whose access count is [a]. *)
Definition strength_at (td a : Z) : R :=
  if Rlt_dec float_max (retention (elapsed_days td) (IZR a)) then 0.5%R
  else Rmin 1 (retention (elapsed_days td) (IZR a)).

Lemma strength_value iso m now t td a :
  memory_time iso m = Some t ->
  datetime_sub now t = Ok td ->
  memory_access_count m = Ok (PInt a) ->
  (0 <= a)%Z ->
  calculate_memory_strength iso m now = Ok (strength_at td a).
Proof.
  intros Ht Hsub Hac Ha.
  unfold calculate_memory_strength, calculate_memory_strength_body.
  unfold memory_time, memory_timestamp in Ht.
  unfold memory_access_count in Hac.
  destruct (py_get m "content" (PDict [])) as [content|e]; simpl in *; [|discriminate].
  destruct (py_get content "timestamp" PNone) as [ts|e]; simpl in *; [|discriminate].
  destruct (truthy ts) eqn:Htr; [|discriminate]. simpl.
  assert (Hmt : (match ts with
                 | PStr s => d ← iso (replace_Z s); Ok (PDatetime d)
                 | _ => Ok ts end) = Ok (PDatetime t)).
  { destruct ts; try discriminate.
    - destruct (iso (replace_Z s)); simpl; congruence.
    - congruence. }
  rewrite Hmt. simpl. rewrite Hsub. simpl.
  destruct (py_get m "metadata" (PDict [])) as [md|e]; simpl in *; [|discriminate].
  rewrite Hac. simpl. rewrite plus_IZR.
  pose proof (ln_succ_nonneg a Ha) as Hln.
  unfold math_log. destruct (Rlt_dec 0 (IZR a + 1)) as [Hp|Hn].
  2:{ exfalso. apply Hn. apply IZR_le in Ha. lra. }
  simpl. unfold truediv.
  destruct (Req_dec_T ((ln (IZR a + 1) + 1) * 30) 0) as [Hz|Hnz]; [lra|].
  simpl. unfold math_exp, strength_at, retention, elapsed_days.
  destruct (Rlt_dec float_max _); reflexivity.
Qed.

Lemma strength_at_in_range td a :
  (retention (elapsed_days td) (IZR a) <= float_max)%R ->
  strength_at td a = Rmin 1 (retention (elapsed_days td) (IZR a)).
Proof. intros H. unfold strength_at. destruct (Rlt_dec _ _); [lra | reflexivity]. Qed.

Lemma strength_at_past td a :
  (0 <= a)%Z -> (0 <= td)%Z -> strength_at td a = retention (elapsed_days td) (IZR a).
Proof.
  intros Ha Htd.
  pose proof (retention_past_le_1 td a Ha Htd) as Hle.
  pose proof float_max_ge_1.
  rewrite strength_at_in_range by lra. now apply Rmin_right.
Qed.





(** *** Totality and the default *)

Lemma Rmin_exp_range q : (0 <= Rmin 1 (exp q) <= 1)%R.
Proof.
  pose proof (exp_pos q). split.
  - apply Rmin_glb; lra.
  - apply Rmin_l.
Qed.

Lemma body_shape iso m now r :
  calculate_memory_strength_body iso m now = Ok r ->
  r = 0.5%R \/ exists q, r = Rmin 1 (exp q).
Proof.
  unfold calculate_memory_strength_body.
  destruct (py_get m "content" (PDict [])) as [content|e]; simpl; [|discriminate].
  destruct (py_get content "timestamp" PNone) as [ts|e]; simpl; [|discriminate].
  destruct (negb (truthy ts)); [intros [= <-]; now left|].
  destruct (match ts with
            | PStr s => d ← iso (replace_Z s); Ok (PDatetime d)
            | _ => Ok ts end) as [mt|e]; simpl; [|discriminate].
  destruct (datetime_minus now mt) as [td|e]; simpl; [|discriminate].
  destruct (py_get m "metadata" (PDict [])) as [md|e]; simpl; [|discriminate].
  destruct (py_get md "access_count" (PInt 1)) as [ac|e]; simpl; [|discriminate].
  destruct (plus_one ac) as [n|e]; simpl; [|discriminate].
  destruct (math_log n) as [l|e]; simpl; [|discriminate].
  destruct (truediv _ _) as [q|e]; simpl; [|discriminate].
  unfold math_exp. destruct (Rlt_dec float_max (exp q)); simpl; [discriminate|].
  intros [= <-]. right. now exists q.
Qed.

Lemma strength_total iso m now :
  exists r, calculate_memory_strength iso m now = Ok r /\ (0 <= r <= 1)%R.
Proof.
  unfold calculate_memory_strength.
  destruct (calculate_memory_strength_body iso m now) as [r|e] eqn:Hb; simpl.
  - exists r. split; [reflexivity|].
    destruct (body_shape _ _ _ _ Hb) as [->|[q ->]]; [lra | apply Rmin_exp_range].
  - exists 0.5%R. split; [reflexivity | lra].
Qed.

Lemma strength_default iso m now :
  memory_time iso m = None ->
  calculate_memory_strength iso m now = Ok 0.5%R.
Proof.
  unfold memory_time, memory_timestamp, calculate_memory_strength,
    calculate_memory_strength_body.
  destruct (py_get m "content" (PDict [])) as [content|e]; simpl; [|reflexivity].
  destruct (py_get content "timestamp" PNone) as [ts|e]; simpl; [|reflexivity].
  destruct (truthy ts) eqn:Htr; simpl; [|reflexivity].
  destruct ts; simpl; try reflexivity; try discriminate.
  destruct (iso (replace_Z s)); simpl; [discriminate | reflexivity].
Qed.

End StrengthFacts.

Module StrengthClaims.
Import Py MemoryConsolidation Spec StrengthFacts.

(** C1 (amended).  [calculate_memory_strength] never raises and its result
    lies in [0,1]; it is exactly 0.5 when the timestamp is missing or
    unparseable, and whenever a step of the computation raises; and when the timestamp is a datetime that can be subtracted
    from the evaluation time, the access count is a non-negative integer (1
    when absent) and [math.exp] stays in the range of a double, it is
    [min(1.0, exp(-elapsed_days / ((ln(access_count + 1) + 1) * 30)))].  A
    timestamp that is not after the evaluation time always stays in range,
    and the result is then the retention itself. *)
Theorem calculate_memory_strength_contract
    (fromisoformat : string -> outcome datetime) (m : pyval) (now : datetime) :
  (exists r, calculate_memory_strength fromisoformat m now = Ok r /\ (0 <= r <= 1)%R) /\
  (memory_time fromisoformat m = None ->
   calculate_memory_strength fromisoformat m now = Ok 0.5%R) /\
  (forall e, calculate_memory_strength_body fromisoformat m now = Raise e ->
             calculate_memory_strength fromisoformat m now = Ok 0.5%R) /\
  (forall t td a,
     memory_time fromisoformat m = Some t ->
     datetime_sub now t = Ok td ->
     memory_access_count m = Ok (PInt a) ->
     (0 <= a)%Z ->
     ((retention (elapsed_days td) (IZR a) <= float_max)%R ->
      calculate_memory_strength fromisoformat m now =
        Ok (Rmin 1 (retention (elapsed_days td) (IZR a)))) /\
     ((0 <= td)%Z ->
      calculate_memory_strength fromisoformat m now =
        Ok (retention (elapsed_days td) (IZR a)))).
Proof.
  split; [apply strength_total|].
  split; [apply strength_default|].
  split; [intros e He; unfold calculate_memory_strength; now rewrite He|].
  intros t td a Ht Hsub Hac Ha.
  rewrite (strength_value _ _ _ _ _ _ Ht Hsub Hac Ha).
  split.
  - intros Hr. now rewrite strength_at_in_range.
  - intros Htd. now rewrite strength_at_past.
Qed.

(** A memory read thirty days before the evaluation time, with no access
    count: spec scenario 1. *)
Lemma calculate_memory_strength_contract_witness :
  calculate_memory_strength no_parser (memory_aged 30 [("source", PStr "pdf_upload")])
                            new_year_2026
  = Ok (retention (elapsed_days (30 * day_micros)) 1).
Proof.
  destruct (calculate_memory_strength_contract no_parser
              (memory_aged 30 [("source", PStr "pdf_upload")]) new_year_2026)
    as (_ & _ & _ & H).
  destruct (H (DateTime ((739616 - 30) * day_micros) None) (30 * day_micros)%Z 1%Z)
    as [_ Hpast]; try reflexivity; try lia.
  apply Hpast. unfold day_micros. lia.
Defined.

(** C1 as stated fails: a memory stamped 100000 days after the evaluation
    time has a parseable timestamp, so the specification's value is
    [min(1.0, retention) = 1.0]; in the code [math.exp] overflows and the
    handler answers 0.5. *)
Lemma calculate_memory_strength_overflow_counterexample :
  calculate_memory_strength no_parser (memory_aged (-100000) []) new_year_2026 = Ok 0.5%R
  /\ spec_strength no_parser (memory_aged (-100000) []) new_year_2026 = 1%R.
Proof.
  assert (Hbig : (float_max < retention (elapsed_days (-100000 * day_micros)) 1)%R).
  { apply Rlt_le_trans with (1 := float_max_lt_pow).
    apply Rle_trans with (1 := exp_ge_pow2 1024).
    unfold retention. apply exp_le_mono.
    rewrite INR_IZR_INZ. change (Z.of_nat 1024) with 1024%Z.
    pose proof ln_2_lt_1 as Hln.
    assert (Hln0 : (0 < ln (1 + 1))%R).
    { rewrite <- ln_1. apply ln_increasing; lra. }
    replace (1 + 1)%R with 2%R in * by lra.
    assert (He : (elapsed_days (-100000 * day_micros) = -100000)%R).
    { unfold elapsed_days, total_seconds, day_micros.
      change (-100000 * 86400000000)%Z with (-8640000000000000)%Z. lra. }
    rewrite He.
    apply Rmult_le_reg_r with ((ln 2 + 1) * 30)%R; [lra|].
    unfold Rdiv. rewrite Rmult_assoc, Rinv_l by lra. lra. }
  split.
  - rewrite (strength_value no_parser _ _ (DateTime ((739616 - -100000) * day_micros) None)
               (-100000 * day_micros)%Z 1%Z); try reflexivity; try lia.
    unfold strength_at. destruct (Rlt_dec _ _); [reflexivity | contradiction].
  - unfold spec_strength.
    change (memory_time no_parser (memory_aged (-100000) []))
      with (Some (DateTime ((739616 - -100000) * day_micros) None)).
    change (memory_access_count (memory_aged (-100000) [])) with (Ok (PInt 1) : outcome pyval).
    lazy beta iota.
    replace (instant new_year_2026
             - instant (DateTime ((739616 - -100000) * day_micros) None))%Z
      with (-100000 * day_micros)%Z by reflexivity.
    apply Rmin_left. pose proof float_max_ge_1. lra.
Qed.

(** An aware timestamp (here with the [Z] suffix the code rewrites) against
    the naive evaluation time that [datetime.now()] gives: the subtraction
    raises and the handler answers 0.5. *)
Example aware_timestamp_against_naive_now :
  replace_Z "2025-12-17T16:00:00Z" = "2025-12-17T16:00:00+00:00"
  /\ calculate_memory_strength utc_parser
       (PDict [("content", PDict [("timestamp", PStr "2025-12-17T16:00:00Z")])])
       new_year_2026 = Ok 0.5%R.
Proof. split; reflexivity. Qed.




End StrengthClaims.

(** ** Community detection *)

Module CommunityFacts.
Import Py Services GraphReasoning Spec.

(** The loop only adds to [visited] and to the community, and every author
    it adds to the community is one it newly marks as visited. *)
Lemma bfs_loop_spec graph queue visited community :
  visited ⊆ (bfs_loop graph queue visited community).2 /\
  community ⊆ (bfs_loop graph queue visited community).1 /\
  (bfs_loop graph queue visited community).1
    ⊆ community ∪ ((bfs_loop graph queue visited community).2 ∖ visited).
Proof.
  funelim (bfs_loop graph queue visited community).
  - simpl. set_solver.
  - assumption.
  - match goal with IH : _ /\ _ |- _ => destruct IH as (Hv & Hc & Hnew) end.
    repeat split.
    + set_solver.
    + set_solver.
    + intros a Ha. apply Hnew in Ha. set_solver.
Qed.

Lemma bfs_community_fresh start graph visited :
  visited ⊆ (_bfs_community start graph visited).2 /\
  (_bfs_community start graph visited).1
    ⊆ (_bfs_community start graph visited).2 ∖ visited.
Proof.
  unfold _bfs_community.
  destruct (bfs_loop_spec graph [start] visited ∅) as (Hv & _ & Hnew).
  split; [exact Hv | set_solver].
Qed.

Lemma pairwise_disjoint_snoc communities c :
  pairwise_disjoint communities ->
  (forall c' a, c' ∈ communities -> a ∈ cm_members c' -> a ∉ cm_members c) ->
  pairwise_disjoint (communities ++ [c]).
Proof.
  intros Hpd Hnew i j ci cj Hij Hi Hj a Ha.
  destruct (decide (i < length communities)%nat) as [Hil|Hil];
    destruct (decide (j < length communities)%nat) as [Hjl|Hjl].
  - rewrite lookup_app_l in Hi by done. rewrite lookup_app_l in Hj by done.
    by eapply Hpd.
  - rewrite lookup_app_l in Hi by done.
    rewrite lookup_app_r in Hj by lia.
    destruct (j - length communities)%nat eqn:Hd; simpl in Hj; [|done].
    injection Hj as <-. eapply Hnew; [|exact Ha].
    eapply list_elem_of_lookup_2. exact Hi.
  - rewrite lookup_app_r in Hi by lia.
    rewrite lookup_app_l in Hj by done.
    destruct (i - length communities)%nat eqn:Hd; simpl in Hi; [|done].
    injection Hi as <-. intros Hcj.
    eapply Hnew; [|exact Hcj|exact Ha].
    eapply list_elem_of_lookup_2. exact Hj.
  - rewrite lookup_app_r in Hi by lia. rewrite lookup_app_r in Hj by lia.
    destruct (i - length communities)%nat eqn:Hdi; simpl in Hi; [|done].
    destruct (j - length communities)%nat eqn:Hdj; simpl in Hj; [|done].
    lia.
Qed.

Lemma community_step_gathered collab_graph min_community_size st author :
  gathered min_community_size st ->
  gathered min_community_size (community_step collab_graph min_community_size st author).
Proof.
  destruct st as [visited communities]. intros (Hin & Hpd & Hwf).
  unfold community_step. case_bool_decide; [by repeat split|].
  pose proof (bfs_community_fresh author collab_graph visited) as [Hsub Hfresh].
  destruct (_bfs_community author collab_graph visited) as [community visited'].
  simpl in *.
  destruct (min_community_size <=? Z.of_nat (size community))%Z eqn:Hmin.
  - repeat split; simpl.
    + intros c a Hc Ha. apply elem_of_app in Hc as [Hc|Hc].
      * apply Hsub. by eapply Hin.
      * apply list_elem_of_singleton in Hc. subst c. simpl in Ha.
        apply elem_of_elements in Ha. set_solver.
    + apply pairwise_disjoint_snoc; [done|].
      intros c' a Hc' Ha. simpl. rewrite elem_of_elements.
      specialize (Hin c' a Hc' Ha). set_solver.
    + apply Forall_app. split; [done|].
      constructor; [|constructor]. repeat split; simpl.
      * by apply Z.leb_le.
      * apply NoDup_elements.
  - repeat split; simpl; [|done..].
    intros c a Hc Ha. apply Hsub. by eapply Hin.
Qed.

Lemma fold_gathered collab_graph min_community_size authors st :
  gathered min_community_size st ->
  gathered min_community_size
    (fold_left (community_step collab_graph min_community_size) authors st).
Proof.
  revert st. induction authors as [|a l IH]; intros st Hst; simpl; [done|].
  apply IH. by apply community_step_gathered.
Qed.

Lemma communities_of_gathered collab_graph min_community_size :
  pairwise_disjoint (communities_of collab_graph min_community_size) /\
  Forall (well_formed min_community_size) (communities_of collab_graph min_community_size).
Proof.
  unfold communities_of. change snd with (@snd (gset string) (list community)).
  destruct (fold_gathered collab_graph min_community_size (List.map fst collab_graph) (∅, []))
    as (_ & Hpd & Hwf); [|done].
  repeat split; simpl; [set_solver | | constructor].
  intros i j ci cj _ Hi. by rewrite lookup_nil in Hi.
Qed.

End CommunityFacts.

Module CommunityClaims.
Import Py Services GraphReasoning Spec CommunityFacts.

(** C9.  Whatever the graph store answers and whatever the minimum size,
    [detect_research_communities] returns a list of communities that are
    pairwise disjoint (no author is a member of two of them), each of a size
    that is at least [min_community_size] and that counts its members. *)
Theorem detect_research_communities_disjoint
    (graph_service : GraphService) (min_community_size : Z) :
  exists communities,
    answer (detect_research_communities graph_service min_community_size) = Ok communities /\
    pairwise_disjoint communities /\
    Forall (well_formed min_community_size) communities.
Proof.
  unfold answer, detect_research_communities, try_exceptG. simpl.
  destruct (driver_session graph_service) as [session|e]; simpl.
  2:{ exists []. repeat split; [|constructor].
      intros i j ci cj _ Hi. by rewrite lookup_nil in Hi. }
  destruct (run_collaborations graph_service) as [rows|e]; simpl.
  2:{ exists []. repeat split; [|constructor].
      intros i j ci cj _ Hi. by rewrite lookup_nil in Hi. }
  eexists. split; [reflexivity|]. apply communities_of_gathered.
Qed.

(** On three pairs of co-authors, two of which share an author, and a
    minimum size of 3, the one community of three is reported. *)
Example detect_research_communities_sample :
  answer (detect_research_communities (sample_graph [] three_pairs) 3)
  = Ok [ {| cm_type := "author_collaboration"; cm_members := ["Cy"; "Ada"; "Bob"];
            cm_size := 3; cm_cohesion := "high" |} ]
  /\ answer (detect_research_communities (sample_graph [] three_pairs) 2)
     = Ok [ {| cm_type := "author_collaboration"; cm_members := ["Cy"; "Ada"; "Bob"];
               cm_size := 3; cm_cohesion := "high" |};
            {| cm_type := "author_collaboration"; cm_members := ["Eve"; "Dee"];
               cm_size := 2; cm_cohesion := "high" |} ].
Proof. split; vm_compute; reflexivity. Qed.

End CommunityClaims.

(** ** The graph reasoning engine *)

Module GraphFacts.
Import Py Services GraphReasoning Spec.

(** Unfolds an operation down to the answers of the store. *)
Ltac run_operation :=
  unfold answer, calls, try_exceptG, ask, raiseG; cbn [runG mbind mret G_bind G_ret fst snd].

(** Case analysis on the next answer of the store that the goal inspects. *)
Ltac next_answer :=
  match goal with
  | |- context [match ?o with Ok _ => _ | Raise _ => _ end] =>
      let a := fresh "a" in let e := fresh "e" in
      destruct o as [a|e] eqn:?; cbn [runG mbind mret G_bind G_ret fst snd]
  end.

Ltac absurd_failure :=
  match goal with
  | H : fails (Ok _) |- _ => destruct H as [? ?]; discriminate
  | H : Ok _ = Raise _ |- _ => discriminate
  | H : Raise _ = Ok _ |- _ => discriminate
  end.

Lemma fails_raise {A : Type} (e : exn) : fails (@Raise A e).
Proof. now exists e. Qed.

(** Closes a goal whose hypotheses say that a call that answered failed. *)
Ltac no_failure :=
  repeat match goal with
         | H : _ \/ _ |- _ => destruct H
         | H : _ /\ _ |- _ => destruct H
         end;
  try absurd_failure; try congruence.

Ltac settle := repeat next_answer; try reflexivity; try (eexists; reflexivity); no_failure.

Lemma find_analogies_failure py_str gs source target max :
  fails (get_related_papers gs source 20) \/ fails (get_related_papers gs target 20)
  \/ fails (driver_session gs) \/ fails (run_analogies gs source target max)
  \/ (run_analogies gs source target max = Ok []
      /\ fails (find_bridge_concepts gs source target)) ->
  answer (find_analogies py_str gs source target max) = Ok [].
Proof.
  intros H. unfold find_analogies. run_operation.
  do 4 (next_answer; [|reflexivity]).
  destruct a2 as [|row rows]; cbn [List.map runG mbind mret G_bind G_ret fst snd].
  - next_answer; [|reflexivity]. no_failure.
  - no_failure.
Qed.

Lemma detect_contradictions_failure gs concept :
  fails (get_related_papers gs concept 30) \/ fails (driver_session gs)
  \/ fails (run_contradictions gs concept) ->
  answer (detect_contradictions gs concept) = Ok [].
Proof. intros H. unfold detect_contradictions. run_operation. settle. Qed.

Lemma analyze_research_gaps_failure py_str gs area :
  fails (driver_session gs) \/ fails (run_missing_connections gs area)
  \/ fails (run_unexplored_methods gs area) ->
  exists msg, answer (analyze_research_gaps py_str gs area) = Ok (ErrorDict msg).
Proof. intros H. unfold analyze_research_gaps. run_operation. settle. Qed.

Lemma track_concept_lifecycle_failure gs concept :
  fails (driver_session gs) \/ fails (run_lifecycle gs concept) ->
  exists msg, answer (track_concept_lifecycle gs concept) = Ok (ErrorDict msg).
Proof. intros H. unfold track_concept_lifecycle. run_operation. settle. Qed.

Lemma calculate_influence_propagation_failure gs paper_id max_depth :
  fails (driver_session gs) \/ fails (run_influence gs paper_id max_depth) ->
  exists msg,
    answer (calculate_influence_propagation gs paper_id max_depth) = Ok (ErrorDict msg).
Proof. intros H. unfold calculate_influence_propagation. run_operation. settle. Qed.

Lemma find_synthesis_paths_failure py_str gs concepts :
  fails (driver_session gs) \/ fails (run_existing_synthesis gs concepts)
  \/ fails (run_shared_methods gs concepts) ->
  answer (find_synthesis_paths py_str gs concepts) = Ok [].
Proof.
  intros H. unfold find_synthesis_paths. run_operation.
  destruct (length concepts <? 2)%nat; cbn [runG mbind mret G_bind G_ret fst snd];
    [reflexivity|].
  settle.
Qed.

Lemma detect_research_communities_failure gs min_community_size :
  fails (driver_session gs) \/ fails (run_collaborations gs) ->
  answer (detect_research_communities gs min_community_size) = Ok [].
Proof. intros H. unfold detect_research_communities. run_operation. settle. Qed.

Lemma stage_of_short timeline growth_rate :
  (length timeline < 3)%nat -> stage_of timeline growth_rate = "emerging".
Proof.
  intros H. unfold stage_of.
  destruct (Nat.ltb_spec (length timeline) 3) as [_|Hge]; [reflexivity | lia].
Qed.

End GraphFacts.

Module GraphClaims.
Import Py Services GraphReasoning Spec GraphFacts.

(** C3 (amended).  When an access to the graph store fails, the operations
    that return lists (analogies, contradictions, synthesis paths, community
    detection) return the empty list, and the operations that return records
    (research gaps, concept lifecycle, influence propagation) return the
    error record [{"error": message}]; none raises. *)
Theorem graph_operations_on_failure (py_str : pyval -> string) (gs : GraphService) :
  (forall source target max,
     fails (get_related_papers gs source 20) \/ fails (get_related_papers gs target 20)
     \/ fails (driver_session gs) \/ fails (run_analogies gs source target max)
     \/ (run_analogies gs source target max = Ok []
         /\ fails (find_bridge_concepts gs source target)) ->
     answer (find_analogies py_str gs source target max) = Ok []) /\
  (forall concept,
     fails (get_related_papers gs concept 30) \/ fails (driver_session gs)
     \/ fails (run_contradictions gs concept) ->
     answer (detect_contradictions gs concept) = Ok []) /\
  (forall area,
     fails (driver_session gs) \/ fails (run_missing_connections gs area)
     \/ fails (run_unexplored_methods gs area) ->
     exists msg, answer (analyze_research_gaps py_str gs area) = Ok (ErrorDict msg)) /\
  (forall concept,
     fails (driver_session gs) \/ fails (run_lifecycle gs concept) ->
     exists msg, answer (track_concept_lifecycle gs concept) = Ok (ErrorDict msg)) /\
  (forall paper_id max_depth,
     fails (driver_session gs) \/ fails (run_influence gs paper_id max_depth) ->
     exists msg,
       answer (calculate_influence_propagation gs paper_id max_depth) = Ok (ErrorDict msg)) /\
  (forall concepts,
     fails (driver_session gs) \/ fails (run_existing_synthesis gs concepts)
     \/ fails (run_shared_methods gs concepts) ->
     answer (find_synthesis_paths py_str gs concepts) = Ok []) /\
  (forall min_community_size,
     fails (driver_session gs) \/ fails (run_collaborations gs) ->
     answer (detect_research_communities gs min_community_size) = Ok []).
Proof.
  repeat split; intros.
  - now apply find_analogies_failure.
  - now apply detect_contradictions_failure.
  - now apply analyze_research_gaps_failure.
  - now apply track_concept_lifecycle_failure.
  - now apply calculate_influence_propagation_failure.
  - now apply find_synthesis_paths_failure.
  - now apply detect_research_communities_failure.
Qed.

(** The store of the repository has no driver: analogies come back empty
    and influence propagation as an error record. *)
Lemma graph_operations_on_failure_witness :
  answer (find_analogies str_of_strings MockGraphService "vision" "language" 5) = Ok []
  /\ exists msg,
       answer (calculate_influence_propagation MockGraphService "paper-1" 3)
       = Ok (ErrorDict msg).
Proof.
  destruct (graph_operations_on_failure str_of_strings MockGraphService)
    as (Han & _ & _ & _ & Hinf & _).
  split.
  - apply Han. right. right. left. apply fails_raise.
  - apply Hinf. left. apply fails_raise.
Defined.

(** C3 as stated fails: on the store of the repository, whose sessions
    cannot be opened, the research-gap analysis does not return an empty
    result but the error record. *)
Lemma analyze_research_gaps_error_counterexample :
  answer (analyze_research_gaps str_of_strings MockGraphService "machine learning")
  = Ok (ErrorDict "'MockGraphService' object has no attribute 'driver'")
  /\ answer (analyze_research_gaps str_of_strings MockGraphService "machine learning")
     <> Ok (Result {| missing_connections := []; under_explored_methods := [];
                      novel_combinations := [] |}).
Proof. split; [reflexivity | discriminate]. Qed.

(** C4 (amended).  When the lifecycle query returns one or two rows (one row
    per year), [track_concept_lifecycle] reports the stage "emerging",
    whatever the growth rate. *)
Theorem track_concept_lifecycle_emerging
    (gs : GraphService) (concept : string) (session : unit) (timeline : list year_row) :
  driver_session gs = Ok session ->
  run_lifecycle gs concept = Ok timeline ->
  (0 < length timeline < 3)%nat ->
  (forall growth_rate, stage_of timeline growth_rate = "emerging") /\
  exists r,
    answer (track_concept_lifecycle gs concept) = Ok (Result r) /\
    lc_lifecycle_stage r = "emerging" /\
    lc_total_years r = length timeline /\
    lc_timeline r = timeline.
Proof.
  intros Hs Hrun [Hpos Hlt].
  split; [intros g; now apply stage_of_short|].
  unfold track_concept_lifecycle. run_operation. rewrite Hs.
  cbn [runG mbind mret G_bind G_ret fst snd]. rewrite Hrun.
  cbn [runG mbind mret G_bind G_ret fst snd].
  destruct timeline as [|first rest]; [simpl in Hpos; lia|].
  cbn [runG mbind mret G_bind G_ret fst snd].
  eexists. split; [reflexivity|].
  cbn [lc_lifecycle_stage lc_total_years lc_timeline].
  split; [now apply stage_of_short | split; reflexivity].
Qed.

(** One paper in 2021 and forty in 2023: the growth rate is 41, the stage
    "emerging". *)
Lemma track_concept_lifecycle_emerging_witness :
  growth_rate_of [ {| yr_year := 2021; yr_paper_count := 1 |};
                   {| yr_year := 2023; yr_paper_count := 40 |} ] = (41 # 1)%Q
  /\ exists r,
       answer (track_concept_lifecycle
                 (sample_graph [ {| yr_year := 2021; yr_paper_count := 1 |};
                                 {| yr_year := 2023; yr_paper_count := 40 |} ] [])
                 "graph transformers") = Ok (Result r)
       /\ lc_lifecycle_stage r = "emerging".
Proof.
  split; [reflexivity|].
  destruct (track_concept_lifecycle_emerging
              (sample_graph [ {| yr_year := 2021; yr_paper_count := 1 |};
                              {| yr_year := 2023; yr_paper_count := 40 |} ] [])
              "graph transformers" tt
              [ {| yr_year := 2021; yr_paper_count := 1 |};
                {| yr_year := 2023; yr_paper_count := 40 |} ])
    as (_ & r & Hr & Hstage & _); [reflexivity | reflexivity | simpl; lia |].
  exists r. split; [exact Hr | exact Hstage].
Defined.

(** C4 as stated fails at zero years: with an empty timeline the operation
    classifies nothing and returns the error record. *)
Lemma track_concept_lifecycle_empty_counterexample :
  answer (track_concept_lifecycle (sample_graph [] []) "graph transformers")
  = Ok (ErrorDict "No temporal data available").
Proof. reflexivity. Qed.

(** C8.  On a list of fewer than two concepts [find_synthesis_paths]
    returns the empty list and calls the graph store not once: the record of
    calls is the one it started from. *)
Theorem find_synthesis_paths_short
    (py_str : pyval -> string) (gs : GraphService) (concepts : list string)
    (log : list gcall) :
  (length concepts < 2)%nat ->
  runG (find_synthesis_paths py_str gs concepts) log = (Ok [], log).
Proof.
  intros H. unfold find_synthesis_paths. run_operation.
  destruct (Nat.ltb_spec (length concepts) 2) as [_|Hge]; [reflexivity | lia].
Qed.

Lemma find_synthesis_paths_short_witness :
  runG (find_synthesis_paths str_of_strings MockGraphService ["attention"]) []
  = (Ok [], []).
Proof.
  apply (find_synthesis_paths_short str_of_strings MockGraphService ["attention"] []).
  simpl. lia.
Defined.

(** With two concepts the first thing the operation does is open a session. *)
Example find_synthesis_paths_queries :
  calls (find_synthesis_paths str_of_strings (sample_graph [] []) ["attention"; "memory"])
  = [OpenSession; RunExistingSynthesis ["attention"; "memory"];
     RunSharedMethods ["attention"; "memory"]].
Proof. reflexivity. Qed.

End GraphClaims.

(** ** The cognitive load optimizer *)

Module FusionFacts.
Import Py Services MemoryGraphFusion Spec.

(** The loop that keeps the memories of papers read. *)
Lemma read_today_filter (l acc res : list pyval) :
  foldM (fun acc m =>
           content ← py_get m "content" (PDict []);
           type ← py_get content "type" PNone;
           Ok (if eq_str type "paper_reading" then (acc ++ [m])%list else acc))
        l acc = Ok res ->
  res = (acc ++ List.filter is_paper_reading l)%list.
Proof.
  revert acc. induction l as [|m l IH]; intros acc; simpl.
  - intros [= <-]. now rewrite app_nil_r.
  - unfold is_paper_reading.
    destruct (py_get m "content" (PDict [])) as [content|e]; simpl; [|discriminate].
    destruct (py_get content "type" PNone) as [type|e]; simpl; [|discriminate].
    intros H. apply IH in H. subst res.
    destruct (eq_str type "paper_reading"); [now rewrite <- app_assoc | reflexivity].
Qed.

End FusionFacts.

Module FusionClaims.
Import Py Services MemoryGraphFusion Spec FusionFacts.

(** C5 (amended).  When [cognitive_load_optimizer] returns its report, the
    number of papers of the last 24 hours is the number of recent memories of
    type "paper_reading", and the load level is "high" above 5 papers,
    "optimal" up to 3 papers and "moderate" at 4 or 5.  The thresholds of the
    claim are those of the recommendations: an overload warning above 5
    papers, an invitation to read at exactly 0, neither otherwise. *)
Theorem cognitive_load_levels
    (fromisoformat : string -> outcome datetime) (memory_service : MemoryService)
    (researcher_id : string) (now : datetime) (r : cognitive_load) :
  cognitive_load_optimizer fromisoformat memory_service researcher_id now = Ok (Result r) ->
  (exists recent,
     get_recent_context memory_service researcher_id 24 = Ok recent /\
     cl_papers_today r = length (List.filter is_paper_reading recent)) /\
  cl_load_level r =
    (if (5 <? cl_papers_today r)%nat then "high"
     else if (cl_papers_today r <=? 3)%nat then "optimal"
     else "moderate") /\
  exists review,
    List.map rec_type (cl_recommendations r) =
      ((if (5 <? cl_papers_today r)%nat then ["overload_warning"]
        else if (cl_papers_today r =? 0)%nat then ["engagement"]
        else []) ++ review)%list /\
    (review = [] \/ review = ["review_needed"]).
Proof.
  unfold cognitive_load_optimizer, try_except.
  destruct (get_recent_context memory_service researcher_id 24) as [recent|e];
    simpl; [|discriminate].
  match goal with
  | |- context [foldM ?f recent []] =>
      destruct (foldM f recent []) as [read_today|e] eqn:Hread
  end; simpl; [|discriminate].
  apply read_today_filter in Hread. simpl in Hread. subst read_today.
  destruct (recall_paper_memories memory_service researcher_id PNone 50)
    as [all_memories|e]; simpl; [|discriminate].
  match goal with
  | |- context [foldM ?f all_memories []] =>
      destruct (foldM f all_memories []) as [weak_memories|e]
  end; simpl; [|discriminate].
  destruct (10 <? length weak_memories)%nat.
  - match goal with
    | |- context [mapM ?f ?l] => destruct (mapM f l) as [titles|e]
    end; simpl; [|discriminate].
    intros [= <-]. simpl.
    split; [exists recent; split; reflexivity|].
    split; [reflexivity|].
    exists ["review_needed"]. split; [|now right].
    rewrite map_app. simpl.
    destruct (5 <? _)%nat; [reflexivity|].
    destruct (_ =? 0)%nat; reflexivity.
  - simpl. intros [= <-]. simpl.
    split; [exists recent; split; reflexivity|].
    split; [reflexivity|].
    exists []. split; [|now left].
    rewrite app_nil_r.
    destruct (5 <? _)%nat; [reflexivity|].
    destruct (_ =? 0)%nat; reflexivity.
Qed.

(** The report on the store of the repository, whose recent context holds
    one paper and one annotation. *)
Lemma cognitive_load_levels_witness :
  cl_load_level mock_report = "optimal" /\
  exists review,
    List.map rec_type (cl_recommendations mock_report) = ([] ++ review)%list /\
    (review = [] \/ review = ["review_needed"]).
Proof.
  destruct (cognitive_load_levels no_parser (MockMemoryService []) "researcher-1"
              new_year_2026 mock_report) as (_ & Hlevel & Hrec).
  - reflexivity.
  - split; [exact Hlevel | exact Hrec].
Defined.

(** C5 as stated fails: on the store of the repository one paper was read in
    the last 24 hours; the claim calls that load moderate, the code optimal. *)
Lemma cognitive_load_one_paper_counterexample :
  cognitive_load_optimizer no_parser (MockMemoryService []) "researcher-1" new_year_2026
  = Ok (Result mock_report)
  /\ cl_papers_today mock_report = 1%nat
  /\ cl_load_level mock_report = "optimal"
  /\ spec_load_level 1 = "moderate".
Proof. repeat split. Qed.

End FusionClaims.

(** ** Concept evolution *)

Module EvolutionFacts.
Import Py Services MemoryConsolidation Spec.

Lemma insert_sortedM_length {A : Type} (before : A -> A -> outcome bool) x l r :
  insert_sortedM before x l = Ok r -> length r = S (length l).
Proof.
  revert r. induction l as [|y l IH]; intros r; simpl.
  - now intros [= <-].
  - destruct (before x y) as [[|]|e]; simpl; [now intros [= <-]| |discriminate].
    destruct (insert_sortedM before x l) as [r'|e]; simpl; [|discriminate].
    intros [= <-]. simpl. now rewrite (IH r').
Qed.

Lemma stable_sortM_length {A : Type} (before : A -> A -> outcome bool) l r :
  stable_sortM before l = Ok r -> length r = length l.
Proof.
  unfold stable_sortM.
  assert (H : forall acc, foldM (fun acc x => insert_sortedM before x acc) l acc = Ok r ->
                          length r = (length acc + length l)%nat).
  { induction l as [|x l IH]; intros acc; simpl.
    - intros [= <-]. lia.
    - destruct (insert_sortedM before x acc) as [acc'|e] eqn:Hins; simpl; [|discriminate].
      intros Hf. apply IH in Hf. apply insert_sortedM_length in Hins. lia. }
  intros Hs. apply H in Hs. simpl in Hs. exact Hs.
Qed.

(** The loop that builds the timeline appends one entry per memory whose
    key concepts mention the concept. *)
Lemma timeline_length py_str concept (l : list pyval) (acc res : list exposure) :
  foldM (fun timeline memory =>
           content ← py_get memory "content" (PDict []);
           key_concepts ← py_get content "key_concepts" (PList []);
           if str_contains (str_lower concept) (str_lower (py_str key_concepts))
           then
             timestamp ← py_get content "timestamp" (PStr "");
             paper_id ← py_get content "paper_id" PNone;
             title ← py_get content "title" PNone;
             abstract ← py_get content "abstract" (PStr "");
             context ← py_slice_to 200 abstract;
             Ok (timeline ++ [{| ex_timestamp := timestamp; ex_paper_id := paper_id;
                                 ex_title := title; ex_context := context |}])%list
           else Ok timeline)
        l acc = Ok res ->
  length res = (length acc + length (List.filter (mentions py_str concept) l))%nat.
Proof.
  revert acc. induction l as [|m l IH]; intros acc.
  - simpl. intros [= <-]. lia.
  - cbn [foldM List.filter].
    assert (Hm : mentions py_str concept m =
                 match py_get m "content" (PDict []) with
                 | Ok content =>
                     match py_get content "key_concepts" (PList []) with
                     | Ok key_concepts =>
                         str_contains (str_lower concept) (str_lower (py_str key_concepts))
                     | Raise _ => false
                     end
                 | Raise _ => false
                 end) by reflexivity.
    rewrite Hm. clear Hm.
    destruct (py_get m "content" (PDict [])) as [content|e]; simpl; [|discriminate].
    destruct (py_get content "key_concepts" (PList [])) as [kc|e]; simpl; [|discriminate].
    destruct (str_contains (str_lower concept) (str_lower (py_str kc))).
    + destruct (py_get content "timestamp" (PStr "")) as [ts|e]; simpl; [|discriminate].
      destruct (py_get content "paper_id" PNone) as [pid|e]; simpl; [|discriminate].
      destruct (py_get content "title" PNone) as [title|e]; simpl; [|discriminate].
      destruct (py_get content "abstract" (PStr "")) as [abstract|e]; simpl; [|discriminate].
      destruct (py_slice_to 200 abstract) as [context|e]; simpl; [|discriminate].
      intros H. apply IH in H. rewrite length_app in H. simpl in H. lia.
    + intros H. apply IH in H. lia.
Qed.

Lemma min_one_spec x : (min_one x == Qmin 1 x)%Q.
Proof.
  unfold min_one. destruct (Qlt_le_dec x 1) as [Hlt|Hle].
  - symmetry. apply Q.min_r. now apply Qlt_le_weak.
  - symmetry. now apply Q.min_l.
Qed.

Lemma mastery_steps (n : nat) :
  _calculate_mastery (Z.of_nat n) =
    if (10 <=? n)%nat then "expert"
    else if (5 <=? n)%nat then "proficient"
    else if (2 <=? n)%nat then "familiar"
    else "novice".
Proof.
  unfold _calculate_mastery.
  destruct (Nat.leb_spec 10 n), (Z.leb_spec 10 (Z.of_nat n)); try lia; [reflexivity|].
  destruct (Nat.leb_spec 5 n), (Z.leb_spec 5 (Z.of_nat n)); try lia; [reflexivity|].
  destruct (Nat.leb_spec 2 n), (Z.leb_spec 2 (Z.of_nat n)); try lia; reflexivity.
Qed.

End EvolutionFacts.

Module EvolutionClaims.
Import Py Services MemoryConsolidation Spec EvolutionFacts.

(** C6.  When [track_concept_evolution] returns its report, the number [n]
    of exposures is the number of found memories whose key concepts mention
    the concept, the evolution score is [min(1.0, n * 0.1)], and the mastery
    label is "expert" from 10 exposures, "proficient" from 5, "familiar"
    from 2 and "novice" below; so 0 gives "novice", 2 "familiar", 5
    "proficient", 10 "expert", and 12 exposures give "expert" with score 1.0. *)
Theorem track_concept_evolution_report
    (py_str : pyval -> string) (memory_service : MemoryService)
    (researcher_id concept : string) (r : evolution) :
  track_concept_evolution py_str memory_service researcher_id concept = Ok (Result r) ->
  (exists memories,
     search_memories memory_service researcher_id concept 50 = Ok memories /\
     ev_total_exposures r = length (List.filter (mentions py_str concept) memories)) /\
  ev_total_exposures r = length (ev_timeline r) /\
  (ev_evolution_score r
   == Qmin 1 (inject_Z (Z.of_nat (ev_total_exposures r)) * (1 # 10)))%Q /\
  ev_mastery_level r =
    (if (10 <=? ev_total_exposures r)%nat then "expert"
     else if (5 <=? ev_total_exposures r)%nat then "proficient"
     else if (2 <=? ev_total_exposures r)%nat then "familiar"
     else "novice") /\
  (_calculate_mastery 0 = "novice" /\ _calculate_mastery 1 = "novice" /\
   _calculate_mastery 2 = "familiar" /\ _calculate_mastery 4 = "familiar" /\
   _calculate_mastery 5 = "proficient" /\ _calculate_mastery 9 = "proficient" /\
   _calculate_mastery 10 = "expert" /\ _calculate_mastery 12 = "expert" /\
   (min_one (12 * (1 # 10)) == 1)%Q).
Proof.
  unfold track_concept_evolution, try_except.
  destruct (search_memories memory_service researcher_id concept 50) as [memories|e];
    simpl; [|discriminate].
  match goal with
  | |- context [foldM ?f memories []] =>
      destruct (foldM f memories []) as [timeline|e] eqn:Htl
  end; simpl; [|discriminate].
  apply timeline_length in Htl. simpl in Htl.
  destruct (stable_sortM _ timeline) as [sorted|e] eqn:Hsort; simpl; [|discriminate].
  apply stable_sortM_length in Hsort.
  intros [= <-]. simpl.
  split; [exists memories; split; [reflexivity | congruence]|].
  split; [reflexivity|].
  split; [apply min_one_spec|].
  split; [apply mastery_steps|].
  repeat split; reflexivity.
Qed.

(** Twelve memories on transformers: spec scenario 2. *)
Lemma track_concept_evolution_report_witness :
  exists r,
    track_concept_evolution str_of_strings
      (sample_store [] (repeat transformer_memory 12) []) "researcher-1" "transformers"
    = Ok (Result r) /\
    ev_total_exposures r = 12%nat /\
    ev_mastery_level r = "expert" /\
    (ev_evolution_score r == 1)%Q.
Proof.
  destruct (track_concept_evolution str_of_strings
              (sample_store [] (repeat transformer_memory 12) []) "researcher-1"
              "transformers") as [[r|msg]|e] eqn:Hrun;
    [|vm_compute in Hrun; discriminate..].
  exists r. split; [reflexivity|].
  destruct (track_concept_evolution_report _ _ _ _ _ Hrun)
    as ((memories & Hfound & Hn) & _ & Hscore & Hlevel & _).
  injection Hfound as <-.
  assert (H12 : ev_total_exposures r = 12%nat) by (rewrite Hn; reflexivity).
  rewrite H12 in Hscore, Hlevel.
  split; [exact H12|]. split; [exact Hlevel|].
  rewrite Hscore. reflexivity.
Defined.

End EvolutionClaims.

(** ** The collaboration score *)

Module ScoreFacts.
Import Py Services MultiAgent Spec.

Lemma min_with_one_spec x : (min_with_one x == Qmin x 1)%Q.
Proof.
  unfold min_with_one. destruct (Qlt_le_dec 1 x) as [Hlt|Hle].
  - symmetry. apply Q.min_r. now apply Qlt_le_weak.
  - symmetry. now apply Q.min_l.
Qed.

Lemma round_half_even_comp x y : (x == y)%Q -> round_half_even x = round_half_even y.
Proof.
  intros H. unfold round_half_even.
  rewrite (Qfloor_comp _ _ H).
  assert (Hc : ((x - inject_Z (Qfloor y) ?= 1 # 2) = (y - inject_Z (Qfloor y) ?= 1 # 2))%Q).
  { apply Qcompare_comp; [|reflexivity]. now rewrite H. }
  now rewrite Hc.
Qed.

Lemma round2_comp x y : (x == y)%Q -> (round2 x == round2 y)%Q.
Proof.
  intros H. unfold round2.
  rewrite (round_half_even_comp (x * 100) (y * 100)); [reflexivity|].
  now rewrite H.
Qed.

Lemma score_formula {A B C : Type} (papers : list A) (patterns : list B)
    (hypotheses : list C) :
  (_calculate_collaboration_score papers patterns hypotheses
   == round2 (spec_collaboration_sum (length papers) (length patterns)
                                     (length hypotheses)))%Q.
Proof.
  unfold _calculate_collaboration_score, spec_collaboration_sum.
  apply round2_comp. rewrite !min_with_one_spec. ring.
Qed.

Lemma mapM_length {A B : Type} (f : A -> outcome B) l r :
  mapM f l = Ok r -> length r = length l.
Proof.
  revert r. induction l as [|x l IH]; intros r; simpl.
  - now intros [= <-].
  - destruct (f x) as [y|e]; simpl; [|discriminate].
    destruct (mapM f l) as [ys|e]; simpl; [|discriminate].
    intros [= <-]. simpl. now rewrite (IH ys).
Qed.

(** The debate refines the first five hypotheses in place: the list keeps
    its length. *)
Lemma debate_keeps_length hypotheses refined :
  _agent_debate hypotheses = Ok refined ->
  length (refined ++ skipn 5 hypotheses)%list = length hypotheses.
Proof.
  intros H. apply mapM_length in H.
  rewrite length_app, H, <- length_app, firstn_skipn. reflexivity.
Qed.

End ScoreFacts.

Module ScoreClaims.
Import Py Services MultiAgent Spec ScoreFacts.

(** C7.  The collaboration score of [p] papers, [t] patterns and [h]
    hypotheses is [min(p/10, 1) * 0.3 + min(t/5, 1) * 0.3 + min(h/3, 1) * 0.4]
    rounded to two decimals, both as [_calculate_collaboration_score]
    computes it and as every run of [collaborative_research] that returns its
    record reports it; with 10 papers, 5 patterns and 3 hypotheses it is 1. *)
Theorem collaboration_score_formula
    (memory_service : MemoryService) (isoformat : datetime -> string)
    (scout_papers : string -> string -> list pyval)
    (spot_patterns : string -> list pyval -> list pyval)
    (generate_creative_hypotheses : string -> string -> list pyval -> list pyval)
    (researcher_id research_topic : string) (now : datetime) :
  (forall (papers patterns hypotheses : list pyval),
     (_calculate_collaboration_score papers patterns hypotheses
      == round2 (spec_collaboration_sum (length papers) (length patterns)
                                        (length hypotheses)))%Q) /\
  (forall (papers patterns hypotheses : list pyval),
     length papers = 10%nat -> length patterns = 5%nat -> length hypotheses = 3%nat ->
     (_calculate_collaboration_score papers patterns hypotheses == 1)%Q) /\
  (forall r,
     collaborative_research memory_service isoformat scout_papers spot_patterns
       generate_creative_hypotheses researcher_id research_topic now = Ok (Result r) ->
     exists paper_ids,
       mapM (fun p => py_getitem p "paper_id") (scout_papers researcher_id research_topic)
       = Ok paper_ids /\
       let papers := scout_papers researcher_id research_topic in
       let patterns := spot_patterns researcher_id paper_ids in
       let hypotheses :=
         generate_creative_hypotheses researcher_id research_topic patterns in
       (collaboration_score r
        == round2 (spec_collaboration_sum (length papers) (length patterns)
                                          (length hypotheses)))%Q).
Proof.
  split; [intros; apply score_formula|].
  split.
  - intros papers patterns hypotheses Hp Ht Hh.
    rewrite score_formula, Hp, Ht, Hh. reflexivity.
  - intros r. unfold collaborative_research, try_except.
    destruct (mapM _ (scout_papers researcher_id research_topic)) as [paper_ids|e];
      simpl; [|discriminate].
    destruct (_agent_debate _) as [refined|e] eqn:Hdebate; simpl; [|discriminate].
    destruct (store_memory _ _ _ _) as [[]|e]; simpl; [|discriminate].
    intros [= <-]. exists paper_ids. split; [reflexivity|].
    cbn [collaboration_score].
    rewrite score_formula, (debate_keeps_length _ _ Hdebate). reflexivity.
Qed.

(** Ten papers, five patterns, three hypotheses. *)
Lemma collaboration_score_formula_witness :
  exists r,
    collaborative_research (sample_store [] [] []) fixed_isoformat ten_papers five_patterns
      three_hypotheses "researcher-1" "graph learning" new_year_2026 = Ok (Result r)
    /\ (collaboration_score r == 1)%Q.
Proof.
  destruct (collaborative_research (sample_store [] [] []) fixed_isoformat ten_papers
              five_patterns three_hypotheses "researcher-1" "graph learning"
              new_year_2026) as [[r|msg]|e] eqn:Hrun;
    [|vm_compute in Hrun; discriminate..].
  exists r. split; [reflexivity|].
  destruct (collaboration_score_formula (sample_store [] [] []) fixed_isoformat ten_papers
              five_patterns three_hypotheses "researcher-1" "graph learning"
              new_year_2026) as (_ & _ & Hscore).
  destruct (Hscore r Hrun) as (paper_ids & _ & Hr).
  cbv zeta in Hr. rewrite Hr. reflexivity.
Defined.

End ScoreClaims.

(** ** Weak memories in the report and in the consolidation *)

Module WeakFacts.
Import Py Services MemoryConsolidation Spec StrengthFacts.

Lemma strength_of_memory iso now m :
  calculate_memory_strength iso m now
  = Ok (match calculate_memory_strength iso m now with Ok r => r | Raise _ => 0.5%R end).
Proof.
  destruct (strength_total iso m now) as (r & Hr & _). now rewrite Hr.
Qed.

Lemma strengths_computed iso now memories :
  mapM (fun m => calculate_memory_strength iso m now) memories
  = Ok (strengths_of iso now memories).
Proof.
  induction memories as [|m l IH]; [reflexivity|].
  cbn [mapM]. rewrite strength_of_memory, IH. reflexivity.
Qed.

Lemma items_computed iso now memories :
  mapM (fun memory =>
          strength ← calculate_memory_strength iso memory now;
          Ok {| item_memory := memory; item_strength := strength |}) memories
  = Ok (List.map (fun m =>
                    {| item_memory := m;
                       item_strength :=
                         match calculate_memory_strength iso m now with
                         | Ok r => r
                         | Raise _ => 0.5%R
                         end |}) memories).
Proof.
  induction memories as [|m l IH]; [reflexivity|].
  cbn [mapM List.map]. rewrite IH.
  rewrite (strength_of_memory iso now m) at 1. reflexivity.
Qed.

Lemma insert_sorted_perm {A : Type} (before : A -> A -> bool) x l :
  Permutation (insert_sorted before x l) (x :: l).
Proof.
  induction l as [|y l IH]; simpl; [reflexivity|].
  destruct (before x y); [reflexivity|].
  rewrite IH. apply perm_swap.
Qed.

Lemma stable_sort_perm {A : Type} (before : A -> A -> bool) l :
  Permutation (stable_sort before l) l.
Proof.
  unfold stable_sort.
  assert (H : forall acc, Permutation (fold_left (fun acc x => insert_sorted before x acc) l acc)
                                      (acc ++ l)).
  { induction l as [|x l IH]; intros acc; simpl.
    - now rewrite app_nil_r.
    - rewrite IH, insert_sorted_perm. apply Permutation_middle. }
  apply (H []).
Qed.

Lemma filter_length_perm {A : Type} (test : A -> bool) l l' :
  Permutation l l' -> length (List.filter test l) = length (List.filter test l').
Proof.
  induction 1 as [|x l l' _ IH|x y l|l l' l'' _ IH1 _ IH2]; simpl.
  - reflexivity.
  - destruct (test x); simpl; now rewrite IH.
  - destruct (test x), (test y); reflexivity.
  - now rewrite IH1.
Qed.

Lemma filter_length_map {A B : Type} (f : A -> B) (test : B -> bool) l :
  length (List.filter (fun x => test (f x)) l) = length (List.filter test (List.map f l)).
Proof.
  induction l as [|x l IH]; simpl; [reflexivity|].
  destruct (test (f x)); simpl; now rewrite IH.
Qed.

(** The memories below 0.3 are those below 0.2 and those from 0.2 up to,
    but not including, 0.3. *)
Lemma count_band (l : list R) :
  count (fun s => Rltb s 0.3) l =
  (count (fun s => Rltb s 0.2) l
   + count (fun s => negb (Rltb s 0.2) && Rltb s 0.3) l)%nat.
Proof.
  unfold count. induction l as [|s l IH]; simpl; [reflexivity|].
  destruct (Rltb s 0.3) eqn:H3, (Rltb s 0.2) eqn:H2; simpl; try lia.
  exfalso. unfold Rltb in H3, H2.
  destruct (Rlt_dec s 0.3), (Rlt_dec s 0.2); try discriminate. lra.
Qed.

(** *** A memory whose strength lies between the two thresholds *)

Lemma exp_mult_nat (n : nat) (x : R) : exp (INR n * x) = (exp x ^ n)%R.
Proof.
  induction n as [|n IH].
  - simpl. rewrite Rmult_0_l. apply exp_0.
  - rewrite S_INR, Rmult_plus_distr_r, Rmult_1_l, exp_plus, IH.
    simpl. ring.
Qed.

Lemma exp_minus_1_4_band : (0.2 <= exp (- 1.4) < 0.3)%R.
Proof.
  assert (Hlow : (0.825 ^ 8 <= exp (- 1.4))%R).
  { replace (- 1.4)%R with (INR 8 * - 0.175)%R by (simpl; lra).
    rewrite exp_mult_nat. apply pow_incr.
    pose proof (exp_ineq1_le (- 0.175)). lra. }
  assert (Hhigh : (1.175 ^ 8 <= exp 1.4)%R).
  { replace 1.4%R with (INR 8 * 0.175)%R by (simpl; lra).
    rewrite exp_mult_nat. apply pow_incr.
    pose proof (exp_ineq1_le 0.175). lra. }
  assert (Hinv : (exp (- 1.4) * exp 1.4 = 1)%R).
  { rewrite <- exp_plus. replace (- 1.4 + 1.4)%R with 0%R by lra. apply exp_0. }
  assert (H1 : (0.2 <= 0.825 ^ 8)%R) by (simpl; lra).
  assert (H2 : (3.6 <= 1.175 ^ 8)%R) by (simpl; lra).
  pose proof (exp_pos (- 1.4)). pose proof (exp_pos 1.4).
  split; [lra | nra].
Qed.

(** A memory read 42 days ago and never accessed since. *)
Lemma fading_strength :
  exists s,
    calculate_memory_strength no_parser (memory_aged 42 [("access_count", PInt 0)])
                              new_year_2026 = Ok s
    /\ (0.2 <= s < 0.3)%R.
Proof.
  exists (retention (elapsed_days (42 * day_micros)) 0).
  split.
  - rewrite (strength_value no_parser _ _ (DateTime ((739616 - 42) * day_micros) None)
               (42 * day_micros)%Z 0%Z); try reflexivity; try lia.
    rewrite strength_at_past by (unfold day_micros; lia). reflexivity.
  - unfold retention.
    replace (- elapsed_days (42 * day_micros) / ((ln (0 + 1) + 1) * 30))%R
      with (- 1.4)%R; [apply exp_minus_1_4_band|].
    rewrite Rplus_0_l, ln_1.
    unfold elapsed_days, total_seconds, day_micros.
    change (42 * 86400000000)%Z with 3628800000000%Z. lra.
Qed.

End WeakFacts.

Module WeakClaims.
Import Py Services MemoryConsolidation Spec StrengthFacts WeakFacts.

(** C10.  Over the memories the store returns, the weak-memory count of
    [generate_memory_report] is the number of strengths strictly below 0.3
    and that of [consolidate_memories] the number strictly below 0.2,
    whenever the operation returns its report; the two counts differ by the
    number of memories whose strength lies in [0.2, 0.3). *)
Theorem weak_memory_thresholds
    (fromisoformat : string -> outcome datetime) (py_str : pyval -> string)
    (memory_service : MemoryService) (graph_service : GraphService)
    (researcher_id : string) (time_window_days : Z) (now : datetime)
    (memories : list pyval) :
  recall_paper_memories memory_service researcher_id PNone 100 = Ok memories ->
  (forall r,
     generate_memory_report fromisoformat memory_service graph_service researcher_id now
     = Ok (Result r) ->
     rp_weak_memories r
     = count (fun s => Rltb s 0.3) (strengths_of fromisoformat now memories)) /\
  (forall c,
     consolidate_memories fromisoformat py_str memory_service researcher_id
       time_window_days now = Ok (Result c) ->
     co_weak_memories c
     = count (fun s => Rltb s 0.2) (strengths_of fromisoformat now memories)) /\
  count (fun s => Rltb s 0.3) (strengths_of fromisoformat now memories)
  = (count (fun s => Rltb s 0.2) (strengths_of fromisoformat now memories)
     + count (fun s => negb (Rltb s 0.2) && Rltb s 0.3)
             (strengths_of fromisoformat now memories))%nat.
Proof.
  intros Hrecall. split; [|split; [|apply count_band]].
  - intros r. unfold generate_memory_report, try_except.
    rewrite Hrecall. cbn [mbind outcome_bind bind].
    rewrite strengths_computed. cbn [mbind outcome_bind bind].
    destruct (foldM _ memories []) as [all_concepts|e];
      cbn [mbind outcome_bind bind]; [|discriminate].
    destruct (foldM _ all_concepts []) as [concept_freq|e];
      cbn [mbind outcome_bind bind]; [|discriminate].
    destruct (identify_memory_gaps graph_service researcher_id) as [gaps|e];
      cbn [mbind outcome_bind bind]; [|discriminate].
    intros [= <-]. reflexivity.
  - intros c. unfold consolidate_memories, try_except.
    rewrite Hrecall. cbn [mbind outcome_bind bind].
    rewrite items_computed. cbn [mbind outcome_bind bind].
    destruct (_group_by_concept _) as [concept_groups|e];
      cbn [mbind outcome_bind bind]; [|discriminate].
    destruct (_build_cross_references concept_groups) as [cross_refs|e];
      cbn [mbind outcome_bind bind]; [|discriminate].
    intros [= <-]. cbn [co_weak_memories].
    rewrite (filter_length_perm _ _ _ (stable_sort_perm _ _)).
    unfold count, strengths_of.
    rewrite (filter_length_map item_strength (fun s => Rltb s 0.2)).
    rewrite List.map_map. reflexivity.
Qed.

(** One memory read 42 days ago and never accessed since: its strength is
    [exp(-1.4)], about 0.25; the report counts it weak, the consolidation
    does not. *)
Lemma weak_memory_thresholds_witness :
  exists r c,
    generate_memory_report no_parser
      (sample_store [memory_aged 42 [("access_count", PInt 0)]] [] [])
      MockGraphService "researcher-1" new_year_2026 = Ok (Result r) /\
    consolidate_memories no_parser str_of_strings
      (sample_store [memory_aged 42 [("access_count", PInt 0)]] [] [])
      "researcher-1" 7 new_year_2026 = Ok (Result c) /\
    rp_weak_memories r = 1%nat /\ co_weak_memories c = 0%nat.
Proof.
  destruct fading_strength as (s & Hs & Hlow & Hhigh).
  assert (Hss : strengths_of no_parser new_year_2026
                  [memory_aged 42 [("access_count", PInt 0)]] = [s]).
  { unfold strengths_of. cbn [List.map]. now rewrite Hs. }
  assert (Hrecall :
            recall_paper_memories
              (sample_store [memory_aged 42 [("access_count", PInt 0)]] [] [])
              "researcher-1" PNone 100
            = Ok [memory_aged 42 [("access_count", PInt 0)]]) by reflexivity.
  destruct (weak_memory_thresholds no_parser str_of_strings
              (sample_store [memory_aged 42 [("access_count", PInt 0)]] [] [])
              MockGraphService "researcher-1" 7 new_year_2026 _ Hrecall)
    as (Hreport & Hconsolidate & _).
  rewrite Hss in Hreport, Hconsolidate.
  assert (H3 : Rltb s 0.3 = true) by (unfold Rltb; destruct (Rlt_dec s 0.3); [reflexivity | lra]).
  assert (H2 : Rltb s 0.2 = false) by (unfold Rltb; destruct (Rlt_dec s 0.2); [lra | reflexivity]).
  eexists. eexists.
  split; [|split; [|split]].
  - unfold generate_memory_report, try_except.
    rewrite Hrecall. cbn [mbind outcome_bind bind].
    rewrite strengths_computed, Hss. reflexivity.
  - unfold consolidate_memories, try_except.
    rewrite Hrecall. cbn [mbind outcome_bind bind].
    rewrite items_computed. cbn [List.map]. rewrite Hs. reflexivity.
  - erewrite Hreport; [|unfold generate_memory_report, try_except;
                        rewrite Hrecall; cbn [mbind outcome_bind bind];
                        rewrite strengths_computed, Hss; reflexivity].
    unfold count. cbn [List.filter]. rewrite H3. reflexivity.
  - erewrite Hconsolidate; [|unfold consolidate_memories, try_except;
                             rewrite Hrecall; cbn [mbind outcome_bind bind];
                             rewrite items_computed; cbn [List.map]; rewrite Hs;
                             reflexivity].
    unfold count. cbn [List.filter]. rewrite H2. reflexivity.
Defined.

End WeakClaims.

(** ** Breadth-first search and connected components *)

Module ReachabilityFacts.
Import Py Services GraphReasoning Spec Reachability.

Lemma reach_start graph avoid x z : reach graph avoid x z -> x ∉ avoid.
Proof. now destruct 1. Qed.

Lemma reach_end graph avoid x z : reach graph avoid x z -> z ∉ avoid.
Proof. induction 1; assumption. Qed.

Lemma reach_mono graph avoid avoid' x z :
  avoid ⊆ avoid' -> reach graph avoid' x z -> reach graph avoid x z.
Proof.
  intros Hsub. induction 1 as [x Hx|x y z Hx Hy _ IH].
  - apply reach_here. set_solver.
  - eapply reach_step; [set_solver | exact Hy | exact IH].
Qed.

Lemma reach_trans graph avoid x y z :
  reach graph avoid x y -> reach graph avoid y z -> reach graph avoid x z.
Proof.
  induction 1 as [x Hx|x y' y Hx Hy _ IH]; [auto|].
  intros Hz. eapply reach_step; eauto.
Qed.

Lemma reach_snoc graph avoid x y z :
  reach graph avoid x y -> z ∈ neighbours graph y -> z ∉ avoid -> reach graph avoid x z.
Proof.
  intros Hxy Hz Hav. eapply reach_trans; [exact Hxy|].
  eapply reach_step; [eapply reach_end; exact Hxy | exact Hz | now apply reach_here].
Qed.

(** A path that avoids [avoid] either avoids [node] too, or ends at [node],
    or leaves [node] for the last time through one of its neighbours. *)
Lemma reach_split graph avoid node x z :
  reach graph avoid x z ->
  reach graph ({[node]} ∪ avoid) x z \/ z = node \/
  exists n, n ∈ neighbours graph node /\ reach graph ({[node]} ∪ avoid) n z.
Proof.
  induction 1 as [x Hx|x y z Hx Hy _ IH].
  - destruct (decide (x = node)) as [->|Hne]; [now right; left|].
    left. apply reach_here. set_solver.
  - destruct IH as [IH|[IH|IH]]; [|now right; left|now right; right].
    destruct (decide (x = node)) as [->|Hne].
    + right. right. now exists y.
    + left. eapply reach_step; [set_solver | exact Hy | exact IH].
Qed.

Lemma elem_of_to_enqueue graph node visited n :
  n ∈ to_enqueue graph node visited <-> n ∈ neighbours graph node /\ n ∉ visited.
Proof.
  unfold to_enqueue. rewrite list_elem_of_In, List.filter_In, <- list_elem_of_In.
  rewrite elem_of_elements, negb_true_iff, bool_decide_eq_false. reflexivity.
Qed.

(** The loop returns the community and the visited set it was given, each
    extended by the authors reachable from the queue outside [visited]. *)
Lemma bfs_loop_reach graph queue visited community :
  forall x,
    (x ∈ (bfs_loop graph queue visited community).1 <->
     x ∈ community \/ exists a, a ∈ queue /\ reach graph visited a x) /\
    (x ∈ (bfs_loop graph queue visited community).2 <->
     x ∈ visited \/ exists a, a ∈ queue /\ reach graph visited a x).
Proof.
  funelim (bfs_loop graph queue visited community); intros x.
  - simpl. split; (split; [now left | intros [H|(a & Ha & _)]; [exact H|]]);
      apply elem_of_nil in Ha; contradiction.
  - match goal with IH : forall x, _ |- _ => destruct (IH x) as [IH1 IH2] end.
    assert (Hq : (exists a, a ∈ node :: queue /\ reach graph visited a x) <->
                 (exists a, a ∈ queue /\ reach graph visited a x)).
    { split; intros (a & Ha & Hr).
      - apply elem_of_cons in Ha as [->|Ha]; [|now exists a].
        apply reach_start in Hr. contradiction.
      - exists a. split; [now apply elem_of_cons; right | exact Hr]. }
    rewrite Hq. split; assumption.
  - match goal with IH : forall x, _ |- _ => destruct (IH x) as [IH1 IH2] end.
    assert (Hq : (exists a, a ∈ node :: queue /\ reach graph visited a x) <->
                 x = node \/
                 (exists a, a ∈ (queue ++ to_enqueue graph node ({[node]} ∪ visited))%list
                            /\ reach graph ({[node]} ∪ visited) a x)).
    { split.
      - intros (a & Ha & Hr).
        destruct (reach_split graph visited node a x Hr) as [Hr'|[->|(n & Hnb & Hr')]].
        + right. exists a. split; [|exact Hr'].
          apply elem_of_cons in Ha as [->|Ha].
          * apply reach_start in Hr'. set_solver.
          * apply elem_of_app. now left.
        + now left.
        + right. exists n. split; [|exact Hr'].
          apply elem_of_app. right. apply elem_of_to_enqueue.
          split; [exact Hnb | eapply reach_start; exact Hr'].
      - intros [->|(a & Ha & Hr)].
        + exists node. split; [apply elem_of_cons; now left | now apply reach_here].
        + assert (Hr' : reach graph visited a x)
            by (eapply reach_mono; [|exact Hr]; set_solver).
          apply elem_of_app in Ha as [Ha|Ha].
          * exists a. split; [apply elem_of_cons; now right | exact Hr'].
          * apply elem_of_to_enqueue in Ha as [Hnb _].
            exists node. split; [apply elem_of_cons; now left|].
            eapply reach_step; [exact Hn | exact Hnb | exact Hr']. }
    rewrite Hq, IH1, IH2. rewrite !elem_of_union, !elem_of_singleton. tauto.
Qed.

Lemma bfs_community_reach (start : string) (graph : list (string * gset string))
    (visited : gset string) (x : string) :
  (x ∈ (_bfs_community start graph visited).1 <-> reach graph visited start x) /\
  (x ∈ (_bfs_community start graph visited).2 <->
   x ∈ visited \/ reach graph visited start x).
Proof.
  unfold _bfs_community.
  destruct (bfs_loop_reach graph [start] visited ∅ x) as [H1 H2].
  assert (Hq : (exists a, a ∈ [start] /\ reach graph visited a x) <->
               reach graph visited start x).
  { split.
    - intros (a & Ha & Hr). apply list_elem_of_singleton in Ha. now subst a.
    - intros Hr. exists start. split; [apply list_elem_of_singleton; reflexivity | exact Hr]. }
  rewrite H1, H2, Hq. split; [|reflexivity].
  split; [intros [H|H]; [set_solver | exact H] | now right].
Qed.

(** *** The collaboration graph *)

Lemma neighbours_graph_add a b graph x y :
  y ∈ neighbours (graph_add a b graph) x <->
  (x = a /\ y = b) \/ y ∈ neighbours graph x.
Proof.
  induction graph as [|[k s] g IH]; cbn [graph_add neighbours].
  - destruct (String.eqb a x) eqn:Hax.
    + apply String.eqb_eq in Hax. subst x. set_solver.
    + apply String.eqb_neq in Hax. set_solver.
  - destruct (String.eqb k a) eqn:Hka; cbn [neighbours].
    + apply String.eqb_eq in Hka. subst k.
      destruct (String.eqb a x) eqn:Hax.
      * apply String.eqb_eq in Hax. subst x. set_solver.
      * apply String.eqb_neq in Hax. set_solver.
    + apply String.eqb_neq in Hka.
      destruct (String.eqb k x) eqn:Hkx.
      * apply String.eqb_eq in Hkx. subst x. set_solver.
      * exact IH.
Qed.

Lemma keys_graph_add a b graph x :
  x ∈ List.map fst (graph_add a b graph) <-> x = a \/ x ∈ List.map fst graph.
Proof.
  induction graph as [|[k s] g IH]; cbn [graph_add List.map fst].
  - set_solver.
  - destruct (String.eqb k a) eqn:Hka; cbn [List.map fst].
    + apply String.eqb_eq in Hka. subst k. set_solver.
    + rewrite !elem_of_cons, IH. tauto.
Qed.

(** Two authors are neighbours exactly when a row pairs them, and the keys
    of the graph are the authors of the rows. *)
Lemma collab_graph_spec rows :
  (forall x y, y ∈ neighbours (collab_graph_of rows) x <->
               exists record, record ∈ rows /\
                 ((x = author1 record /\ y = author2 record) \/
                  (x = author2 record /\ y = author1 record))) /\
  (forall x, x ∈ List.map fst (collab_graph_of rows) <-> author_of rows x).
Proof.
  unfold collab_graph_of, author_of.
  assert (H : forall g,
    (forall x y, y ∈ neighbours (fold_left (fun g record =>
         graph_add (author2 record) (author1 record)
           (graph_add (author1 record) (author2 record) g)) rows g) x <->
       y ∈ neighbours g x \/
       exists record, record ∈ rows /\
         ((x = author1 record /\ y = author2 record) \/
          (x = author2 record /\ y = author1 record))) /\
    (forall x, x ∈ List.map fst (fold_left (fun g record =>
         graph_add (author2 record) (author1 record)
           (graph_add (author1 record) (author2 record) g)) rows g) <->
       x ∈ List.map fst g \/
       exists record, record ∈ rows /\ (x = author1 record \/ x = author2 record))).
  { induction rows as [|r rows IH]; intros g; cbn [fold_left].
    - split; intros; (split; [now left | intros [H|(r & Hr & _)]; [exact H|]]);
        apply elem_of_nil in Hr; contradiction.
    - destruct (IH (graph_add (author2 r) (author1 r)
                      (graph_add (author1 r) (author2 r) g))) as [IH1 IH2].
      split; intros x.
      + intros y. rewrite IH1, !neighbours_graph_add. split.
        * intros [[H|[H|H]]|(r' & Hr' & H)].
          -- right. exists r. split; [apply elem_of_cons; now left | now right].
          -- right. exists r. split; [apply elem_of_cons; now left | now left].
          -- now left.
          -- right. exists r'. split; [apply elem_of_cons; now right | exact H].
        * intros [H|(r' & Hr' & H)]; [now left; right; right|].
          apply elem_of_cons in Hr' as [->|Hr'].
          -- left. destruct H as [H|H]; [right; now left | now left].
          -- right. now exists r'.
      + rewrite IH2, !keys_graph_add. split.
        * intros [[H|[H|H]]|(r' & Hr' & H)].
          -- right. exists r. split; [apply elem_of_cons; now left | now right].
          -- right. exists r. split; [apply elem_of_cons; now left | now left].
          -- now left.
          -- right. exists r'. split; [apply elem_of_cons; now right | exact H].
        * intros [H|(r' & Hr' & H)]; [now left; right; right|].
          apply elem_of_cons in Hr' as [->|Hr'].
          -- left. destruct H as [H|H]; [right; now left | now left].
          -- right. now exists r'. }
  destruct (H []) as [H1 H2]. split; intros x.
  - intros y. rewrite H1. cbn [neighbours]. set_solver.
  - rewrite H2. cbn [List.map]. set_solver.
Qed.

Lemma collab_graph_symmetric rows x y :
  y ∈ neighbours (collab_graph_of rows) x -> x ∈ neighbours (collab_graph_of rows) y.
Proof.
  destruct (collab_graph_spec rows) as [H _].
  rewrite !H. intros (r & Hr & Hxy). exists r. split; [exact Hr | tauto].
Qed.

Section Components.
Variable graph : list (string * gset string).
Hypothesis symmetric : forall x y, y ∈ neighbours graph x -> x ∈ neighbours graph y.
Variable min_community_size : Z.

Lemma reach_sym x y : reach graph ∅ x y -> reach graph ∅ y x.
Proof.
  induction 1 as [x Hx|x y z Hx Hy _ IH]; [now apply reach_here|].
  eapply reach_snoc; [exact IH | now apply symmetric | exact Hx].
Qed.

Lemma component_shared a x y :
  reach graph ∅ a x -> (reach graph ∅ x y <-> reach graph ∅ a y).
Proof.
  intros Hax. split; intros H.
  - eapply reach_trans; eassumption.
  - eapply reach_trans; [apply reach_sym; exact Hax | exact H].
Qed.

(** From an author outside a closed visited set no path enters the set. *)
Lemma reach_outside visited a z :
  (forall x y, x ∈ visited -> y ∈ neighbours graph x -> y ∈ visited) ->
  a ∉ visited -> reach graph ∅ a z -> reach graph visited a z.
Proof.
  intros Hclosed Ha Hr. induction Hr as [x _|x y z _ Hy _ IH].
  - now apply reach_here.
  - eapply reach_step; [exact Ha | exact Hy|].
    apply IH. intros Hyv. apply Ha.
    eapply Hclosed; [exact Hyv | now apply symmetric].
Qed.

Lemma community_step_components st author :
  components_so_far graph min_community_size st ->
  components_so_far graph min_community_size
    (community_step graph min_community_size st author) /\
  st.1 ⊆ (community_step graph min_community_size st author).1 /\
  author ∈ (community_step graph min_community_size st author).1.
Proof.
  destruct st as [visited communities]. intros (Hclosed & Hsound & Hcomplete).
  unfold community_step. case_bool_decide as Hvis.
  { split; [now repeat split|]. split; [reflexivity | exact Hvis]. }
  pose proof (bfs_community_reach author graph visited) as Hbfs.
  destruct (_bfs_community author graph visited) as [community visited'].
  cbn [fst snd] in *.
  assert (Hcomp : component_of graph author community).
  { intros x. destruct (Hbfs x) as [H1 _]. rewrite H1. split.
    - apply reach_mono. set_solver.
    - now apply reach_outside. }
  assert (Hvis' : forall x, x ∈ visited' <-> x ∈ visited \/ x ∈ community).
  { intros x. destruct (Hbfs x) as [H1 H2]. rewrite H2, H1. reflexivity. }
  assert (Hclosed' : forall x y, x ∈ visited' -> y ∈ neighbours graph x -> y ∈ visited').
  { intros x y Hx Hy. apply Hvis' in Hx. apply Hvis'.
    destruct Hx as [Hx|Hx]; [left; eapply Hclosed; eassumption|].
    right. apply Hcomp. apply Hcomp in Hx.
    eapply reach_snoc; [exact Hx | exact Hy | set_solver]. }
  assert (Hauthor : author ∈ visited').
  { apply Hvis'. right. apply Hcomp. apply reach_here. set_solver. }
  assert (Hsub : visited ⊆ visited') by (intros x Hx; apply Hvis'; now left).
  destruct (min_community_size <=? Z.of_nat (size community))%Z eqn:Hmin;
    cbn [fst snd]; (split; [|split; [exact Hsub | exact Hauthor]]).
  - split; [exact Hclosed'|]. split.
    + intros c Hc. apply elem_of_app in Hc as [Hc|Hc]; [now apply Hsound|].
      apply list_elem_of_singleton in Hc. subst c. cbn.
      exists author, community. repeat split; [apply Hcomp.. | now apply Z.leb_le].
    + intros x Hx. apply Hvis' in Hx as [Hx|Hx].
      * destruct (Hcomplete x Hx) as [(c & Hc & Hxc)|Hsmall]; [|now right].
        left. exists c. split; [apply elem_of_app; now left | exact Hxc].
      * left. eexists. split; [apply elem_of_app; right; apply list_elem_of_singleton;
                               reflexivity|].
        cbn. now apply elem_of_elements.
  - split; [exact Hclosed'|]. split; [exact Hsound|].
    intros x Hx. apply Hvis' in Hx as [Hx|Hx].
    + exact (Hcomplete x Hx).
    + right. intros members Hmembers.
      assert (Heq : members = community).
      { apply set_eq. intros y. rewrite (Hmembers y), (Hcomp y).
        apply component_shared. now apply Hcomp. }
      subst members. now apply Z.leb_gt.
Qed.

Lemma fold_components authors st :
  components_so_far graph min_community_size st ->
  components_so_far graph min_community_size
    (fold_left (community_step graph min_community_size) authors st) /\
  st.1 ⊆ (fold_left (community_step graph min_community_size) authors st).1 /\
  (forall a, a ∈ authors ->
             a ∈ (fold_left (community_step graph min_community_size) authors st).1).
Proof.
  revert st. induction authors as [|author authors IH]; intros st Hst; cbn [fold_left].
  - split; [exact Hst|]. split; [reflexivity|]. intros a Ha.
    apply elem_of_nil in Ha. contradiction.
  - destruct (community_step_components st author Hst) as (Hst' & Hsub & Hauthor).
    destruct (IH _ Hst') as (Hfinal & Hsub' & Hall).
    split; [exact Hfinal|]. split; [set_solver|].
    intros a Ha. apply elem_of_cons in Ha as [->|Ha]; [set_solver | now apply Hall].
Qed.
End Components.

End ReachabilityFacts.

Module ComponentClaims.
Import Py Services GraphReasoning Spec Reachability ReachabilityFacts.

(** [_bfs_community] returns exactly the authors that can be reached from
    [start] along edges of the graph through authors not yet visited, and the
    visited set it hands back is the old one with those authors added. *)
Theorem bfs_community_reachable (start : string) (graph : list (string * gset string))
    (visited : gset string) (x : string) :
  (x ∈ (_bfs_community start graph visited).1 <-> reach graph visited start x) /\
  (x ∈ (_bfs_community start graph visited).2 <->
   x ∈ visited \/ reach graph visited start x).
Proof.
  destruct (bfs_community_reach start graph visited x) as [Hcommunity Hvisited].
  split; [exact Hcommunity | exact Hvisited].
Qed.

(** When the collaboration query answers, the communities reported are
    connected components of the collaboration graph of its rows: each is the
    whole set of authors connected to one author, and an author of a row is a
    member of a reported community exactly when the component of that author
    has at least [min_community_size] members. *)
Theorem communities_are_components
    (graph_service : GraphService) (min_community_size : Z)
    (session : unit) (rows : list collab_row) :
  driver_session graph_service = Ok session ->
  run_collaborations graph_service = Ok rows ->
  exists communities,
    answer (detect_research_communities graph_service min_community_size) = Ok communities /\
    (forall c, c ∈ communities ->
       exists a members,
         cm_members c = elements members /\ cm_size c = size members /\
         component_of (collab_graph_of rows) a members) /\
    (forall a members,
       author_of rows a -> component_of (collab_graph_of rows) a members ->
       ((exists c, c ∈ communities /\ a ∈ cm_members c) <->
        (min_community_size <= Z.of_nat (size members))%Z)).
Proof.
  intros Hsession Hrows.
  unfold answer, detect_research_communities, try_exceptG, ask.
  cbn [runG mbind mret G_bind G_ret fst snd]. rewrite Hsession.
  cbn [runG mbind mret G_bind G_ret fst snd]. rewrite Hrows.
  cbn [runG mbind mret G_bind G_ret fst snd].
  eexists. split; [reflexivity|].
  fold (collab_graph_of rows). unfold communities_of.
  change snd with (@snd (gset string) (list community)).
  set (graph := collab_graph_of rows).
  assert (Hsym : forall x y, y ∈ neighbours graph x -> x ∈ neighbours graph y)
    by (intros x y; apply collab_graph_symmetric).
  destruct (fold_components graph Hsym min_community_size (List.map fst graph) (∅, []))
    as ((_ & Hsound & Hcomplete) & _ & Hall).
  { split; [set_solver|]. split; [|set_solver].
    intros c Hc. cbn in Hc. apply elem_of_nil in Hc. contradiction. }
  split.
  - intros c Hc. destruct (Hsound c Hc) as (a & members & H1 & H2 & H3 & _).
    now exists a, members.
  - intros a members Ha Hmembers.
    assert (Hkey : a ∈ List.map fst graph) by now apply collab_graph_spec.
    specialize (Hall a Hkey).
    split.
    + intros (c & Hc & Hac).
      destruct (Hsound c Hc) as (b & members' & H1 & _ & H3 & H4).
      rewrite H1 in Hac. apply elem_of_elements in Hac.
      assert (Heq : members = members'); [|now subst].
      apply set_eq. intros y. rewrite (Hmembers y), (H3 y).
      apply (component_shared graph Hsym). now apply H3.
    + intros Hmin. destruct (Hcomplete a Hall) as [Hin|Hsmall]; [exact Hin|].
      specialize (Hsmall members Hmembers). lia.
Qed.

(** Three pairs of co-authors, a minimum of three members. *)
Lemma communities_are_components_witness :
  exists communities,
    answer (detect_research_communities (sample_graph [] three_pairs) 3) = Ok communities /\
    forall c, c ∈ communities ->
      exists a members,
        cm_members c = elements members /\ cm_size c = size members /\
        component_of (collab_graph_of three_pairs) a members.
Proof.
  destruct (communities_are_components (sample_graph [] three_pairs) 3 tt three_pairs
              eq_refl eq_refl) as (communities & Hrun & Hsound & _).
  exists communities. split; [exact Hrun | exact Hsound].
Defined.

End ComponentClaims.

(** ** Consolidation and the memory report *)

Module ReportFacts.
Import Py Services MemoryConsolidation Spec StrengthFacts WeakFacts.

Lemma strengths_in_range iso now memories :
  Forall (fun s => (0 <= s <= 1)%R) (strengths_of iso now memories).
Proof.
  unfold strengths_of. apply Forall_map, Forall_forall. intros m _. cbn.
  destruct (strength_total iso m now) as (r & Hr & Hrange). now rewrite Hr.
Qed.

(** A strength is not both above 0.7 and below a threshold under 0.7. *)
Lemma strong_weak_bound (weak_below : R) (l : list R) :
  (weak_below <= 0.7)%R ->
  (count (fun s => Rltb 0.7 s) l + count (fun s => Rltb s weak_below) l <= length l)%nat.
Proof.
  intros Hw. unfold count. induction l as [|s l IH]; simpl; [lia|].
  destruct (Rltb 0.7 s) eqn:H1, (Rltb s weak_below) eqn:H2; simpl; try lia.
  exfalso. unfold Rltb in H1, H2.
  destruct (Rlt_dec 0.7 s), (Rlt_dec s weak_below); try discriminate. lra.
Qed.

Lemma strengths_length iso now memories :
  length (strengths_of iso now memories) = length memories.
Proof. unfold strengths_of. apply length_map. Qed.

(** *** Sorting *)

Lemma insert_sorted_sorted {A : Type} (before : A -> A -> bool) x l :
  (forall a b, before a b = true -> before b a = false) ->
  Sorted (fun a b => before b a = false) l ->
  Sorted (fun a b => before b a = false) (insert_sorted before x l).
Proof.
  intros Hasym. induction l as [|y l IH]; intros Hs; simpl.
  - repeat constructor.
  - destruct (before x y) eqn:Hxy.
    + constructor; [exact Hs|]. constructor. now apply Hasym.
    + inversion Hs as [|? ? Hs' Hhd]; subst.
      constructor; [now apply IH|].
      destruct l as [|z l]; simpl.
      * now constructor.
      * destruct (before x z); constructor; [exact Hxy|].
        now inversion Hhd.
Qed.

Lemma stable_sort_sorted {A : Type} (before : A -> A -> bool) l :
  (forall a b, before a b = true -> before b a = false) ->
  Sorted (fun a b => before b a = false) (stable_sort before l).
Proof.
  intros Hasym. unfold stable_sort.
  assert (H : forall acc, Sorted (fun a b => before b a = false) acc ->
            Sorted (fun a b => before b a = false)
                   (fold_left (fun acc x => insert_sorted before x acc) l acc)).
  { induction l as [|x l IH]; intros acc Hacc; simpl; [exact Hacc|].
    apply IH. now apply insert_sorted_sorted. }
  apply H. constructor.
Qed.

Lemma stable_sort_length {A : Type} (before : A -> A -> bool) l :
  length (stable_sort before l) = length l.
Proof. apply Permutation_length, stable_sort_perm. Qed.

(** The entries of a list sorted by falling frequency, read by position. *)
Lemma falling_by_position (l : list (pyval * nat)) :
  Sorted (fun a b => (snd a <? snd b)%nat = false) l ->
  forall i j x y, (i < j)%nat -> l !! i = Some x -> l !! j = Some y -> (snd y <= snd x)%nat.
Proof.
  intros Hs. apply Sorted_StronglySorted in Hs.
  2:{ intros a b c Hab Hbc. apply Nat.ltb_ge in Hab, Hbc. apply Nat.ltb_ge. lia. }
  induction Hs as [|a l Hs IH Hall]; intros i j x y Hij Hi Hj.
  - now rewrite lookup_nil in Hi.
  - destruct j as [|j]; [lia|]. cbn in Hj.
    destruct i as [|i]; cbn in Hi.
    + injection Hi as <-.
      rewrite List.Forall_forall in Hall.
      apply list_elem_of_lookup_2, list_elem_of_In in Hj.
      specialize (Hall y Hj). apply Nat.ltb_ge in Hall. exact Hall.
    + eapply IH; [|exact Hi|exact Hj]. lia.
Qed.

Lemma firstn_sorted {A : Type} (R : A -> A -> Prop) n l :
  Sorted R l -> Sorted R (firstn n l).
Proof.
  revert l. induction n as [|n IH]; intros l Hs; [constructor|].
  destruct l as [|a l]; [constructor|]. cbn.
  inversion Hs as [|? ? Hs' Hhd]; subst. constructor; [now apply IH|].
  destruct l as [|b l]; [destruct n; constructor|].
  destruct n; cbn; constructor. now inversion Hhd.
Qed.

(** *** Rounding to two decimals *)

Lemma round2_R_unit x : (0 <= x <= 1)%R -> (0 <= round2_R x <= 1)%R.
Proof.
  intros [H0 H1]. unfold round2_R.
  set (y := (x * 100)%R).
  assert (Hy : (0 <= y <= 100)%R) by (unfold y; lra).
  destruct (base_Int_part y) as [Hle Hgt].
  assert (Hf0 : (0 <= Int_part y)%Z).
  { apply Z.lt_succ_r. apply lt_IZR. rewrite succ_IZR. lra. }
  assert (Hf100 : (Int_part y <= 100)%Z) by (apply le_IZR; lra).
  assert (Hfrac : (frac_part y = y - IZR (Int_part y))%R) by reflexivity.
  assert (Hup : (1 / 2 <= frac_part y)%R -> (Int_part y + 1 <= 100)%Z).
  { intros Hhalf. apply Z.lt_succ_r. apply lt_IZR.
    rewrite succ_IZR, plus_IZR. lra. }
  assert (Hres : forall z : Z, (0 <= z <= 100)%Z -> (0 <= IZR z / 100 <= 1)%R).
  { intros z [Hz0 Hz1]. apply IZR_le in Hz0, Hz1. lra. }
  destruct (Rlt_dec (frac_part y) (1 / 2)) as [Hlo|Hlo]; [apply Hres; lia|].
  destruct (Rlt_dec (1 / 2) (frac_part y)) as [Hhi|Hhi].
  - apply Hres. assert (Int_part y + 1 <= 100)%Z by (apply Hup; lra). lia.
  - destruct (Z.even (Int_part y)); [apply Hres; lia|].
    apply Hres. assert (Int_part y + 1 <= 100)%Z by (apply Hup; lra). lia.
Qed.

Lemma sum_bounds (l : list R) (acc : R) :
  Forall (fun s => (0 <= s <= 1)%R) l ->
  (acc <= fold_left Rplus l acc <= acc + INR (length l))%R.
Proof.
  revert acc. induction l as [|s l IH]; intros acc Hall; cbn [fold_left length].
  - simpl. lra.
  - inversion Hall as [|? ? Hs Hl]; subst.
    specialize (IH (acc + s)%R Hl). rewrite S_INR. lra.
Qed.

Lemma average_unit (l : list R) :
  Forall (fun s => (0 <= s <= 1)%R) l ->
  (0 <= match l with
        | [] => 0
        | _ => fold_left Rplus l 0 / INR (length l)
        end <= 1)%R.
Proof.
  intros Hall. destruct l as [|s l]; [lra|].
  pose proof (sum_bounds (s :: l) 0 Hall) as [Hlo Hhi].
  assert (Hn : (0 < INR (length (s :: l)))%R) by (apply lt_0_INR; simpl; lia).
  rewrite Rplus_0_l in Hhi. split.
  - apply Rmult_le_pos; [exact Hlo | left; now apply Rinv_0_lt_compat].
  - apply Rmult_le_reg_r with (INR (length (s :: l))); [exact Hn|].
    unfold Rdiv. rewrite Rmult_assoc, Rinv_l by lra. lra.
Qed.

Lemma gaps_loop_length (l : list pyval) (acc res : list knowledge_gap) :
  foldM (fun gaps concept_data =>
           concept ← py_get concept_data "concept" PNone;
           if hashable concept then
             importance ← py_get concept_data "recent_count" (PInt 0);
             Ok (gaps ++ [{| gap_concept := concept; gap_importance := importance;
                             gap_reason := "Emerging trend in recent papers";
                             gap_recommended_action :=
                               "Read papers discussing this concept" |}])%list
           else Raise (Exn TypeError "unhashable type"))
        l acc = Ok res ->
  length res = (length acc + length l)%nat /\
  (Forall (fun g => gap_reason g = "Emerging trend in recent papers") acc ->
   Forall (fun g => gap_reason g = "Emerging trend in recent papers") res).
Proof.
  revert acc. induction l as [|d l IH]; intros acc; cbn [foldM].
  - intros [= <-]. split; [simpl; lia | auto].
  - destruct (py_get d "concept" PNone) as [concept|e]; simpl; [|discriminate].
    destruct (hashable concept); [|discriminate].
    destruct (py_get d "recent_count" (PInt 0)) as [importance|e]; simpl; [|discriminate].
    intros H. apply IH in H as [Hlen Hall]. rewrite length_app in Hlen. simpl in Hlen.
    split; [lia|]. intros Hacc. apply Hall. apply Forall_app. split; [exact Hacc|].
    now repeat constructor.
Qed.

(** The store with one memory read 42 days ago and never accessed since. *)
Lemma fading_store_recall :
  recall_paper_memories
    (sample_store [memory_aged 42 [("access_count", PInt 0)]] [] [])
    "researcher-1" PNone 100
  = Ok [memory_aged 42 [("access_count", PInt 0)]].
Proof. reflexivity. Qed.

Lemma fading_store_consolidates :
  exists c,
    consolidate_memories no_parser str_of_strings
      (sample_store [memory_aged 42 [("access_count", PInt 0)]] [] [])
      "researcher-1" 7 new_year_2026 = Ok (Result c).
Proof.
  destruct fading_strength as (s & Hs & _).
  eexists. unfold consolidate_memories, try_except.
  rewrite fading_store_recall. cbn [mbind outcome_bind bind].
  rewrite items_computed. cbn [List.map]. rewrite Hs. reflexivity.
Qed.

Lemma fading_store_reports :
  exists r,
    generate_memory_report no_parser
      (sample_store [memory_aged 42 [("access_count", PInt 0)]] [] [])
      MockGraphService "researcher-1" new_year_2026 = Ok (Result r).
Proof.
  destruct fading_strength as (s & Hs & _).
  eexists. unfold generate_memory_report, try_except.
  rewrite fading_store_recall. cbn [mbind outcome_bind bind].
  rewrite strengths_computed. unfold strengths_of. cbn [List.map]. rewrite Hs.
  reflexivity.
Qed.

End ReportFacts.

Module ReportClaims.
Import Py Services MemoryConsolidation Spec StrengthFacts WeakFacts ReportFacts.

(** [identify_memory_gaps] never raises; it reports at most ten gaps, each
    with the one reason it knows, and none when the graph store fails. *)
Theorem identify_memory_gaps_bounded (graph_service : GraphService) (researcher_id : string) :
  exists gaps,
    identify_memory_gaps graph_service researcher_id = Ok gaps /\
    (length gaps <= 10)%nat /\
    Forall (fun g => gap_reason g = "Emerging trend in recent papers") gaps /\
    (fails (get_researcher_papers graph_service researcher_id)
     \/ fails (get_emerging_concepts graph_service 2023) -> gaps = []) /\
    (forall emerging,
       get_emerging_concepts graph_service 2023 = Ok emerging ->
       gaps = [] \/ length gaps = Nat.min 10 (length emerging)).
Proof.
  unfold identify_memory_gaps, try_except.
  destruct (get_researcher_papers graph_service researcher_id) as [papers|e] eqn:Hp;
    cbn [mbind outcome_bind bind].
  2:{ exists []. split; [reflexivity|]. split; [simpl; lia|]. split; [constructor|].
      split; [reflexivity | now left]. }
  destruct (get_emerging_concepts graph_service 2023) as [emerging|e] eqn:He;
    cbn [mbind outcome_bind bind].
  2:{ exists []. split; [reflexivity|]. split; [simpl; lia|]. split; [constructor|].
      split; [reflexivity | now left]. }
  destruct (foldM _ (firstn 10 emerging) []) as [gaps|e] eqn:Hloop.
  - apply gaps_loop_length in Hloop as [Hlen Hall]. simpl in Hlen.
    exists gaps. split; [reflexivity|]. rewrite length_firstn in Hlen.
    split; [lia|]. split; [apply Hall; constructor|]. split.
    + intros [[e Hf]|[e Hf]]; discriminate.
    + intros emerging' [= <-]. right. exact Hlen.
  - exists []. split; [reflexivity|]. split; [simpl; lia|]. split; [constructor|].
    split; [reflexivity | now left].
Qed.

(** When [consolidate_memories] returns its report, the total is the number
    of recalled memories, the strong count is the number of strengths above
    0.7, and strong and weak memories together are no more than the total. *)
Theorem consolidate_memories_counts
    (fromisoformat : string -> outcome datetime) (py_str : pyval -> string)
    (memory_service : MemoryService) (researcher_id : string) (time_window_days : Z)
    (now : datetime) (memories : list pyval) (c : consolidation) :
  recall_paper_memories memory_service researcher_id PNone 100 = Ok memories ->
  consolidate_memories fromisoformat py_str memory_service researcher_id
    time_window_days now = Ok (Result c) ->
  co_total_memories c = length memories /\
  co_strong_memories c
  = count (fun s => Rltb 0.7 s) (strengths_of fromisoformat now memories) /\
  (co_strong_memories c + co_weak_memories c <= co_total_memories c)%nat.
Proof.
  intros Hrecall. unfold consolidate_memories, try_except.
  rewrite Hrecall. cbn [mbind outcome_bind bind].
  rewrite items_computed. cbn [mbind outcome_bind bind].
  destruct (_group_by_concept _) as [concept_groups|e];
    cbn [mbind outcome_bind bind]; [|discriminate].
  destruct (_build_cross_references concept_groups) as [cross_refs|e];
    cbn [mbind outcome_bind bind]; [|discriminate].
  intros [= <-]. cbn [co_total_memories co_strong_memories co_weak_memories].
  rewrite !(filter_length_perm _ _ _ (stable_sort_perm _ _)).
  rewrite (filter_length_map item_strength (fun s => Rltb 0.7 s)).
  rewrite (filter_length_map item_strength (fun s => Rltb s 0.2)).
  rewrite List.map_map. cbn [item_strength].
  fold (strengths_of fromisoformat now memories).
  fold (count (fun s => Rltb 0.7 s) (strengths_of fromisoformat now memories)).
  fold (count (fun s => Rltb s 0.2) (strengths_of fromisoformat now memories)).
  split; [reflexivity|]. split; [reflexivity|].
  rewrite <- (strengths_length fromisoformat now memories).
  apply strong_weak_bound. lra.
Qed.

(** On a store holding one fading memory the consolidation reports one
    memory in total. *)
Lemma consolidate_memories_counts_witness :
  exists c,
    consolidate_memories no_parser str_of_strings
      (sample_store [memory_aged 42 [("access_count", PInt 0)]] [] [])
      "researcher-1" 7 new_year_2026 = Ok (Result c) /\
    co_total_memories c = 1%nat /\
    (co_strong_memories c + co_weak_memories c <= co_total_memories c)%nat.
Proof.
  destruct fading_store_consolidates as (c & Hc). exists c.
  destruct (consolidate_memories_counts _ _ _ _ _ _ _ _ fading_store_recall Hc)
    as (Htotal & _ & Hbound).
  split; [exact Hc|]. split; [exact Htotal | exact Hbound].
Defined.

(** When [generate_memory_report] returns its report: the total is the
    number of recalled memories; strong and weak memories together are no
    more than the total; the average strength lies in [0,1]; at most ten top
    concepts are listed, in order of falling frequency; at most five gaps are
    listed; and the recommendations end with the reading tip, after at most
    two others. *)
Theorem generate_memory_report_shape
    (fromisoformat : string -> outcome datetime)
    (memory_service : MemoryService) (graph_service : GraphService)
    (researcher_id : string) (now : datetime) (memories : list pyval) (r : memory_report) :
  recall_paper_memories memory_service researcher_id PNone 100 = Ok memories ->
  generate_memory_report fromisoformat memory_service graph_service researcher_id now
  = Ok (Result r) ->
  rp_total_memories r = length memories /\
  (rp_strong_memories r + rp_weak_memories r <= rp_total_memories r)%nat /\
  (0 <= rp_average_memory_strength r <= 1)%R /\
  (length (rp_top_concepts r) <= 10)%nat /\
  (length (rp_top_concepts r) <= rp_unique_concepts r)%nat /\
  (forall i j x y,
     (i < j)%nat -> rp_top_concepts r !! i = Some x -> rp_top_concepts r !! j = Some y ->
     (snd y <= snd x)%nat) /\
  (length (rp_knowledge_gaps r) <= 5)%nat /\
  exists advice,
    rp_recommendations r = (advice ++ ["Regular reading maintains memory strength"])%list /\
    (length advice <= 2)%nat.
Proof.
  intros Hrecall. unfold generate_memory_report, try_except.
  rewrite Hrecall. cbn [mbind outcome_bind bind].
  rewrite strengths_computed. cbn [mbind outcome_bind bind].
  destruct (foldM _ memories []) as [all_concepts|e];
    cbn [mbind outcome_bind bind]; [|discriminate].
  destruct (foldM _ all_concepts []) as [concept_freq|e];
    cbn [mbind outcome_bind bind]; [|discriminate].
  destruct (identify_memory_gaps graph_service researcher_id) as [gaps|e];
    cbn [mbind outcome_bind bind]; [|discriminate].
  intros [= <-].
  cbn [rp_total_memories rp_strong_memories rp_weak_memories rp_average_memory_strength
       rp_top_concepts rp_unique_concepts rp_knowledge_gaps rp_recommendations].
  pose proof (strengths_in_range fromisoformat now memories) as Hrange.
  split; [reflexivity|]. split.
  { rewrite <- (strengths_length fromisoformat now memories).
    apply (strong_weak_bound 0.3). lra. }
  split; [apply round2_R_unit, average_unit, Hrange|].
  split; [rewrite length_firstn; lia|].
  split; [rewrite length_firstn, stable_sort_length; lia|].
  split.
  { apply falling_by_position. apply firstn_sorted.
    apply (stable_sort_sorted (fun x y : pyval * nat => (snd y <? snd x)%nat)).
    intros a b Hab. apply Nat.ltb_lt in Hab. apply Nat.ltb_ge. lia. }
  split; [rewrite length_firstn; lia|].
  unfold _generate_recommendations.
  destruct (Rltb _ 0.5), (5 <? length gaps)%nat;
    eexists; (split; [rewrite ?app_assoc; reflexivity | simpl; lia]).
Qed.

(** On a store holding one fading memory the report counts one memory and
    gives an average strength in the unit interval. *)
Lemma generate_memory_report_shape_witness :
  exists r,
    generate_memory_report no_parser
      (sample_store [memory_aged 42 [("access_count", PInt 0)]] [] [])
      MockGraphService "researcher-1" new_year_2026 = Ok (Result r) /\
    rp_total_memories r = 1%nat /\
    (0 <= rp_average_memory_strength r <= 1)%R.
Proof.
  destruct fading_store_reports as (r & Hr). exists r.
  destruct (generate_memory_report_shape _ _ _ _ _ _ _ fading_store_recall Hr)
    as (Htotal & _ & Haverage & _).
  split; [exact Hr|]. split; [exact Htotal | exact Haverage].
Defined.

End ReportClaims.

(** ** Influence, analogies and the lifecycle stage *)

Module InfluenceFacts.
Import Py Services GraphReasoning Spec Quantities GraphFacts.

Lemma entries_at_append d d' entry m :
  entries_at d (map_append d' entry m)
  = (entries_at d m + if Z.eqb d' d then 1 else 0)%nat.
Proof.
  unfold entries_at. induction m as [|[k l] m IH]; cbn [map_append assoc_Z].
  - destruct (Z.eqb_spec d' d); simpl; lia.
  - destruct (Z.eqb_spec k d') as [->|Hk]; cbn [assoc_Z].
    + destruct (Z.eqb_spec d' d) as [->|Hd].
      * rewrite length_app. simpl. lia.
      * lia.
    + destruct (Z.eqb_spec k d) as [->|Hd].
      * destruct (Z.eqb_spec d' d); [congruence | lia].
      * exact IH.
Qed.

Lemma weight_append test d entry m :
  weight test (map_append d entry m)
  = (weight test m + if test d then 1 else 0)%nat.
Proof.
  unfold weight, list_sum.
  induction m as [|[k l] m IH]; cbn [map_append List.map fold_right fst snd].
  - destruct (test d); simpl; lia.
  - destruct (Z.eqb_spec k d) as [->|Hk]; cbn [List.map fold_right fst snd].
    + destruct (test d); [rewrite length_app; simpl; lia | lia].
    + rewrite IH. lia.
Qed.

Lemma keys_append d entry m k :
  In k (List.map fst (map_append d entry m)) <-> k = d \/ In k (List.map fst m).
Proof.
  induction m as [|[k' l] m IH]; cbn [map_append List.map fst In].
  - intuition congruence.
  - destruct (Z.eqb_spec k' d) as [->|Hk]; cbn [List.map fst In].
    + intuition congruence.
    + rewrite IH. intuition congruence.
Qed.

Lemma influence_map_entries d rows m :
  entries_at d (influence_map_of rows m)
  = (entries_at d m + citations_at (fun k => Z.eqb k d) rows)%nat.
Proof.
  unfold citations_at. revert m.
  induction rows as [|row rows IH]; intros m; cbn [influence_map_of fold_left List.filter].
  - simpl. lia.
  - fold (influence_map_of rows). rewrite IH, entries_at_append.
    destruct (Z.eqb (ct_distance row) d); simpl; lia.
Qed.

Lemma influence_map_weight test rows m :
  weight test (influence_map_of rows m) = (weight test m + citations_at test rows)%nat.
Proof.
  unfold citations_at. revert m.
  induction rows as [|row rows IH]; intros m; cbn [influence_map_of fold_left List.filter].
  - simpl. lia.
  - fold (influence_map_of rows). rewrite IH, weight_append.
    destruct (test (ct_distance row)); simpl; lia.
Qed.

Lemma influence_map_keys rows m k :
  In k (List.map fst (influence_map_of rows m))
  <-> In k (List.map fst m) \/ In k (List.map ct_distance rows).
Proof.
  revert m. induction rows as [|row rows IH]; intros m; cbn [influence_map_of fold_left List.map In].
  - tauto.
  - fold (influence_map_of rows). rewrite IH, keys_append. intuition congruence.
Qed.

Lemma weight_fold (test : Z -> bool) (m : list (Z * list citing_paper_entry)) (acc : nat) :
  fold_left (fun (acc : nat) (e : Z * list citing_paper_entry) =>
               if test (fst e) then (acc + length (snd e))%nat else acc) m acc
  = (acc + weight test m)%nat.
Proof.
  unfold weight, list_sum.
  revert acc. induction m as [|e m IH]; intros acc; cbn [fold_left List.map fold_right].
  - lia.
  - rewrite IH. destruct (test (fst e)); lia.
Qed.

Lemma max_fold (l : list (Z * list citing_paper_entry)) (k0 top : Z) :
  fold_left (fun m x => Z.max m (fst x)) l k0 = top ->
  (top = k0 \/ In top (List.map fst l)) /\
  (k0 <= top)%Z /\ Forall (fun k => (k <= top)%Z) (List.map fst l).
Proof.
  revert k0. induction l as [|e l IH]; intros k0; cbn [fold_left List.map In].
  - intros <-. split; [now left|]. split; [lia | constructor].
  - intros Htop. destruct (IH _ Htop) as (Hin & Hle & Hall).
    split; [|split].
    + destruct Hin as [Heq|Hin]; [|right; now right].
      destruct (Z.max_spec k0 (fst e)) as [[_ Hm]|[_ Hm]]; rewrite Hm in Heq.
      * right. left. now symmetry.
      * now left.
    + lia.
    + constructor; [lia | exact Hall].
Qed.

Lemma round2_R_nonneg x : (0 <= x)%R -> (0 <= MemoryConsolidation.round2_R x)%R.
Proof.
  intros H0. unfold MemoryConsolidation.round2_R.
  set (y := (x * 100)%R).
  assert (Hy : (0 <= y)%R) by (unfold y; lra).
  destruct (base_Int_part y) as [Hle Hgt].
  assert (Hf0 : (0 <= Int_part y)%Z).
  { apply Z.lt_succ_r. apply lt_IZR. rewrite succ_IZR. lra. }
  assert (Hres : forall z : Z, (0 <= z)%Z -> (0 <= IZR z / 100)%R).
  { intros z Hz0. apply IZR_le in Hz0. lra. }
  destruct (Rlt_dec (frac_part y) (1 / 2)); [apply Hres; lia|].
  destruct (Rlt_dec (1 / 2) (frac_part y)); [apply Hres; lia|].
  destruct (Z.even (Int_part y)); apply Hres; lia.
Qed.

Lemma total_influence_positive (m : list (Z * list citing_paper_entry)) :
  Forall (fun k => (1 <= k)%Z) (List.map fst m) ->
  exists score, total_influence_of m = Ok score /\ (0 <= score)%R.
Proof.
  intros Hkeys. unfold total_influence_of.
  assert (Hloop : forall total : R,
             (0 <= total)%R ->
             exists total' : R,
               foldM (fun (acc : R * bool) (entry : Z * list citing_paper_entry) =>
                        let '(total, complex) := acc in
                        let '(distance, papers) := entry in
                        if (distance =? 0)%Z
                        then Raise (Exn ZeroDivisionError "float division by zero")
                        else if (distance <? 0)%Z then Ok (total, true)
                        else Ok ((total + INR (length papers)
                                          * (1 / Rpower (IZR distance) 1.5))%R, complex))
                     m (total, false) = Ok (total', false) /\ (0 <= total')%R).
  { induction m as [|[d papers] m IH]; intros total Htotal; cbn [foldM].
    - exists total. split; [reflexivity | exact Htotal].
    - inversion Hkeys as [|? ? Hd Hrest]; subst. cbn [fst] in Hd.
      destruct (Z.eqb_spec d 0) as [->|_]; [lia|].
      destruct (Z.ltb_spec d 0) as [?|_]; [lia|].
      cbn [mbind outcome_bind bind]. apply (IH Hrest).
      assert (0 < Rpower (IZR d) 1.5)%R by (unfold Rpower; apply exp_pos).
      assert (0 <= INR (length papers))%R by apply pos_INR.
      assert (0 <= 1 / Rpower (IZR d) 1.5)%R.
      { apply Rlt_le. apply Rdiv_lt_0_compat; lra. }
      assert (0 <= INR (length papers) * (1 / Rpower (IZR d) 1.5))%R
        by (apply Rmult_le_pos; assumption).
      lra. }
  destruct (Hloop 0%R (Rle_refl 0)) as (total & Heq & Hpos).
  rewrite Heq. cbn [bind snd fst]. eexists. split; [reflexivity|].
  now apply round2_R_nonneg.
Qed.

End InfluenceFacts.

Module InfluenceClaims.
Import Py Services GraphReasoning Spec Quantities GraphFacts InfluenceFacts.

(** When the influence query answers rows at distances of one or more,
    [calculate_influence_propagation] returns its report: the direct citations
    are the rows at distance 1, the indirect ones the rows further away, the
    two together are all the rows, the score is not negative, and the depth
    reached is the largest distance of a row. *)
Theorem influence_counts (gs : GraphService) (paper_id : string) (max_depth : Z)
    (session : unit) (rows : list citing_row) :
  driver_session gs = Ok session ->
  run_influence gs paper_id max_depth = Ok rows ->
  Forall (fun row => (1 <= ct_distance row)%Z) rows ->
  exists r,
    answer (calculate_influence_propagation gs paper_id max_depth) = Ok (Result r) /\
    inf_direct_citations r = citations_at (fun d => Z.eqb d 1) rows /\
    inf_indirect_citations r = citations_at (fun d => Z.ltb 1 d) rows /\
    (inf_direct_citations r + inf_indirect_citations r = length rows)%nat /\
    (0 <= inf_influence_score r)%R /\
    Forall (fun row => (ct_distance row <= inf_max_depth_reached r)%Z) rows /\
    (rows <> [] -> exists row, In row rows /\ inf_max_depth_reached r = ct_distance row).
Proof.
  intros Hsession Hrows Hdist.
  unfold calculate_influence_propagation. run_operation.
  rewrite Hsession. cbn [runG mbind mret G_bind G_ret fst snd].
  rewrite Hrows. cbn [runG mbind mret G_bind G_ret fst snd].
  fold (influence_map_of rows []).
  assert (Hkeys : Forall (fun k => (1 <= k)%Z) (List.map fst (influence_map_of rows []))).
  { apply Forall_forall. intros k Hk. apply list_elem_of_In in Hk.
    apply influence_map_keys in Hk as [[]|Hk].
    apply in_map_iff in Hk as (row & <- & Hin).
    rewrite Forall_forall in Hdist. apply Hdist. now apply list_elem_of_In. }
  destruct (total_influence_positive _ Hkeys) as (score & Hscore & Hpos).
  rewrite Hscore. cbn [runG mbind mret G_bind G_ret fst snd].
  eexists. split; [reflexivity|].
  cbn [inf_direct_citations inf_indirect_citations inf_influence_score inf_max_depth_reached].
  rewrite weight_fold. fold (entries_at 1 (influence_map_of rows [])).
  rewrite influence_map_entries, influence_map_weight. unfold entries_at, weight, list_sum; cbn [assoc_Z List.map fold_right].
  split; [reflexivity|]. split; [reflexivity|]. split.
  { unfold citations_at. clear -Hdist. induction Hdist as [|row rows Hrow _ IH]; [reflexivity|].
    cbn [List.filter length].
    destruct (Z.eqb_spec (ct_distance row) 1) as [H1|H1];
      destruct (Z.ltb_spec 1 (ct_distance row)); cbn [length]; lia. }
  split; [exact Hpos|].
  destruct (influence_map_of rows []) as [|e rest] eqn:Hmap.
  - destruct rows as [|row rows]; [split; [constructor | congruence]|].
    exfalso. assert (Hin : In (ct_distance row) (List.map fst (influence_map_of (row :: rows) [])))
      by (apply influence_map_keys; right; now left).
    rewrite Hmap in Hin. exact Hin.
  - set (top := fold_left (fun m x => Z.max m (fst x)) rest (fst e)).
    destruct (max_fold rest (fst e) top eq_refl) as (Hin & Hle & Hall).
    assert (Hkey : forall k, In k (List.map ct_distance rows) <-> k = fst e \/ In k (List.map fst rest)).
    { intros k. pose proof (influence_map_keys rows [] k) as Hk. rewrite Hmap in Hk.
      cbn [List.map In] in Hk. destruct Hk as [H1 H2]. split.
      - intros H. destruct (H2 (or_intror H)) as [Heq|Hin']; [left; now symmetry | now right].
      - intros [Heq|Hin'].
        + destruct (H1 (or_introl (eq_sym Heq))) as [[]|H]; exact H.
        + destruct (H1 (or_intror Hin')) as [[]|H]; exact H. }
    split.
    + apply Forall_forall. intros row Hrow. apply list_elem_of_In in Hrow.
      assert (Hk : In (ct_distance row) (List.map ct_distance rows)) by now apply in_map.
      apply Hkey in Hk as [->|Hk]; [exact Hle|].
      rewrite Forall_forall in Hall. apply Hall. now apply list_elem_of_In.
    + intros _.
      assert (Hk : In top (List.map ct_distance rows))
        by (apply Hkey; destruct Hin; [now left | now right]).
      apply in_map_iff in Hk as (row & Heq & Hrow). exists row. split; [exact Hrow | now symmetry].
Qed.

(** A paper cited once directly and twice at two hops has one direct and
    two indirect citations. *)
Lemma influence_counts_witness :
  exists r,
    answer (calculate_influence_propagation
              (with_influence three_citations (sample_graph [] [])) "p-1" 3)
    = Ok (Result r) /\
    inf_direct_citations r = 1%nat /\ inf_indirect_citations r = 2%nat /\
    inf_max_depth_reached r = 2%Z.
Proof.
  assert (Hdist : Forall (fun row => (1 <= ct_distance row)%Z) three_citations)
    by (repeat constructor; simpl; lia).
  destruct (influence_counts (with_influence three_citations (sample_graph [] []))
              "p-1" 3 tt three_citations eq_refl eq_refl Hdist)
    as (r & Hr & Hdirect & Hindirect & _ & _ & Hall & Htop).
  exists r. split; [exact Hr|]. split; [exact Hdirect|]. split; [exact Hindirect|].
  destruct Htop as (row & Hrow & Heq); [discriminate|].
  rewrite Forall_forall in Hall.
  assert (H2 : (2 <= inf_max_depth_reached r)%Z).
  { apply (Hall {| ct_citing_id := PStr "p-3"; ct_title := PStr "Third";
                   ct_year := PInt 2024; ct_distance := 2 |}).
    unfold three_citations. apply elem_of_cons. right. apply elem_of_cons. now left. }
  rewrite Heq in *. unfold three_citations in Hrow. simpl in Hrow.
  destruct Hrow as [<-|[<-|[<-|[]]]]; simpl in *; lia.
Defined.

End InfluenceClaims.

Module AnalogyFacts.
Import Py Services GraphReasoning Spec Quantities GraphFacts.

Lemma slice_to_length {A : Type} (n : Z) (l : list A) :
  (0 <= n)%Z -> (Z.of_nat (length (slice_to n l)) <= n)%Z.
Proof.
  intros Hn. unfold slice_to. destruct (Z.leb_spec 0 n) as [_|?]; [|lia].
  rewrite length_firstn. lia.
Qed.

Lemma growth_above (p : Z) (k : positive) (recent early : Z) :
  (0 < early)%Z ->
  Qltb (p # k) (inject_Z recent / inject_Z early) = (p * early <? recent * Zpos k)%Z.
Proof.
  intros He. destruct early as [|e|e]; try lia.
  unfold Qltb.
  destruct (Qlt_le_dec (p # k) (inject_Z recent / inject_Z (Z.pos e))) as [Hlt|Hle];
    [symmetry; apply Z.ltb_lt | symmetry; apply Z.ltb_ge];
    unfold Qlt, Qle, Qdiv, Qmult, Qinv, inject_Z in *; simpl in *; lia.
Qed.

End AnalogyFacts.

Module AnalogyClaims.
Import Py Services GraphReasoning Spec Quantities GraphFacts AnalogyFacts.

(** [find_analogies] never raises and never mixes its two kinds of analogy:
    either it made no bridge lookup and every analogy is methodological with
    score 0.8, or it made one and every analogy is conceptual with score 0.6,
    at most [max_analogies] of them when that bound is not negative. *)
Theorem find_analogies_kinds (py_str : pyval -> string) (gs : GraphService)
    (source target : string) (max_analogies : Z) :
  exists analogies,
    answer (find_analogies py_str gs source target max_analogies) = Ok analogies /\
    ((~ In (FindBridgeConcepts source target)
          (calls (find_analogies py_str gs source target max_analogies)) /\
      Forall (fun a => is_methodological a = true /\ transferability a = 8 # 10) analogies)
     \/
     (In (FindBridgeConcepts source target)
         (calls (find_analogies py_str gs source target max_analogies)) /\
      Forall (fun a => is_methodological a = false /\ transferability a = 6 # 10) analogies /\
      ((0 <= max_analogies)%Z -> (Z.of_nat (length analogies) <= max_analogies)%Z))).
Proof.
  unfold find_analogies. run_operation.
  do 4 (next_answer;
        [|exists []; split; [reflexivity|]; left; split;
          [simpl; intuition discriminate | constructor]]).
  destruct a2 as [|row rows]; cbn [List.map runG mbind mret G_bind G_ret fst snd].
  - next_answer.
    + eexists. split; [reflexivity|]. right. split; [simpl; tauto|]. split.
      * apply Forall_forall. intros item Hitem. apply list_elem_of_In, in_map_iff in Hitem as (b & <- & _).
        now split.
      * intros Hmax. rewrite length_map. now apply slice_to_length.
    + exists []. split; [reflexivity|]. right. split; [simpl; tauto|].
      split; [constructor | simpl; lia].
  - eexists. split; [reflexivity|]. left. split; [simpl; intuition discriminate|].
    constructor; [now split|].
    apply Forall_forall. intros item Hitem. apply list_elem_of_In, in_map_iff in Hitem as (b & <- & _).
    now split.
Qed.

(** With at least three years of data, the lifecycle stage depends on the
    papers since 2020 and the papers before 2015 alone, the latter counted
    as 1 when the timeline has no year before 2015: rapid growth above twice
    the early papers, steady growth above them, mature above half of them,
    declining otherwise. *)
Theorem lifecycle_stage_thresholds (gs : GraphService) (concept : string)
    (session : unit) (timeline : list year_row) :
  driver_session gs = Ok session ->
  run_lifecycle gs concept = Ok timeline ->
  (3 <= length timeline)%nat ->
  exists r,
    answer (track_concept_lifecycle gs concept) = Ok (Result r) /\
    lc_lifecycle_stage r
    = stage_by_counts (recent_papers timeline) (early_papers timeline) /\
    lc_total_years r = length timeline /\
    lc_timeline r = timeline.
Proof.
  intros Hsession Hrows Hlen.
  unfold track_concept_lifecycle. run_operation.
  rewrite Hsession. cbn [runG mbind mret G_bind G_ret fst snd].
  rewrite Hrows. cbn [runG mbind mret G_bind G_ret fst snd].
  destruct timeline as [|first rest] eqn:Htl; [simpl in Hlen; lia|].
  rewrite <- Htl in *. cbn [runG mbind mret G_bind G_ret fst snd].
  eexists. split; [reflexivity|].
  cbn [lc_lifecycle_stage lc_total_years lc_timeline].
  split; [|split; reflexivity].
  unfold stage_of, growth_rate_of, stage_by_counts.
  fold (recent_papers timeline). fold (early_papers timeline).
  destruct (Nat.ltb_spec (length timeline) 3) as [?|_]; [lia|].
  destruct (Z.ltb_spec 0 (early_papers timeline)) as [Hpos|Hneg].
  - destruct (Z.leb_spec (early_papers timeline) 0) as [?|_]; [lia|].
    change 2%Q with (2 # 1). change 1%Q with (1 # 1).
    rewrite !growth_above by exact Hpos.
    replace (recent_papers timeline * 1)%Z with (recent_papers timeline) by lia.
    replace (1 * early_papers timeline)%Z with (early_papers timeline) by lia.
    replace (recent_papers timeline * 2)%Z with (2 * recent_papers timeline)%Z by lia.
    reflexivity.
  - destruct (Z.leb_spec (early_papers timeline) 0) as [_|?]; [|lia].
    reflexivity.
Qed.

(** A concept first seen in 2019, with four years of data and three papers
    since 2020, is reported in rapid growth. *)
Lemma lifecycle_stage_thresholds_witness :
  exists r,
    answer (track_concept_lifecycle (sample_graph young_timeline []) "Transformers")
    = Ok (Result r) /\
    lc_lifecycle_stage r = "rapid_growth".
Proof.
  destruct (lifecycle_stage_thresholds (sample_graph young_timeline []) "Transformers"
              tt young_timeline eq_refl eq_refl)
    as (r & Hr & Hstage & _); [simpl; lia|].
  exists r. split; [exact Hr | exact Hstage].
Defined.

End AnalogyClaims.

(** ** The collaboration score, the debate and the store of the repository *)

Module AgentFacts.
Import Py Services MultiAgent Spec AgentQuantities ScoreFacts.

Lemma round_near (q : Q) (n : Z) :
  (inject_Z n - (1 # 2) < q)%Q -> (q < inject_Z n + (1 # 2))%Q -> round_half_even q = n.
Proof.
  intros Hlo Hhi. unfold round_half_even.
  pose proof (Qfloor_le q) as Hfl. pose proof (Qlt_floor q) as Hfu.
  rewrite inject_Z_plus in Hfu. change (inject_Z 1) with 1%Q in Hfu.
  assert (Hcases : Qfloor q = n \/ Qfloor q = (n - 1)%Z).
  { assert (Hup : (Qfloor q <= n)%Z).
    { apply Z.nlt_ge. intros Hc.
      assert (Hq : (inject_Z (n + 1) <= inject_Z (Qfloor q))%Q) by (rewrite <- Zle_Qle; lia).
      rewrite inject_Z_plus in Hq. change (inject_Z 1) with 1%Q in Hq. Lqa.lra. }
    assert (Hdown : (n - 1 <= Qfloor q)%Z).
    { apply Z.nlt_ge. intros Hc.
      assert (Hq : (inject_Z (Qfloor q + 1) <= inject_Z (n - 1))%Q)
        by (rewrite <- Zle_Qle; lia).
      replace (n - 1)%Z with (n + -1)%Z in Hq by lia. rewrite !inject_Z_plus in Hq.
      change (inject_Z 1) with 1%Q in Hq. change (inject_Z (-1)) with (-1)%Q in Hq.
      Lqa.lra. }
    lia. }
  destruct Hcases as [Hf|Hf]; rewrite Hf in *.
  - assert (Hc : (q - inject_Z n ?= 1 # 2)%Q = Lt) by (apply (proj1 (Qlt_alt _ _)); Lqa.lra).
    now rewrite Hc.
  - assert (Hc : (q - inject_Z (n - 1) ?= 1 # 2)%Q = Gt).
    { apply (proj1 (Qgt_alt _ _)). replace (n - 1)%Z with (n + -1)%Z in * by lia.
      rewrite inject_Z_plus in *.
      change (inject_Z (-1)) with (-1)%Q in *. Lqa.lra. }
    rewrite Hc. lia.
Qed.

Lemma min_with_one_ratio (n : Z) (d : positive) :
  (min_with_one (inject_Z n / inject_Z (Zpos d))
   == inject_Z (Z.min n (Zpos d)) / inject_Z (Zpos d))%Q.
Proof.
  unfold min_with_one.
  destruct (Qlt_le_dec 1 (inject_Z n / inject_Z (Z.pos d))) as [Hlt|Hle].
  - assert (Hn : (Zpos d < n)%Z).
    { unfold Qlt, Qdiv, Qmult, Qinv, inject_Z in Hlt. simpl in Hlt. lia. }
    rewrite Z.min_r by lia. unfold Qeq, Qdiv, Qmult, Qinv, inject_Z. simpl. lia.
  - assert (Hn : (n <= Zpos d)%Z).
    { unfold Qle, Qdiv, Qmult, Qinv, inject_Z in Hle. simpl in Hle. lia. }
    rewrite Z.min_l by lia. reflexivity.
Qed.

(** The score is a whole number of hundredths. *)
Lemma score_closed_form {A B C : Type} (papers : list A) (patterns : list B)
    (hypotheses : list C) :
  (_calculate_collaboration_score papers patterns hypotheses
   == inject_Z (score_hundredths (length papers) (length patterns) (length hypotheses))
      / 100)%Q.
Proof.
  unfold _calculate_collaboration_score, round2.
  set (p := Z.of_nat (length papers)). set (t := Z.of_nat (length patterns)).
  set (h := Z.of_nat (length hypotheses)).
  match goal with
  | |- (inject_Z (round_half_even ?s) / 100 == _)%Q =>
      assert (Hround : round_half_even s
                       = score_hundredths (length papers) (length patterns)
                           (length hypotheses)); [|now rewrite Hround]
  end.
  unfold score_hundredths. fold p t h.
  assert (Hp := min_with_one_ratio p 10). assert (Ht := min_with_one_ratio t 5).
  assert (Hh := min_with_one_ratio h 3).
  change (inject_Z 10) with 10%Q in Hp. change (inject_Z 5) with 5%Q in Ht.
  change (inject_Z 3) with 3%Q in Hh.
  set (mp := min_with_one (inject_Z p / 10)) in *.
  set (mt := min_with_one (inject_Z t / 5)) in *.
  set (mh := min_with_one (inject_Z h / 3)) in *.
  assert (Hh0 : (0 <= h)%Z) by (unfold h; lia).
  apply round_near; rewrite !inject_Z_plus, !inject_Z_mult;
    change (inject_Z 3) with 3%Q; change (inject_Z 6) with 6%Q.
  all: assert (Hs : ((0 + mp * (3 # 10) + mt * (3 # 10) + mh * (4 # 10)) * 100
                     == 3 * inject_Z (Z.min p 10) + 6 * inject_Z (Z.min t 5)
                        + (40 # 3) * inject_Z (Z.min h 3))%Q)
         by (rewrite Hp, Ht, Hh; field).
  all: rewrite Hs; clear Hs Hp Ht Hh mp mt mh.
  all: unfold hypothesis_hundredths.
  all: destruct (Z.leb_spec h 0) as [H0|H0];
       [replace h with 0%Z by lia; change (Z.min 0 3) with 0%Z;
        change (inject_Z 0) with 0%Q; Lqa.lra|].
  all: destruct (Z.eqb_spec h 1) as [->|H1];
       [change (Z.min 1 3) with 1%Z; change (inject_Z 1) with 1%Q;
        change (inject_Z 13) with 13%Q; Lqa.lra|].
  all: destruct (Z.eqb_spec h 2) as [->|H2];
       [change (Z.min 2 3) with 2%Z; change (inject_Z 2) with 2%Q;
        change (inject_Z 27) with 27%Q; Lqa.lra|].
  all: rewrite (Z.min_r h 3) by lia; change (inject_Z 3) with 3%Q;
       change (inject_Z 40) with 40%Q; Lqa.lra.
Qed.

Lemma hundredths_le (a b : Z) : (inject_Z a / 100 <= inject_Z b / 100)%Q <-> (a <= b)%Z.
Proof. unfold Qle, Qdiv, Qmult, Qinv, inject_Z. simpl. lia. Qed.

Lemma hundredths_unit (a : Z) :
  ((0 <= inject_Z a / 100 <= 1)%Q <-> (0 <= a <= 100)%Z) /\
  ((inject_Z a / 100 == 1)%Q <-> a = 100%Z) /\
  ((inject_Z a / 100 == 0)%Q <-> a = 0%Z).
Proof. unfold Qle, Qeq, Qdiv, Qmult, Qinv, inject_Z. simpl. lia. Qed.

Lemma hypothesis_hundredths_mono (a b : Z) :
  (a <= b)%Z -> (hypothesis_hundredths a <= hypothesis_hundredths b)%Z.
Proof.
  intros H. unfold hypothesis_hundredths.
  repeat match goal with
         | |- context [Z.leb ?x ?y] => destruct (Z.leb_spec x y)
         | |- context [Z.eqb ?x ?y] => destruct (Z.eqb_spec x y)
         end; lia.
Qed.

Lemma hypothesis_hundredths_range (a : Z) :
  (0 <= hypothesis_hundredths a <= 40)%Z /\
  (hypothesis_hundredths a = 40 <-> 3 <= a)%Z /\
  (hypothesis_hundredths a = 0 <-> a <= 0)%Z.
Proof.
  unfold hypothesis_hundredths.
  repeat match goal with
         | |- context [Z.leb ?x ?y] => destruct (Z.leb_spec x y)
         | |- context [Z.eqb ?x ?y] => destruct (Z.eqb_spec x y)
         end; lia.
Qed.

(** Lookups after an assignment. *)
Lemma assoc_assoc_set {A : Type} (k k' : string) (v : A) (kv : list (string * A)) :
  assoc k (assoc_set k' v kv) = if String.eqb k k' then Some v else assoc k kv.
Proof.
  induction kv as [|[k0 v0] kv IH]; cbn [assoc_set assoc].
  - reflexivity.
  - destruct (String.eqb_spec k' k0) as [->|Hk0]; cbn [assoc].
    + destruct (String.eqb_spec k k0); reflexivity.
    + rewrite IH. destruct (String.eqb_spec k k0) as [->|Hk]; [|reflexivity].
      destruct (String.eqb_spec k0 k'); [congruence | reflexivity].
Qed.

Lemma mapM_lookup {A B : Type} (f : A -> outcome B) (l : list A) (r : list B) :
  mapM f l = Ok r ->
  forall i x y, l !! i = Some x -> r !! i = Some y -> f x = Ok y.
Proof.
  revert r. induction l as [|a l IH]; intros r; cbn [mapM].
  - intros _ i x y Hx. now rewrite lookup_nil in Hx.
  - destruct (f a) as [b|e] eqn:Hfa; cbn [mbind outcome_bind bind]; [|discriminate].
    destruct (mapM f l) as [bs|e]; cbn [mbind outcome_bind bind]; [|discriminate].
    intros [= <-] [|i] x y; cbn.
    + now intros [= <-] [= <-].
    + now apply IH.
Qed.

Lemma mapM_total {A B : Type} (f : A -> outcome B) (l : list A) :
  Forall (fun x => exists y, f x = Ok y) l -> exists r, mapM f l = Ok r.
Proof.
  induction 1 as [|a l (b & Hb) _ (bs & Hbs)]; cbn [mapM].
  - now exists [].
  - rewrite Hb, Hbs. now eexists.
Qed.

Lemma debate_one_dict (kv : list (string * pyval)) :
  exists kv', debate_one (PDict kv) = Ok (PDict kv') /\
    let basis := match assoc "basis" kv with Some v => v | None => PNone end in
    assoc "spotter_support" kv' = Some (PBool true) /\
    assoc "scout_support" kv' = Some (PBool (eq_str basis "pattern_analysis")) /\
    assoc "confidence_after_debate" kv'
    = Some (PFloat (if eq_str basis "pattern_analysis" then 8 # 10 else 7 # 10)) /\
    forall k, ~ In k debate_keys -> assoc k kv' = assoc k kv.
Proof.
  unfold debate_one. cbn [py_get mbind outcome_bind bind].
  destruct (eq_str _ "pattern_analysis"); eexists; (split; [reflexivity|]);
    cbn zeta; rewrite !assoc_assoc_set; cbn [String.eqb Ascii.eqb Bool.eqb];
    (split; [reflexivity|]); (split; [reflexivity|]); (split; [reflexivity|]);
    intros k Hk; rewrite !assoc_assoc_set;
    destruct (String.eqb_spec k "spotter_support") as [->|_];
    try (exfalso; apply Hk; unfold debate_keys; simpl; tauto);
    destruct (String.eqb_spec k "scout_support") as [->|_];
    try (exfalso; apply Hk; unfold debate_keys; simpl; tauto);
    destruct (String.eqb_spec k "confidence_after_debate") as [->|_];
    try (exfalso; apply Hk; unfold debate_keys; simpl; tauto);
    reflexivity.
Qed.

Lemma debate_one_dict_only (h h' : pyval) :
  debate_one h = Ok h' -> exists kv, h = PDict kv.
Proof.
  destruct h; try discriminate. intros _. now eexists.
Qed.

End AgentFacts.

Module AgentClaims.
Import Py Services MultiAgent Spec AgentQuantities ScoreFacts AgentFacts.

(** The collaboration score lies between 0 and 1, never falls when an agent
    finds more, is 1 exactly from ten papers, five patterns and three
    hypotheses on, and 0 exactly when all three lists are empty. *)
Theorem collaboration_score_range (papers patterns hypotheses : list pyval) :
  (0 <= _calculate_collaboration_score papers patterns hypotheses <= 1)%Q /\
  (forall papers' patterns' hypotheses' : list pyval,
     (length papers <= length papers')%nat ->
     (length patterns <= length patterns')%nat ->
     (length hypotheses <= length hypotheses')%nat ->
     (_calculate_collaboration_score papers patterns hypotheses
      <= _calculate_collaboration_score papers' patterns' hypotheses')%Q) /\
  ((_calculate_collaboration_score papers patterns hypotheses == 1)%Q <->
   (10 <= length papers /\ 5 <= length patterns /\ 3 <= length hypotheses)%nat) /\
  ((_calculate_collaboration_score papers patterns hypotheses == 0)%Q <->
   papers = [] /\ patterns = [] /\ hypotheses = []).
Proof.
  pose proof (hypothesis_hundredths_range (Z.of_nat (length hypotheses)))
    as (Hrange & Hfull & Hnone).
  split; [|split; [|split]].
  - rewrite score_closed_form. apply hundredths_unit. unfold score_hundredths. lia.
  - intros papers' patterns' hypotheses' Hp Ht Hh.
    rewrite !score_closed_form, hundredths_le. unfold score_hundredths.
    pose proof (hypothesis_hundredths_mono (Z.of_nat (length hypotheses))
                  (Z.of_nat (length hypotheses'))).
    lia.
  - rewrite score_closed_form.
    rewrite (proj1 (proj2 (hundredths_unit _))). unfold score_hundredths. lia.
  - rewrite score_closed_form.
    rewrite (proj2 (proj2 (hundredths_unit _))). unfold score_hundredths.
    rewrite <- !length_zero_iff_nil. lia.
Qed.

(** When [_agent_debate] returns, it has refined the first five hypotheses
    and no other: each refined hypothesis has the spotter's support, has the
    scout's support and confidence 0.8 when its basis is "pattern_analysis"
    and no scout support and confidence 0.7 otherwise, and keeps every other
    key as it was. *)
Theorem agent_debate_refines (hypotheses refined : list pyval) :
  _agent_debate hypotheses = Ok refined ->
  length refined = Nat.min 5 (length hypotheses) /\
  forall i h h',
    hypotheses !! i = Some h -> refined !! i = Some h' ->
    exists basis,
      py_get h "basis" PNone = Ok basis /\
      py_get h' "spotter_support" PNone = Ok (PBool true) /\
      py_get h' "scout_support" PNone = Ok (PBool (eq_str basis "pattern_analysis")) /\
      py_get h' "confidence_after_debate" PNone
      = Ok (PFloat (if eq_str basis "pattern_analysis" then 8 # 10 else 7 # 10)) /\
      forall k default, ~ In k debate_keys -> py_get h' k default = py_get h k default.
Proof.
  unfold _agent_debate. intros Hrun. split.
  - rewrite (mapM_length _ _ _ Hrun), length_firstn. reflexivity.
  - intros i h h' Hh Hh'.
    assert (Hi : (i < 5)%nat).
    { apply lookup_lt_Some in Hh'. rewrite (mapM_length _ _ _ Hrun), length_firstn in Hh'.
      lia. }
    assert (Hfirst : firstn 5 hypotheses !! i = Some h).
    { change (take 5 hypotheses !! i = Some h). now rewrite lookup_take_lt. }
    pose proof (mapM_lookup _ _ _ Hrun i h h' Hfirst Hh') as Hone.
    destruct (debate_one_dict_only _ _ Hone) as (kv & ->).
    destruct (debate_one_dict kv) as (kv' & Hkv' & Hspotter & Hscout & Hconf & Hkeep).
    rewrite Hkv' in Hone. injection Hone as <-.
    eexists. split; [reflexivity|]. cbn [py_get].
    rewrite Hspotter, Hscout, Hconf.
    split; [reflexivity|]. split; [reflexivity|]. split; [reflexivity|].
    intros k default Hk. now rewrite (Hkeep k Hk).
Qed.

(** A hypothesis from a pattern leaves the debate with confidence 0.8, one
    from an analogy with 0.7. *)
Lemma agent_debate_refines_witness :
  exists refined first second,
    _agent_debate two_hypotheses = Ok refined /\
    refined !! 0%nat = Some first /\ refined !! 1%nat = Some second /\
    py_get first "confidence_after_debate" PNone = Ok (PFloat (8 # 10)) /\
    py_get second "confidence_after_debate" PNone = Ok (PFloat (7 # 10)).
Proof.
  destruct (_agent_debate two_hypotheses) as [refined|e] eqn:Hrun;
    [|vm_compute in Hrun; discriminate].
  destruct (agent_debate_refines two_hypotheses refined Hrun) as (Hlen & Heach).
  destruct refined as [|first [|second rest]]; try (simpl in Hlen; discriminate).
  exists (first :: second :: rest), first, second.
  split; [reflexivity|]. split; [reflexivity|]. split; [reflexivity|].
  destruct (Heach 0%nat _ first eq_refl eq_refl) as (b1 & Hb1 & _ & _ & Hc1 & _).
  destruct (Heach 1%nat _ second eq_refl eq_refl) as (b2 & Hb2 & _ & _ & Hc2 & _).
  injection Hb1 as <-. injection Hb2 as <-.
  split; [exact Hc1 | exact Hc2].
Defined.

(** On the memory store of the repository, which has no [store_memory],
    [collaborative_research] never returns its record: whatever the agents
    find, the answer is an error record, and it names the missing method
    when every paper has an id and the debate goes through. *)
Theorem collaborative_research_without_store
    (mock_memories : list (string * list pyval)) (isoformat : datetime -> string)
    (scout_papers : string -> string -> list pyval)
    (spot_patterns : string -> list pyval -> list pyval)
    (generate_creative_hypotheses : string -> string -> list pyval -> list pyval)
    (researcher_id research_topic : string) (now : datetime) :
  exists msg,
    collaborative_research (MockMemoryService mock_memories) isoformat scout_papers
      spot_patterns generate_creative_hypotheses researcher_id research_topic now
    = Ok (ErrorDict msg) /\
    (forall paper_ids refined,
       mapM (fun p => py_getitem p "paper_id") (scout_papers researcher_id research_topic)
       = Ok paper_ids ->
       _agent_debate (generate_creative_hypotheses researcher_id research_topic
                        (spot_patterns researcher_id paper_ids)) = Ok refined ->
       msg = "'MockMemoryService' object has no attribute 'store_memory'").
Proof.
  unfold collaborative_research, try_except.
  destruct (mapM _ (scout_papers researcher_id research_topic)) as [paper_ids|e];
    cbn [mbind outcome_bind bind].
  2:{ eexists. split; [reflexivity|]. intros ? ? [=]. }
  destruct (_agent_debate _) as [refined|e] eqn:Hdebate; cbn [mbind outcome_bind bind].
  2:{ eexists. split; [reflexivity|]. intros ? ? [= <-]. rewrite Hdebate. intros [=]. }
  cbn [store_memory MockMemoryService mbind outcome_bind bind].
  eexists. split; reflexivity.
Qed.

End AgentClaims.

(** ** The memory health of the cognitive load report *)

Module HealthFacts.
Import Py Services MemoryConsolidation MemoryGraphFusion Spec StrengthFacts WeakFacts
  FusionQuantities.

(** The loop that keeps the weak memories. *)
Lemma weak_memories_filter iso now (l acc : list pyval) :
  foldM (fun acc m =>
           strength ← calculate_memory_strength iso m now;
           Ok (if Rltb strength 0.4 then (acc ++ [m])%list else acc))
        l acc
  = Ok (acc ++ List.filter
                 (fun m => Rltb (match calculate_memory_strength iso m now with
                                 | Ok r => r
                                 | Raise _ => 0.5%R
                                 end) 0.4) l)%list.
Proof.
  revert acc. induction l as [|m l IH]; intros acc; cbn [foldM List.filter].
  - now rewrite app_nil_r.
  - rewrite (strength_of_memory iso now m) at 1. cbn [mbind outcome_bind bind].
    rewrite IH. destruct (Rltb _ 0.4); [now rewrite <- app_assoc | reflexivity].
Qed.

Lemma filter_length_le {A : Type} (test : A -> bool) (l : list A) :
  (length (List.filter test l) <= length l)%nat.
Proof.
  induction l as [|x l IH]; simpl; [lia|]. destruct (test x); simpl; lia.
Qed.

Lemma fading_weak :
  exists s, calculate_memory_strength no_parser
              (memory_aged 42 [("access_count", PInt 0)]) new_year_2026 = Ok s /\
            Rltb s 0.4 = true.
Proof.
  destruct fading_strength as (s & Hs & Hlow & Hhigh).
  exists s. split; [exact Hs|].
  unfold Rltb. destruct (Rlt_dec s 0.4); [reflexivity | lra].
Qed.

Lemma filter_repeat {A : Type} (test : A -> bool) (x : A) (n : nat) :
  test x = true -> List.filter test (repeat x n) = repeat x n.
Proof.
  intros Hx. induction n as [|n IH]; cbn [repeat List.filter]; [reflexivity|].
  now rewrite Hx, IH.
Qed.

Lemma twelve_fading_report :
  exists r,
    cognitive_load_optimizer no_parser (sample_store twelve_fading [] []) "researcher-1"
      new_year_2026 = Ok (Result r).
Proof.
  destruct fading_weak as (s & Hs & Hweak).
  unfold cognitive_load_optimizer, try_except.
  cbn [get_recent_context sample_store foldM mbind outcome_bind bind recall_paper_memories].
  change (slice_to 50 twelve_fading) with twelve_fading.
  cbn [mbind outcome_bind bind].
  rewrite weak_memories_filter. cbn [mbind outcome_bind bind app].
  unfold twelve_fading. rewrite filter_repeat by (rewrite Hs; exact Hweak).
  cbn [repeat length Nat.ltb Nat.leb firstn mapM].
  cbn [memory_aged py_get assoc String.eqb Ascii.eqb Bool.eqb mbind outcome_bind bind].
  eexists. reflexivity.
Qed.

End HealthFacts.

Module HealthClaims.
Import Py Services MemoryConsolidation MemoryGraphFusion Spec StrengthFacts WeakFacts
  FusionQuantities HealthFacts.

(** When [cognitive_load_optimizer] returns its report, the memory health
    counts the recalled memories and, among them, those of strength below
    0.4; a review is needed exactly above ten weak memories, and exactly then
    the last recommendation lists papers to review, five of them; no other
    recommendation lists papers. *)
Theorem cognitive_load_memory_health
    (fromisoformat : string -> outcome datetime) (memory_service : MemoryService)
    (researcher_id : string) (now : datetime) (r : cognitive_load)
    (all_memories : list pyval) :
  cognitive_load_optimizer fromisoformat memory_service researcher_id now = Ok (Result r) ->
  recall_paper_memories memory_service researcher_id PNone 50 = Ok all_memories ->
  cl_total_memories r = length all_memories /\
  cl_weak_memories r
  = count (fun s => Rltb s 0.4) (strengths_of fromisoformat now all_memories) /\
  (cl_weak_memories r <= cl_total_memories r)%nat /\
  cl_needs_review r = (10 <? cl_weak_memories r)%nat /\
  (cl_needs_review r = true ->
   exists others titles,
     cl_recommendations r
     = (others ++ [{| rec_type := "review_needed";
                      rec_message := "Review " ++ pretty (cl_weak_memories r)
                                     ++ " papers with weak memory";
                      rec_reason := "Strengthen memories before they fade";
                      rec_papers_to_review := Some titles |}])%list /\
     length titles = 5%nat /\
     Forall (fun rec => rec_papers_to_review rec = None) others) /\
  (cl_needs_review r = false ->
   Forall (fun rec => rec_papers_to_review rec = None) (cl_recommendations r)).
Proof.
  intros Hrun Hrecall. revert Hrun.
  unfold cognitive_load_optimizer, try_except.
  destruct (get_recent_context memory_service researcher_id 24) as [recent|e];
    cbn [mbind outcome_bind bind]; [|discriminate].
  match goal with
  | |- context [foldM ?f recent []] => destruct (foldM f recent []) as [read_today|e]
  end; cbn [mbind outcome_bind bind]; [|discriminate].
  rewrite Hrecall. cbn [mbind outcome_bind bind].
  rewrite weak_memories_filter. cbn [mbind outcome_bind bind app].
  set (weak := List.filter _ all_memories).
  assert (Hweak : length weak
                  = count (fun s => Rltb s 0.4) (strengths_of fromisoformat now all_memories)).
  { unfold weak, count, strengths_of.
    now rewrite <- (filter_length_map _ (fun s => Rltb s 0.4)). }
  assert (Hle : (length weak <= length all_memories)%nat) by apply filter_length_le.
  assert (Hplain : Forall (fun rec => rec_papers_to_review rec = None)
                     (if (5 <? length read_today)%nat
                      then [{| rec_type := "overload_warning";
                               rec_message :=
                                 "You've read many papers today. Consider taking a break.";
                               rec_reason := "Cognitive overload reduces retention";
                               rec_papers_to_review := None |}]
                      else if (length read_today =? 0)%nat
                           then [{| rec_type := "engagement";
                                    rec_message := "Good time to read a new paper";
                                    rec_reason := "Fresh cognitive capacity available";
                                    rec_papers_to_review := None |}]
                           else [])).
  { destruct (5 <? _)%nat; [repeat constructor|].
    destruct (_ =? 0)%nat; repeat constructor. }
  destruct (Nat.ltb_spec 10 (length weak)) as [Hmany|Hfew].
  - match goal with
    | |- context [mapM ?f ?l] => destruct (mapM f l) as [titles|e] eqn:Htitles
    end; cbn [mbind outcome_bind bind]; [|discriminate].
    intros [= <-].
    cbn [cl_total_memories cl_weak_memories cl_needs_review cl_recommendations].
    split; [reflexivity|]. split; [exact Hweak|]. split; [exact Hle|].
    split; [symmetry; apply Nat.ltb_lt; exact Hmany|].
    split; [|intros [=]].
    intros _. eexists. exists titles. split; [reflexivity|].
    split; [|exact Hplain].
    rewrite (ScoreFacts.mapM_length _ _ _ Htitles), length_firstn. lia.
  - cbn [mbind outcome_bind bind]. intros [= <-].
    cbn [cl_total_memories cl_weak_memories cl_needs_review cl_recommendations].
    split; [reflexivity|]. split; [exact Hweak|]. split; [exact Hle|].
    split; [symmetry; apply Nat.ltb_ge; exact Hfew|].
    split; [intros [=]|].
    intros _. exact Hplain.
Qed.

(** Twelve fading memories call for a review. *)
Lemma cognitive_load_memory_health_witness :
  exists r,
    cognitive_load_optimizer no_parser (sample_store twelve_fading [] []) "researcher-1"
      new_year_2026 = Ok (Result r) /\
    cl_total_memories r = 12%nat /\
    cl_needs_review r = (10 <? cl_weak_memories r)%nat.
Proof.
  destruct twelve_fading_report as (r & Hr). exists r.
  destruct (cognitive_load_memory_health no_parser (sample_store twelve_fading [] [])
              "researcher-1" new_year_2026 r twelve_fading Hr eq_refl)
    as (Htotal & _ & _ & Hreview & _).
  split; [exact Hr|]. split; [exact Htotal | exact Hreview].
Defined.

End HealthClaims.

(** ** The timeline of a concept *)

Module TimelineFacts.
Import Py Services MemoryConsolidation Spec EvolutionFacts EvolutionQuantities.

(** *** The order of strings *)

Lemma ascii_compare_lt_trans a b c :
  Ascii.compare a b = Lt -> Ascii.compare b c = Lt -> Ascii.compare a c = Lt.
Proof.
  unfold Ascii.compare. rewrite !N.compare_lt_iff. lia.
Qed.

Lemma string_compare_le_trans a b c :
  String.compare a b <> Gt -> String.compare b c <> Gt -> String.compare a c <> Gt.
Proof.
  revert b c. induction a as [|ca a IH]; intros [|cb b] [|cc c]; cbn [String.compare];
    try congruence.
  destruct (Ascii.compare ca cb) eqn:Hab; [| |congruence].
  - apply Ascii.compare_eq_iff in Hab. subst cb.
    destruct (Ascii.compare ca cc); [apply IH | congruence | congruence].
  - destruct (Ascii.compare cb cc) eqn:Hbc; [| |congruence].
    + apply Ascii.compare_eq_iff in Hbc. subst cc. rewrite Hab. congruence.
    + rewrite (ascii_compare_lt_trans _ _ _ Hab Hbc). congruence.
Qed.

Lemma string_ltb_false a b : String.ltb a b = false <-> String.compare b a <> Gt.
Proof.
  unfold String.ltb. rewrite (String.compare_antisym b a).
  destruct (String.compare a b); cbn; split; intros H;
    first [reflexivity | discriminate | (exfalso; now apply H) | (intros ?; discriminate)].
Qed.

Lemma string_not_before_trans a b c :
  String.ltb b a = false -> String.ltb c b = false -> String.ltb c a = false.
Proof.
  rewrite !string_ltb_false. apply string_compare_le_trans.
Qed.

Lemma string_ltb_asym a b : String.ltb a b = true -> String.ltb b a = false.
Proof.
  unfold String.ltb. rewrite (String.compare_antisym b a).
  destruct (String.compare a b); cbn; congruence.
Qed.

(** *** Sorting with a comparison that can raise *)

Lemma insert_sortedM_perm {A : Type} (before : A -> A -> outcome bool) x l r :
  insert_sortedM before x l = Ok r -> Permutation r (x :: l).
Proof.
  revert r. induction l as [|y l IH]; intros r; cbn [insert_sortedM].
  - now intros [= <-].
  - destruct (before x y) as [[|]|e]; cbn [bind]; [now intros [= <-]| |discriminate].
    destruct (insert_sortedM before x l) as [r'|e]; cbn [mbind outcome_bind bind];
      [|discriminate].
    intros [= <-]. rewrite (IH r' eq_refl). apply perm_swap.
Qed.

Lemma stable_sortM_perm {A : Type} (before : A -> A -> outcome bool) l r :
  stable_sortM before l = Ok r -> Permutation r l.
Proof.
  unfold stable_sortM.
  assert (H : forall acc, foldM (fun acc x => insert_sortedM before x acc) l acc = Ok r ->
                          Permutation r (acc ++ l)).
  { induction l as [|x l IH]; intros acc; cbn [foldM].
    - intros [= <-]. now rewrite app_nil_r.
    - destruct (insert_sortedM before x acc) as [acc'|e] eqn:Hins;
        cbn [mbind outcome_bind bind]; [|discriminate].
      intros Hf. rewrite (IH _ Hf), (insert_sortedM_perm _ _ _ _ Hins).
      apply Permutation_middle. }
  intros Hs. now apply H in Hs.
Qed.

Lemma insert_sortedM_pure {A : Type} (beforeM : A -> A -> outcome bool)
    (before : A -> A -> bool) x l :
  Forall (fun y => beforeM x y = Ok (before x y)) l ->
  insert_sortedM beforeM x l = Ok (insert_sorted before x l).
Proof.
  induction 1 as [|y l Hy _ IH]; cbn [insert_sortedM insert_sorted]; [reflexivity|].
  rewrite Hy. cbn [bind]. destruct (before x y); [reflexivity|].
  rewrite IH. reflexivity.
Qed.

Lemma stable_sortM_pure {A : Type} (beforeM : A -> A -> outcome bool)
    (before : A -> A -> bool) (good : A -> Prop) l :
  (forall x y, good x -> good y -> beforeM x y = Ok (before x y)) ->
  Forall good l ->
  stable_sortM beforeM l = Ok (stable_sort before l).
Proof.
  intros Hpure. unfold stable_sortM, stable_sort.
  assert (H : forall acc, Forall good acc -> Forall good l ->
            foldM (fun acc x => insert_sortedM beforeM x acc) l acc
            = Ok (fold_left (fun acc x => insert_sorted before x acc) l acc)).
  { induction l as [|x l IH]; intros acc Hacc Hl; cbn [foldM fold_left]; [reflexivity|].
    inversion Hl as [|? ? Hx Hl']; subst.
    rewrite (insert_sortedM_pure beforeM before x acc).
    2:{ eapply List.Forall_impl; [|exact Hacc]. intros y Hy. now apply Hpure. }
    cbn [mbind outcome_bind bind]. apply IH; [|exact Hl'].
    apply (Permutation_Forall (Permutation_sym (WeakFacts.insert_sorted_perm before x acc))).
    now constructor. }
  intros Hl. apply H; [constructor | exact Hl].
Qed.

(** A timeline of text timestamps in the order [stable_sort] gives, read by
    position. *)
Lemma chronological_by_position (l : list exposure) :
  Sorted (fun a b => String.ltb (timestamp_text b) (timestamp_text a) = false) l ->
  forall i j x y, (i < j)%nat -> l !! i = Some x -> l !! j = Some y ->
    String.ltb (timestamp_text y) (timestamp_text x) = false.
Proof.
  intros Hs. apply Sorted_StronglySorted in Hs.
  2:{ intros a b c Hab Hbc. eapply string_not_before_trans; eassumption. }
  induction Hs as [|a l Hs IH Hall]; intros i j x y Hij Hi Hj.
  - now rewrite lookup_nil in Hi.
  - destruct j as [|j]; [lia|]. cbn in Hj.
    destruct i as [|i]; cbn in Hi.
    + injection Hi as <-.
      rewrite List.Forall_forall in Hall.
      apply list_elem_of_lookup_2, list_elem_of_In in Hj. exact (Hall y Hj).
    + eapply IH; [|exact Hi|exact Hj]. lia.
Qed.

Lemma foldM_raises {A S : Type} (f : S -> A -> outcome S) (l : list A) (x : A) :
  In x l -> (forall s, exists e, f s x = Raise e) ->
  forall s, exists e, foldM f l s = Raise e.
Proof.
  intros Hin Hx. induction l as [|y l IH]; [destruct Hin|]. intros s. cbn [foldM].
  destruct Hin as [->|Hin].
  - destruct (Hx s) as (e & He). rewrite He. now exists e.
  - destruct (f s y) as [s'|e]; cbn [mbind outcome_bind bind]; [now apply IH | now exists e].
Qed.

End TimelineFacts.

Module TimelineClaims.
Import Py Services MemoryConsolidation Spec EvolutionFacts EvolutionQuantities TimelineFacts.

(** When [track_concept_evolution] returns its report and the timestamps on
    its timeline are strings, the timeline is in the order of the
    timestamps: no entry has a timestamp before that of an earlier entry, and
    the first encounter is the timestamp of the first entry. *)
Theorem track_concept_evolution_chronological
    (py_str : pyval -> string) (memory_service : MemoryService)
    (researcher_id concept : string) (r : evolution) :
  track_concept_evolution py_str memory_service researcher_id concept = Ok (Result r) ->
  Forall has_text_timestamp (ev_timeline r) ->
  (forall i j x y,
     (i < j)%nat -> ev_timeline r !! i = Some x -> ev_timeline r !! j = Some y ->
     String.ltb (timestamp_text y) (timestamp_text x) = false) /\
  ev_first_encountered r = option_map ex_timestamp (head (ev_timeline r)).
Proof.
  unfold track_concept_evolution, try_except.
  destruct (search_memories memory_service researcher_id concept 50) as [memories|e];
    cbn [mbind outcome_bind bind]; [|discriminate].
  match goal with
  | |- context [foldM ?f memories []] => destruct (foldM f memories []) as [timeline|e]
  end; cbn [mbind outcome_bind bind]; [|discriminate].
  destruct (stable_sortM _ timeline) as [sorted|e] eqn:Hsort;
    cbn [mbind outcome_bind bind]; [|discriminate].
  intros [= <-]. cbn [ev_timeline ev_first_encountered]. intros Htext.
  split; [|destruct sorted; reflexivity].
  assert (Hinput : Forall has_text_timestamp timeline).
  { exact (Permutation_Forall (stable_sortM_perm _ _ _ Hsort) Htext). }
  rewrite (stable_sortM_pure _
             (fun x y => String.ltb (timestamp_text x) (timestamp_text y))
             has_text_timestamp timeline) in Hsort.
  - injection Hsort as <-. apply chronological_by_position.
    apply (ReportFacts.stable_sort_sorted
             (fun x y => String.ltb (timestamp_text x) (timestamp_text y))).
    intros a b. apply string_ltb_asym.
  - intros x y (s & Hs) (t & Ht). unfold timestamp_text. rewrite Hs, Ht. reflexivity.
  - exact Hinput.
Qed.

(** Found in the order later, earlier, two memories come out earlier first. *)
Lemma track_concept_evolution_chronological_witness :
  exists r,
    track_concept_evolution str_of_strings
      (sample_store [] [later_memory; transformer_memory] []) "researcher-1" "transformers"
    = Ok (Result r) /\
    List.map ex_timestamp (ev_timeline r)
    = [PStr "2025-12-01T10:00:00"; PStr "2025-12-20T09:00:00"] /\
    ev_first_encountered r = option_map ex_timestamp (head (ev_timeline r)).
Proof.
  destruct (track_concept_evolution str_of_strings
              (sample_store [] [later_memory; transformer_memory] []) "researcher-1"
              "transformers") as [[r|msg]|e] eqn:Hrun;
    [|vm_compute in Hrun; discriminate..].
  assert (Htimeline : List.map ex_timestamp (ev_timeline r)
                      = [PStr "2025-12-01T10:00:00"; PStr "2025-12-20T09:00:00"]).
  { vm_compute in Hrun. injection Hrun as <-. reflexivity. }
  assert (Htext : Forall has_text_timestamp (ev_timeline r)).
  { destruct (ev_timeline r) as [|a [|b [|c rest]]]; try discriminate.
    injection Htimeline as Ha Hb. repeat constructor; eexists; eassumption. }
  destruct (track_concept_evolution_chronological _ _ _ _ r Hrun Htext) as (_ & Hfirst).
  exists r. split; [reflexivity|]. split; [exact Htimeline | exact Hfirst].
Defined.

(** A found memory that mentions the concept and whose abstract cannot be
    sliced, as the [None] that [store_paper_memory] records for a paper
    without abstract, makes [track_concept_evolution] answer an error record
    instead of the report. *)
Theorem track_concept_evolution_abstract_error
    (py_str : pyval -> string) (memory_service : MemoryService)
    (researcher_id concept : string)
    (memories : list pyval) (memory content key_concepts abstract : pyval) :
  search_memories memory_service researcher_id concept 50 = Ok memories ->
  In memory memories ->
  py_get memory "content" (PDict []) = Ok content ->
  py_get content "key_concepts" (PList []) = Ok key_concepts ->
  str_contains (str_lower concept) (str_lower (py_str key_concepts)) = true ->
  py_get content "abstract" (PStr "") = Ok abstract ->
  fails (py_slice_to 200 abstract) ->
  exists msg,
    track_concept_evolution py_str memory_service researcher_id concept
    = Ok (ErrorDict msg).
Proof.
  intros Hsearch Hin Hcontent Hkc Hmention Habstract (e & Hslice).
  unfold track_concept_evolution, try_except.
  rewrite Hsearch. cbn [mbind outcome_bind bind].
  match goal with
  | |- context [foldM ?f memories []] =>
      destruct (foldM_raises f memories memory Hin) with (s := @nil exposure) as (e' & He')
  end.
  - intros s. rewrite Hcontent. cbn [mbind outcome_bind bind].
    rewrite Hkc. cbn [mbind outcome_bind bind]. rewrite Hmention.
    destruct content as [| | | | | | |kv]; try discriminate.
    cbn [py_get mbind outcome_bind bind] in *.
    injection Habstract as ->. rewrite Hslice. now eexists.
  - rewrite He'. cbn [mbind outcome_bind bind]. now eexists.
Qed.

(** A paper stored without an abstract breaks the evolution of its
    concepts. *)
Lemma track_concept_evolution_abstract_error_witness :
  exists msg,
    track_concept_evolution str_of_strings
      (sample_store [] [transformer_memory; memory_without_abstract] []) "researcher-1"
      "transformers"
    = Ok (ErrorDict msg).
Proof.
  apply (track_concept_evolution_abstract_error str_of_strings
           (sample_store [] [transformer_memory; memory_without_abstract] [])
           "researcher-1" "transformers"
           [transformer_memory; memory_without_abstract] memory_without_abstract
           (PDict [("type", PStr "paper_reading");
                   ("paper_id", PStr "p-2");
                   ("title", PStr "Untitled draft");
                   ("abstract", PNone);
                   ("key_concepts", PList [PStr "Transformers"]);
                   ("timestamp", PStr "2025-12-02T10:00:00")])
           (PList [PStr "Transformers"]) PNone).
  - reflexivity.
  - right. now left.
  - reflexivity.
  - reflexivity.
  - vm_compute. reflexivity.
  - reflexivity.
  - eexists. reflexivity.
Defined.

End TimelineClaims.

(** ** Cross-references between concept groups *)

Module CrossFacts.
Import Py Services MemoryConsolidation Spec CrossQuantities.

(** *** Equality of hashable values *)

Lemma Qeq_bool_sym x y : Qeq_bool x y = Qeq_bool y x.
Proof. unfold Qeq_bool. apply Z.eqb_sym. Qed.

Lemma datetime_eqb_sym a b : datetime_eqb a b = datetime_eqb b a.
Proof.
  unfold datetime_eqb. destruct (utcoffset a), (utcoffset b); try reflexivity;
    apply Z.eqb_sym.
Qed.

Lemma datetime_eqb_trans a b c :
  datetime_eqb a b = true -> datetime_eqb b c = true -> datetime_eqb a c = true.
Proof.
  unfold datetime_eqb. destruct (utcoffset a), (utcoffset b), (utcoffset c);
    try discriminate; rewrite !Z.eqb_eq; lia.
Qed.

Lemma key_eqb_sym a b : key_eqb a b = key_eqb b a.
Proof.
  unfold key_eqb. destruct (as_number a) eqn:Ha, (as_number b) eqn:Hb; try reflexivity.
  - apply Qeq_bool_sym.
  - destruct a, b; try reflexivity; try discriminate.
    + apply String.eqb_sym.
    + apply datetime_eqb_sym.
Qed.

Lemma key_eqb_trans a b c :
  key_eqb a b = true -> key_eqb b c = true -> key_eqb a c = true.
Proof.
  unfold key_eqb.
  destruct (as_number a) eqn:Ha, (as_number b) eqn:Hb, (as_number c) eqn:Hc;
    try discriminate.
  - rewrite !Qeq_bool_iff. intros H1 H2. now rewrite H1.
  - destruct a; try discriminate; destruct b; try discriminate; destruct c; try discriminate;
      try reflexivity.
    + rewrite !String.eqb_eq. congruence.
    + apply datetime_eqb_trans.
Qed.

(** *** Sets as duplicate-free lists *)

Lemma set_mem_app x s t : set_mem x (s ++ t) = set_mem x s || set_mem x t.
Proof. unfold set_mem. apply existsb_app. Qed.

Lemma distinct_keys_snoc s x :
  distinct_keys s = true -> set_mem x s = false -> distinct_keys (s ++ [x]) = true.
Proof.
  induction s as [|y s IH]; cbn [distinct_keys app]; [reflexivity|].
  intros Hd Hx. apply andb_true_iff in Hd as [Hy Hs].
  cbn [set_mem existsb] in Hx. apply orb_false_iff in Hx as [Hxy Hxs].
  rewrite set_mem_app. cbn [set_mem existsb].
  rewrite (key_eqb_sym y x), Hxy. apply negb_true_iff in Hy.
  rewrite Hy. cbn [orb negb andb]. now apply IH.
Qed.

Lemma set_add_distinct x s : distinct_keys s = true -> distinct_keys (set_add x s) = true.
Proof.
  intros Hs. unfold set_add. destruct (set_mem x s) eqn:Hx; [exact Hs|].
  now apply distinct_keys_snoc.
Qed.

Lemma paper_id_set_distinct group s : paper_id_set group = Ok s -> distinct_keys s = true.
Proof.
  unfold paper_id_set.
  assert (H : forall acc, distinct_keys acc = true ->
            foldM (fun acc m =>
                     content ← py_get (item_memory m) "content" (PDict []);
                     pid ← py_get content "paper_id" PNone;
                     if hashable pid then Ok (set_add pid acc)
                     else Raise (Exn TypeError "unhashable type"))
                  group acc = Ok s -> distinct_keys s = true).
  { induction group as [|m group IH]; intros acc Hacc; cbn [foldM].
    - now intros [= <-].
    - destruct (py_get (item_memory m) "content" (PDict [])) as [content|e];
        cbn [mbind outcome_bind bind]; [|discriminate].
      destruct (py_get content "paper_id" PNone) as [pid|e];
        cbn [mbind outcome_bind bind]; [|discriminate].
      destruct (hashable pid); [|discriminate].
      apply IH. now apply set_add_distinct. }
  apply H. reflexivity.
Qed.

Lemma filter_or_length {A : Type} (p q : A -> bool) (l : list A) :
  (length (List.filter (fun x => p x || q x) l)
   <= length (List.filter p l) + length (List.filter q l))%nat.
Proof.
  induction l as [|x l IH]; cbn [List.filter]; [simpl; lia|].
  destruct (p x), (q x); cbn [orb length]; lia.
Qed.

Lemma matches_at_most_one (y : pyval) (s : list pyval) :
  distinct_keys s = true ->
  (length (List.filter (fun x => key_eqb x y) s) <= 1)%nat.
Proof.
  induction s as [|x s IH]; cbn [distinct_keys List.filter]; [simpl; lia|].
  intros Hd. apply andb_true_iff in Hd as [Hx Hs]. apply negb_true_iff in Hx.
  destruct (key_eqb x y) eqn:Hxy; [|now apply IH].
  cbn [length].
  assert (Hnone : List.filter (fun z => key_eqb z y) s = []).
  { clear IH Hs. induction s as [|z s IHs]; [reflexivity|].
    cbn [set_mem existsb] in Hx. apply orb_false_iff in Hx as [Hxz Hxs].
    cbn [List.filter]. destruct (key_eqb z y) eqn:Hzy.
    - rewrite (key_eqb_trans x y z Hxy) in Hxz; [discriminate|].
      now rewrite key_eqb_sym.
    - now apply IHs. }
  rewrite Hnone. simpl. lia.
Qed.

Lemma set_inter_length_l s1 s2 : (length (set_inter s1 s2) <= length s1)%nat.
Proof.
  unfold set_inter. induction s1 as [|x s1 IH]; cbn [List.filter]; [simpl; lia|].
  destruct (set_mem x s2); cbn [length]; lia.
Qed.

Lemma set_inter_length_r s1 s2 :
  distinct_keys s1 = true -> (length (set_inter s1 s2) <= length s2)%nat.
Proof.
  intros Hd. unfold set_inter. induction s2 as [|y s2 IH].
  - cbn [set_mem existsb length]. clear Hd.
    induction s1 as [|x s1 IHs]; cbn [List.filter length]; [lia | exact IHs].
  - cbn [set_mem existsb length].
    pose proof (filter_or_length (fun x => key_eqb x y) (fun x => existsb (key_eqb x) s2) s1).
    pose proof (matches_at_most_one y s1 Hd). unfold set_mem in IH. lia.
Qed.

Lemma ratio_unit (k m : Z) :
  (0 < k <= m)%Z -> (0 < inject_Z k / inject_Z m)%Q /\ (inject_Z k / inject_Z m <= 1)%Q.
Proof.
  intros H. destruct m as [|m|m]; try lia.
  unfold Qlt, Qle, Qdiv, Qmult, Qinv, inject_Z. simpl. lia.
Qed.

Lemma cross_references_from_sound concept1 group1 later acc refs :
  cross_references_from concept1 group1 later acc = Ok refs ->
  Forall sound_reference acc ->
  Forall sound_reference refs /\ (length refs <= length acc + length later)%nat.
Proof.
  unfold cross_references_from. revert acc.
  induction later as [|[concept2 group2] later IH]; intros acc; cbn [foldM].
  - intros [= <-] Hacc. split; [exact Hacc | lia].
  - destruct (paper_id_set group1) as [s1|e] eqn:Hs1; cbn [mbind outcome_bind bind];
      [|discriminate].
    destruct (paper_id_set group2) as [s2|e] eqn:Hs2; cbn [mbind outcome_bind bind];
      [|discriminate].
    destruct (set_inter s1 s2) as [|p overlap] eqn:Hov.
    + intros Hrun Hacc. destruct (IH _ Hrun Hacc) as [Hall Hlen].
      split; [exact Hall | cbn [length]; lia].
    + intros Hrun Hacc.
      pose proof (set_inter_length_l s1 s2) as Hl.
      pose proof (set_inter_length_r s1 s2 (paper_id_set_distinct _ _ Hs1)) as Hr.
      rewrite Hov in Hl, Hr.
      destruct (IH _ Hrun) as [Hall Hlen].
      * apply Forall_app. split; [exact Hacc|]. constructor; [|constructor].
        unfold sound_reference. cbn [xr_shared_papers xr_strength].
        split; [cbn [length]; lia|].
        apply ratio_unit. cbn [length] in *. lia.
      * split; [exact Hall|]. rewrite length_app in Hlen. cbn [length] in *. lia.
Qed.

Lemma build_from_sound concepts acc refs :
  build_from concepts acc = Ok refs ->
  Forall sound_reference acc ->
  Forall sound_reference refs /\
  (2 * length refs <= 2 * length acc + length concepts * (length concepts - 1))%nat.
Proof.
  revert acc. induction concepts as [|[concept1 group1] later IH]; intros acc;
    cbn [build_from].
  - intros [= <-] Hacc. split; [exact Hacc | simpl; lia].
  - destruct (cross_references_from concept1 group1 later acc) as [mid|e] eqn:Hmid;
      cbn [mbind outcome_bind bind]; [|discriminate].
    intros Hrun Hacc.
    destruct (cross_references_from_sound _ _ _ _ _ Hmid Hacc) as [Hsound Hlen].
    destruct (IH _ Hrun Hsound) as [Hall Hcount].
    split; [exact Hall|]. cbn [length]. nia.
Qed.

End CrossFacts.

Module CrossClaims.
Import Py Services MemoryConsolidation Spec CrossQuantities CrossFacts.

(** When [_build_cross_references] returns, every cross-reference shares at
    least one paper and has a strength above 0 and at most 1, and there are
    no more cross-references than pairs of concepts. *)
Theorem cross_references_bounded
    (concept_groups : list (pyval * list strength_item)) (refs : list cross_reference) :
  _build_cross_references concept_groups = Ok refs ->
  Forall (fun x => (1 <= xr_shared_papers x)%nat /\
                   (0 < xr_strength x)%Q /\ (xr_strength x <= 1)%Q) refs /\
  (2 * length refs <= length concept_groups * (length concept_groups - 1))%nat.
Proof.
  unfold _build_cross_references. intros Hrun.
  destruct (build_from_sound _ _ _ Hrun) as [Hall Hcount]; [constructor|].
  split; [exact Hall | simpl in Hcount; lia].
Qed.

(** Of three concepts, two share one paper: one cross-reference. *)
Lemma cross_references_bounded_witness :
  exists refs,
    _build_cross_references three_groups = Ok refs /\
    length refs = 1%nat /\
    Forall (fun x => (1 <= xr_shared_papers x)%nat /\
                     (0 < xr_strength x)%Q /\ (xr_strength x <= 1)%Q) refs.
Proof.
  destruct (_build_cross_references three_groups) as [refs|e] eqn:Hrun;
    [|cbv in Hrun; discriminate].
  destruct (cross_references_bounded three_groups refs Hrun) as [Hall _].
  exists refs. split; [reflexivity|]. split; [|exact Hall].
  cbv in Hrun. injection Hrun as <-. reflexivity.
Defined.

End CrossClaims.

(** ** The store of the repository *)

Module MockStoreFacts.
Import Py Services MockStore.

Lemma assoc_assoc_set_same {A : Type} (k : string) (v : A) (kv : list (string * A)) :
  assoc k (assoc_set k v kv) = Some v.
Proof.
  induction kv as [|[k0 v0] kv IH]; cbn [assoc_set assoc].
  - now rewrite String.eqb_refl.
  - destruct (String.eqb_spec k k0) as [->|Hk]; cbn [assoc].
    + now rewrite String.eqb_refl.
    + destruct (String.eqb_spec k k0); [contradiction | exact IH].
Qed.

Lemma assoc_assoc_set_other {A : Type} (k k' : string) (v : A) (kv : list (string * A)) :
  k <> k' -> assoc k (assoc_set k' v kv) = assoc k kv.
Proof.
  intros Hne. induction kv as [|[k0 v0] kv IH]; cbn [assoc_set assoc].
  - destruct (String.eqb_spec k k'); [contradiction | reflexivity].
  - destruct (String.eqb_spec k' k0) as [->|Hk0]; cbn [assoc].
    + destruct (String.eqb_spec k k0); [contradiction | reflexivity].
    + now rewrite IH.
Qed.

Lemma Ok_inj {A : Type} (a b : A) : Ok a = Ok b -> a = b.
Proof. now intros [= ->]. Qed.

(** What one write does to the memories of each researcher. *)
Lemma store_mock_memory_spec (mock_memories : store) (user_id : string)
    (memory_data : list (string * pyval)) :
  let id := PInt (Z.of_nat (length (memories_of mock_memories user_id)) + 1) in
  let out := _store_mock_memory mock_memories user_id memory_data in
  memories_of (fst out) user_id
  = (memories_of mock_memories user_id ++ [PDict (assoc_set "id" id memory_data)])%list /\
  (forall other, other <> user_id ->
     memories_of (fst out) other = memories_of mock_memories other) /\
  snd out = PDict [("id", id); ("status", PStr "success")].
Proof.
  cbn zeta. unfold _store_mock_memory, memories_of.
  destruct (assoc user_id mock_memories) as [l|] eqn:Hl; cbn [fst snd].
  - rewrite Hl, assoc_assoc_set_same. split; [reflexivity|]. split; [|reflexivity].
    intros other Hne. now rewrite assoc_assoc_set_other.
  - rewrite !assoc_assoc_set_same. split; [reflexivity|]. split; [|reflexivity].
    intros other Hne. now rewrite !assoc_assoc_set_other.
Qed.

Lemma well_filed_write (mock_memories : store) (user_id : string)
    (memory_data : list (string * pyval)) (paper_id : string) (content : list (string * pyval)) :
  well_filed mock_memories ->
  assoc "user_id" memory_data = Some (PStr user_id) ->
  assoc "content" memory_data = Some (PDict content) ->
  assoc "paper_id" content = Some (PStr paper_id) ->
  well_filed (fst (_store_mock_memory mock_memories user_id memory_data)).
Proof.
  intros Hwf Huser Hcontent Hpaper other position m.
  destruct (store_mock_memory_spec mock_memories user_id memory_data) as (Hsame & Hother & _).
  cbn zeta in *.
  destruct (String.eqb_spec other user_id) as [->|Hne].
  - rewrite Hsame. intros Hm. apply lookup_app_Some in Hm as [Hm|[Hpos Hm]].
    + now apply Hwf.
    + apply list_lookup_singleton_Some in Hm as [Hzero <-].
      assert (position = length (memories_of mock_memories user_id)) as -> by lia.
      unfold filed, paper_of. cbn [py_get].
      rewrite assoc_assoc_set_same.
      rewrite !assoc_assoc_set_other by discriminate. rewrite Huser, Hcontent.
      cbn [mbind outcome_bind bind py_get]. rewrite Hpaper.
      split; [reflexivity|]. split; [reflexivity|]. now exists paper_id.
  - rewrite (Hother other Hne). apply Hwf.
Qed.

Lemma well_filed_operation (mock_memories : store) (op : operation) :
  well_filed mock_memories -> well_filed (apply_operation mock_memories op).
Proof.
  intros Hwf. destruct op as [r p data now|r p a t now]; cbn [apply_operation].
  - destruct (store_paper_memory mock_memories r p data now) as [[s' receipt]|e] eqn:Hrun;
      [|exact Hwf].
    unfold store_paper_memory in Hrun.
    destruct (py_get data "title" PNone) as [title|?]; cbn [mbind outcome_bind bind] in Hrun;
      [|discriminate].
    destruct (py_get data "abstract" PNone) as [abstract|?];
      cbn [mbind outcome_bind bind] in Hrun; [|discriminate].
    destruct (py_get data "concepts" (PList [])) as [concepts|?];
      cbn [mbind outcome_bind bind] in Hrun; [|discriminate].
    destruct (py_get data "full_text" (PStr "")) as [full|?];
      cbn [mbind outcome_bind bind] in Hrun; [|discriminate].
    destruct (py_slice_to 100 full) as [full100|?];
      cbn [mbind outcome_bind bind] in Hrun; [|discriminate].
    apply Ok_inj in Hrun.
    match type of Hrun with
    | ?w = _ => replace s' with (fst w) by (now rewrite Hrun)
    end.
    eapply well_filed_write; [exact Hwf|reflexivity..].
  - unfold store_annotation. eapply well_filed_write; [exact Hwf|reflexivity..].
Qed.

Lemma well_filed_after (ops : list operation) : well_filed (after ops).
Proof.
  unfold after.
  assert (H : forall s, well_filed s -> well_filed (fold_left apply_operation ops s)).
  { induction ops as [|op ops IH]; intros s Hs; cbn [fold_left]; [exact Hs|].
    apply IH. now apply well_filed_operation. }
  apply H. intros user_id position m Hm. unfold memories_of in Hm. cbn in Hm.
  now rewrite lookup_nil in Hm.
Qed.

(** The loop of [recall_paper_memories] that keeps the memories of one
    paper. *)
Lemma recall_filter (paper_id : string) (l acc : list pyval) :
  Forall (fun m => exists p, paper_of m = Ok (PStr p)) l ->
  foldM (fun acc m =>
           content ← py_get m "content" (PDict []);
           pid ← py_get content "paper_id" PNone;
           Ok (if key_eqb pid (PStr paper_id) then (acc ++ [m])%list else acc))
        l acc
  = Ok (acc ++ List.filter (fun m => match paper_of m with
                                     | Ok pid => key_eqb pid (PStr paper_id)
                                     | Raise _ => false
                                     end) l)%list.
Proof.
  intros Hl. revert acc. induction Hl as [|m l (p & Hp) _ IH]; intros acc;
    cbn [foldM List.filter].
  - now rewrite app_nil_r.
  - unfold paper_of in *.
    destruct (py_get m "content" (PDict [])) as [content|e];
      cbn [mbind outcome_bind bind] in *; [|discriminate].
    rewrite Hp. cbn [mbind outcome_bind bind]. rewrite IH.
    destruct (key_eqb (PStr p) (PStr paper_id)); [now rewrite <- app_assoc | reflexivity].
Qed.

Lemma slice_to_bound {A : Type} (limit : Z) (l : list A) :
  (0 <= limit)%Z -> (Z.of_nat (length (slice_to limit l)) <= limit)%Z.
Proof.
  intros H. unfold slice_to. destruct (Z.leb_spec 0 limit); [|lia].
  rewrite length_firstn. lia.
Qed.

Lemma slice_to_all {A : Type} (limit : Z) (l : list A) :
  (Z.of_nat (length l) <= limit)%Z -> slice_to limit l = l.
Proof.
  intros H. unfold slice_to. destruct (Z.leb_spec 0 limit); [|lia].
  apply firstn_all2. lia.
Qed.

Lemma slice_to_subset {A : Type} (limit : Z) (l : list A) (P : A -> Prop) :
  Forall P l -> Forall P (slice_to limit l).
Proof.
  intros H. unfold slice_to. destruct (0 <=? limit)%Z; now apply Forall_take.
Qed.

End MockStoreFacts.

Module MockStoreClaims.
Import Py Services MockStore MockStoreFacts.

(** After any sequence of writes on a fresh [MockMemoryService], the memory
    at position [i] of a researcher has id [i + 1] and names that
    researcher: ids are the positions, counted from one, per researcher. *)
Theorem mock_store_ids (ops : list operation) (researcher_id : string) (i : nat) (m : pyval) :
  memories_of (after ops) researcher_id !! i = Some m ->
  py_get m "id" PNone = Ok (PInt (Z.of_nat i + 1)) /\
  py_get m "user_id" PNone = Ok (PStr researcher_id).
Proof.
  intros Hm. destruct (well_filed_after ops researcher_id i m Hm) as (Hid & Huser & _).
  split; assumption.
Qed.

(** After one paper and one annotation, the annotation has id 2. *)
Lemma mock_store_ids_witness :
  exists m,
    memories_of (after [StorePaper "researcher-1" "p-1" sample_paper "2026-01-01T00:00:00";
                        StoreAnnotation "researcher-1" "p-1" "Key finding" "note"
                          "2026-01-01T00:05:00"]) "researcher-1" !! 1%nat = Some m /\
    py_get m "id" PNone = Ok (PInt 2).
Proof.
  eexists. split; [reflexivity|].
  match goal with
  | |- py_get ?m _ _ = _ =>
      destruct (mock_store_ids
                  [StorePaper "researcher-1" "p-1" sample_paper "2026-01-01T00:00:00";
                   StoreAnnotation "researcher-1" "p-1" "Key finding" "note"
                     "2026-01-01T00:05:00"] "researcher-1" 1%nat m eq_refl) as [Hid _]
  end.
  exact Hid.
Defined.

(** On the store reached by any sequence of writes, [recall_paper_memories]
    never raises; with a limit that is not negative it returns at most that
    many memories, all of the researcher asked for, and, when a paper id is
    given, all of that paper. *)
Theorem mock_recall_contract (ops : list operation) (researcher_id paper_id : string)
    (limit : Z) :
  (exists found,
     recall_paper_memories (MockMemoryService (after ops)) researcher_id PNone limit
     = Ok found /\
     found = slice_to limit (memories_of (after ops) researcher_id)) /\
  (exists found,
     recall_paper_memories (MockMemoryService (after ops)) researcher_id (PStr paper_id) limit
     = Ok found /\
     Forall (fun m => py_get m "user_id" PNone = Ok (PStr researcher_id)) found /\
     (paper_id <> "" -> Forall (fun m => paper_of m = Ok (PStr paper_id)) found) /\
     ((0 <= limit)%Z -> (Z.of_nat (length found) <= limit)%Z)).
Proof.
  pose proof (well_filed_after ops) as Hwf.
  assert (Hall : Forall (fun m => py_get m "user_id" PNone = Ok (PStr researcher_id) /\
                                  exists p, paper_of m = Ok (PStr p))
                   (memories_of (after ops) researcher_id)).
  { apply Forall_lookup. intros i m Hm. destruct (Hwf researcher_id i m Hm) as (_ & Hu & Hp).
    split; assumption. }
  split.
  - eexists. split; reflexivity.
  - cbn [recall_paper_memories MockMemoryService truthy].
    fold (memories_of (after ops) researcher_id).
    destruct (String.eqb_spec paper_id "") as [->|Hne]; cbn [negb].
    + cbn [mbind outcome_bind bind]. eexists. split; [reflexivity|].
      split; [|split].
      * apply slice_to_subset. eapply List.Forall_impl; [|exact Hall]. now intros m [Hu _].
      * intros Hc. now contradiction Hc.
      * apply slice_to_bound.
    + rewrite recall_filter.
      2:{ eapply List.Forall_impl; [|exact Hall]. now intros m [_ Hp]. }
      cbn [mbind outcome_bind bind app]. eexists. split; [reflexivity|].
      split; [|split].
      * apply slice_to_subset. apply Forall_forall. intros m Hm.
        apply list_elem_of_In, List.filter_In in Hm as [Hm _].
        rewrite List.Forall_forall in Hall. now destruct (Hall m Hm).
      * intros _. apply slice_to_subset. apply Forall_forall. intros m Hm.
        apply list_elem_of_In, List.filter_In in Hm as [Hm Hk].
        rewrite List.Forall_forall in Hall. destruct (Hall m Hm) as (_ & p & Hp).
        rewrite Hp in Hk. cbn [key_eqb as_number] in Hk.
        apply String.eqb_eq in Hk. now subst p.
      * apply slice_to_bound.
Qed.

(** Storing a paper and recalling it: the write appends one memory to those
    of the researcher and to no other's; the memory carries the next id,
    which the receipt repeats, and the paper's id and title; and a recall of
    that paper with room for every memory returns what it returned before,
    followed by the new memory. *)
Theorem store_then_recall (ops : list operation) (researcher_id paper_id : string)
    (paper_data : pyval) (now : string) (mock_memories' : store) (receipt : pyval) :
  store_paper_memory (after ops) researcher_id paper_id paper_data now
  = Ok (mock_memories', receipt) ->
  exists m,
    memories_of mock_memories' researcher_id
    = (memories_of (after ops) researcher_id ++ [m])%list /\
    (forall other, other <> researcher_id ->
       memories_of mock_memories' other = memories_of (after ops) other) /\
    py_get m "id" PNone
    = Ok (PInt (Z.of_nat (length (memories_of (after ops) researcher_id)) + 1)) /\
    py_get receipt "id" PNone = py_get m "id" PNone /\
    paper_of m = Ok (PStr paper_id) /\
    (content ← py_get m "content" (PDict []); py_get content "title" PNone)
    = py_get paper_data "title" PNone /\
    (paper_id <> "" ->
     forall limit found,
       (Z.of_nat (length (memories_of mock_memories' researcher_id)) <= limit)%Z ->
       recall_paper_memories (MockMemoryService (after ops)) researcher_id
         (PStr paper_id) limit = Ok found ->
       recall_paper_memories (MockMemoryService mock_memories') researcher_id
         (PStr paper_id) limit = Ok (found ++ [m])%list).
Proof.
  intros Hrun.
  pose proof (well_filed_after ops) as Hwf.
  unfold store_paper_memory in Hrun.
  destruct (py_get paper_data "title" PNone) as [title|?] eqn:Htitle;
    cbn [mbind outcome_bind bind] in Hrun; [|discriminate].
  destruct (py_get paper_data "abstract" PNone) as [abstract|?];
    cbn [mbind outcome_bind bind] in Hrun; [|discriminate].
  destruct (py_get paper_data "concepts" (PList [])) as [concepts|?];
    cbn [mbind outcome_bind bind] in Hrun; [|discriminate].
  destruct (py_get paper_data "full_text" (PStr "")) as [full|?];
    cbn [mbind outcome_bind bind] in Hrun; [|discriminate].
  destruct (py_slice_to 100 full) as [full100|?];
    cbn [mbind outcome_bind bind] in Hrun; [|discriminate].
  apply Ok_inj in Hrun.
  match type of Hrun with
  | _store_mock_memory ?s ?u ?d = _ =>
      destruct (store_mock_memory_spec s u d) as (Hsame & Hother & Hreceipt)
  end.
  cbn zeta in *. rewrite Hrun in Hsame, Hother, Hreceipt. cbn [fst snd] in *.
  clear Hrun. subst receipt. set (s' := mock_memories') in *.
  eexists. split; [exact Hsame|]. split; [exact Hother|].
  split; [reflexivity|]. split; [reflexivity|].
  split; [reflexivity|]. split; [reflexivity|].
  intros Hne limit found Hlimit.
  cbn [recall_paper_memories MockMemoryService truthy].
  destruct (String.eqb_spec paper_id "") as [->|_]; [contradiction|]. cbn [negb].
  fold (memories_of (after ops) researcher_id). fold (memories_of s' researcher_id).
  assert (Hold : Forall (fun m => exists p, paper_of m = Ok (PStr p))
                   (memories_of (after ops) researcher_id)).
  { apply Forall_lookup. intros i m Hm. now destruct (Hwf researcher_id i m Hm) as (_ & _ & Hp). }
  rewrite Hsame in *. rewrite length_app in Hlimit. cbn [length] in Hlimit.
  rewrite !recall_filter.
  2:{ apply Forall_app. split; [exact Hold|]. constructor; [|constructor].
      exists paper_id. reflexivity. }
  2:{ exact Hold. }
  cbn [mbind outcome_bind bind app].
  rewrite List.filter_app. cbn [List.filter].
  match goal with
  | |- context [paper_of (PDict ?d)] =>
      change (paper_of (PDict d)) with (Ok (PStr paper_id) : outcome pyval)
  end.
  cbn [key_eqb as_number]. rewrite String.eqb_refl.
  set (old := List.filter _ (memories_of (after ops) researcher_id)).
  assert (Hlen : (length old <= length (memories_of (after ops) researcher_id))%nat).
  { unfold old. clear. induction (memories_of (after ops) researcher_id) as [|x l IH];
      cbn [List.filter length]; [lia|].
    destruct (match paper_of x with Ok pid => _ | Raise _ => false end); cbn [length]; lia. }
  rewrite !slice_to_all by (rewrite ?length_app; cbn [length]; lia).
  now intros [= <-].
Qed.

(** A paper stored on a fresh store is the one memory a recall returns. *)
Lemma store_then_recall_witness :
  exists mock_memories' receipt m,
    store_paper_memory (after []) "researcher-1" "p-1" sample_paper "2026-01-01T00:00:00"
    = Ok (mock_memories', receipt) /\
    recall_paper_memories (MockMemoryService mock_memories') "researcher-1" (PStr "p-1") 10
    = Ok [m] /\
    py_get m "id" PNone = Ok (PInt 1).
Proof.
  destruct (store_paper_memory (after []) "researcher-1" "p-1" sample_paper
              "2026-01-01T00:00:00") as [[mock_memories' receipt]|e] eqn:Hrun;
    [|cbv in Hrun; discriminate].
  destruct (store_then_recall [] "researcher-1" "p-1" sample_paper "2026-01-01T00:00:00"
              mock_memories' receipt Hrun)
    as (m & Hsame & _ & Hid & _ & _ & _ & Hrecall).
  exists mock_memories', receipt, m. split; [reflexivity|].
  split; [|exact Hid].
  apply (Hrecall ltac:(discriminate) 10%Z []).
  - rewrite Hsame. cbn. lia.
  - reflexivity.
Defined.

End MockStoreClaims.

(** ** The literature scout *)

Module ScoutFacts.
Import Py Services Agents.

Lemma already_read_false py_eq paper_id past_papers :
  already_read py_eq paper_id past_papers = Ok false ->
  forall p pid, In p past_papers -> py_get p "paper_id" PNone = Ok pid ->
                py_eq pid paper_id = false.
Proof.
  induction past_papers as [|q rest IH]; cbn [already_read]; [intros _ p pid []|].
  destruct (py_get q "paper_id" PNone) as [qid|e] eqn:Hq; cbn [bind]; [|discriminate].
  destruct (py_eq qid paper_id) eqn:Heq; [discriminate|].
  intros Hrest p pid [<-|Hin] Hp.
  - rewrite Hq in Hp. now injection Hp as <-.
  - now apply (IH Hrest p).
Qed.

(** The loop of [scout_papers]. *)
Lemma scout_loop py_eq (past_papers candidates acc recs : list pyval) :
  foldM (fun recommendations paper =>
           paper_id ← py_get paper "paper_id" PNone;
           bind (already_read py_eq paper_id past_papers) (fun read : bool =>
             if read then Ok recommendations
             else
               title ← py_get paper "title" PNone;
               Ok (recommendations ++
                   [PDict [("paper_id", paper_id);
                           ("title", title);
                           ("relevance_score", PFloat (8 # 10));
                           ("novelty_score", PFloat (9 # 10));
                           ("scout_reasoning",
                            PStr "Emerging paper in your research area")]])%list))
        candidates acc = Ok recs ->
  Forall (fun rec => is_recommendation rec /\ unread py_eq past_papers rec) acc ->
  Forall (fun rec => is_recommendation rec /\ unread py_eq past_papers rec) recs /\
  (length recs <= length acc + length candidates)%nat.
Proof.
  revert acc. induction candidates as [|paper candidates IH]; intros acc; cbn [foldM].
  - intros [= <-] Hacc. split; [exact Hacc | lia].
  - destruct (py_get paper "paper_id" PNone) as [paper_id|e];
      cbn [mbind outcome_bind bind]; [|discriminate].
    destruct (already_read py_eq paper_id past_papers) as [[|]|e] eqn:Hread;
      cbn [mbind outcome_bind bind]; [| |discriminate].
    + intros Hrun Hacc. destruct (IH _ Hrun Hacc) as [Hall Hlen].
      split; [exact Hall | cbn [length]; lia].
    + destruct (py_get paper "title" PNone) as [title|e];
        cbn [mbind outcome_bind bind]; [|discriminate].
      intros Hrun Hacc. destruct (IH _ Hrun) as [Hall Hlen].
      * apply Forall_app. split; [exact Hacc|]. constructor; [|constructor].
        split.
        -- split; [now exists paper_id|]. split; reflexivity.
        -- intros paper_id' p pid [= <-]. now apply already_read_false.
      * split; [exact Hall|]. rewrite length_app in Hlen. cbn [length] in *. lia.
Qed.

End ScoutFacts.

Module ScoutClaims.
Import Py Services Spec Agents ScoutFacts.

(** [scout_papers] never raises.  It recommends at most ten papers, each with
    a paper id, relevance 0.8 and novelty 0.9, and none that the researcher
    has read; it returns no recommendation at all when the insight cannot be
    stored, so none on the store of the repository, which has no
    [store_memory]. *)
Theorem scout_papers_contract
    (py_eq : pyval -> pyval -> bool) (memory_service : MemoryService)
    (graph_service : GraphService) (researcher_id research_interest now : string) :
  (exists recommendations,
     scout_papers py_eq memory_service graph_service researcher_id research_interest now
     = Ok recommendations /\
     (length recommendations <= 10)%nat /\
     Forall is_recommendation recommendations /\
     (forall past_papers,
        get_researcher_papers graph_service researcher_id = Ok past_papers ->
        Forall (unread py_eq past_papers) recommendations) /\
     ((forall content, fails (store_memory memory_service researcher_id "project" content)) ->
      recommendations = [])) /\
  (forall mock_memories,
     scout_papers py_eq (MockMemoryService mock_memories) graph_service researcher_id
       research_interest now = Ok []).
Proof.
  split.
  - unfold scout_papers, try_except.
    destruct (get_researcher_papers graph_service researcher_id) as [past_papers|e];
      cbn [mbind outcome_bind bind].
    2:{ exists []. split; [reflexivity|]. split; [simpl; lia|]. split; [constructor|].
        split; [discriminate | reflexivity]. }
    destruct (get_related_papers graph_service research_interest 20) as [candidates|e];
      cbn [mbind outcome_bind bind].
    2:{ exists []. split; [reflexivity|]. split; [simpl; lia|]. split; [constructor|].
        split; [intros; constructor | reflexivity]. }
    match goal with
    | |- context [foldM ?f (slice_to 10 candidates) []] =>
        destruct (foldM f (slice_to 10 candidates) []) as [recs|e] eqn:Hloop
    end; cbn [mbind outcome_bind bind].
    2:{ exists []. split; [reflexivity|]. split; [simpl; lia|]. split; [constructor|].
        split; [intros; constructor | reflexivity]. }
    destruct (scout_loop _ _ _ _ _ Hloop) as [Hall Hlen]; [constructor|].
    change (slice_to 10 candidates) with (firstn 10 candidates) in Hlen.
    rewrite length_firstn in Hlen. cbn [length] in Hlen.
    destruct (store_insight _ _ _ _ _ _) as [[]|e] eqn:Hstore; cbn [mbind outcome_bind bind].
    + exists recs. split; [reflexivity|]. split; [lia|].
      split; [eapply List.Forall_impl; [|exact Hall]; now intros rec [Hrec _]|].
      split.
      * intros past [= <-]. eapply List.Forall_impl; [|exact Hall]. now intros rec [_ Hrec].
      * intros Hfail. unfold store_insight in Hstore.
        destruct (Hfail (PDict
                           [("type", PStr "agent_insight"); ("agent_id", PStr "scout_001");
                            ("agent_role", PStr "literature_scout");
                            ("insight",
                             PDict [("action", PStr "paper_scouting");
                                    ("topic", PStr research_interest);
                                    ("papers_found", PInt (Z.of_nat (length recs)));
                                    ("recommendations", PList (slice_to 5 recs))]);
                            ("timestamp", PStr now)])) as (e & He).
        rewrite He in Hstore. discriminate.
    + exists []. split; [reflexivity|]. split; [simpl; lia|]. split; [constructor|].
      split; [intros; constructor | reflexivity].
  - intros mock_memories. unfold scout_papers, try_except.
    destruct (get_researcher_papers graph_service researcher_id) as [past_papers|e];
      cbn [mbind outcome_bind bind]; [|reflexivity].
    destruct (get_related_papers graph_service research_interest 20) as [candidates|e];
      cbn [mbind outcome_bind bind]; [|reflexivity].
    match goal with
    | |- context [foldM ?f (slice_to 10 candidates) []] =>
        destruct (foldM f (slice_to 10 candidates) []) as [recs|e]
    end; cbn [mbind outcome_bind bind]; reflexivity.
Qed.

End ScoutClaims.

(** ** The personalized graph view *)

Module GraphViewFacts.
Import Py Services MemoryConsolidation Spec StrengthFacts WeakFacts CrossQuantities CrossFacts
  GraphView.

Lemma strength_of_range iso now memory : (0 <= strength_of iso now memory <= 1)%R.
Proof.
  unfold strength_of. destruct (strength_total iso memory now) as (r & Hr & Hrange).
  now rewrite Hr.
Qed.

Lemma key_eqb_refl (v : pyval) : hashable v = true -> key_eqb v v = true.
Proof.
  intros Hh. unfold key_eqb. destruct v; try discriminate; cbn.
  - reflexivity.
  - apply Qeq_bool_iff. reflexivity.
  - apply Qeq_bool_iff. reflexivity.
  - apply Qeq_bool_iff. reflexivity.
  - apply String.eqb_refl.
  - unfold datetime_eqb. destruct (utcoffset d); apply Z.eqb_refl.
Qed.

(** *** One update of [concept_strengths] *)

Lemma strengthen_keys concept strength cs :
  List.map fst (strengthen concept strength cs)
  = (List.map fst cs ++ if set_mem concept (List.map fst cs) then [] else [concept])%list.
Proof.
  unfold set_mem.
  induction cs as [|[k v] cs IH]; cbn [strengthen List.map existsb fst app]; [reflexivity|].
  destruct (key_eqb concept k); cbn [List.map fst orb app].
  - now rewrite app_nil_r.
  - now rewrite IH.
Qed.

Lemma strengthen_grows concept strength cs k v :
  In (k, v) cs ->
  exists v', In (k, v') (strengthen concept strength cs) /\ (v <= v')%R.
Proof.
  induction cs as [|[k0 v0] cs IH]; cbn [strengthen]; [intros []|].
  intros [[= -> ->]|Hin].
  - destruct (key_eqb concept k).
    + exists (Rmax v strength). split; [now left | apply Rmax_l].
    + exists v. split; [now left | lra].
  - destruct (key_eqb concept k0).
    + exists v. split; [now right | lra].
    + destruct (IH Hin) as (v' & Hin' & Hle). exists v'. split; [now right | exact Hle].
Qed.

Lemma strengthen_covers concept strength cs :
  hashable concept = true ->
  exists k v, In (k, v) (strengthen concept strength cs) /\
              key_eqb concept k = true /\ (strength <= v)%R.
Proof.
  intros Hh. induction cs as [|[k0 v0] cs IH]; cbn [strengthen].
  - exists concept, strength. split; [now left|]. split; [now apply key_eqb_refl | lra].
  - destruct (key_eqb concept k0) eqn:Hk.
    + exists k0, (Rmax v0 strength). split; [now left|]. split; [exact Hk | apply Rmax_r].
    + destruct IH as (k & v & Hin & Hkey & Hle). exists k, v.
      split; [now right|]. now split.
Qed.

Lemma strengthen_origin concept strength cs k v :
  hashable concept = true ->
  In (k, v) (strengthen concept strength cs) ->
  In (k, v) cs \/ (key_eqb concept k = true /\ v = strength).
Proof.
  intros Hh. induction cs as [|[k0 v0] cs IH]; cbn [strengthen].
  - intros [[= <- <-]|[]]. right. split; [now apply key_eqb_refl | reflexivity].
  - destruct (key_eqb concept k0) eqn:Hk.
    + intros [[= <- <-]|Hin]; [|left; now right].
      unfold Rmax. destruct (Rle_dec v0 strength); [right; now split | left; now left].
    + intros [[= <- <-]|Hin]; [left; now left|].
      destruct (IH Hin) as [Hold|Hnew]; [left; now right | now right].
Qed.

Lemma tracks_step seen cs concept strength :
  hashable concept = true ->
  tracks seen cs -> tracks (seen ++ [(concept, strength)]) (strengthen concept strength cs).
Proof.
  intros Hh (Horigin & Hcover & Hdistinct). split; [|split].
  - intros k v Hin. destruct (strengthen_origin _ _ _ _ _ Hh Hin) as [Hold|[Hkey ->]].
    + destruct (Horigin k v Hold) as (c & Hc & Hck). exists c.
      split; [apply in_or_app; now left | exact Hck].
    + exists concept. split; [apply in_or_app; right; now left | exact Hkey].
  - intros c s Hin. apply in_app_or in Hin as [Hin|[[= <- <-]|[]]].
    + destruct (Hcover c s Hin) as (k & v & Hkv & Hck & Hle).
      destruct (strengthen_grows concept strength cs k v Hkv) as (v' & Hin' & Hle').
      exists k, v'. split; [exact Hin'|]. split; [exact Hck | lra].
    + now apply strengthen_covers.
  - rewrite strengthen_keys. destruct (set_mem concept (List.map fst cs)) eqn:Hmem.
    + now rewrite app_nil_r.
    + now apply distinct_keys_snoc.
Qed.

Lemma tracks_fold (ms seen cs : list (pyval * R)) :
  Forall (fun m => hashable (fst m) = true) ms ->
  tracks seen cs ->
  tracks (seen ++ ms) (fold_left (fun cs m => strengthen (fst m) (snd m) cs) ms cs).
Proof.
  intros Hms. revert seen cs.
  induction Hms as [|[c s] ms Hc _ IH]; intros seen cs Htracks; cbn [fold_left].
  - now rewrite app_nil_r.
  - replace (seen ++ (c, s) :: ms)%list with ((seen ++ [(c, s)]) ++ ms)%list
      by now rewrite <- app_assoc.
    apply IH. now apply tracks_step.
Qed.

(** Two entries of a dict with equal keys are one entry. *)
Lemma distinct_keys_unique (cs : list (pyval * R)) k v k' v' :
  distinct_keys (List.map fst cs) = true ->
  In (k, v) cs -> In (k', v') cs -> key_eqb k k' = true -> (k, v) = (k', v').
Proof.
  induction cs as [|[k0 v0] cs IH]; cbn [List.map fst distinct_keys]; [intros _ []|].
  intros Hd. apply andb_true_iff in Hd as [Hhead Htail]. apply negb_true_iff in Hhead.
  assert (Hnone : forall k1 v1, In (k1, v1) cs -> key_eqb k0 k1 = false).
  { intros k1 v1 Hin. unfold set_mem in Hhead.
    destruct (key_eqb k0 k1) eqn:Hk; [|reflexivity].
    assert (Hex : existsb (key_eqb k0) (List.map fst cs) = true).
    { apply existsb_exists. exists k1. split; [|exact Hk].
      apply in_map_iff. now exists (k1, v1). }
    congruence. }
  intros [[= <- <-]|Hin] [[= <- <-]|Hin'] Hkey.
  - reflexivity.
  - rewrite (Hnone _ _ Hin') in Hkey. discriminate.
  - rewrite key_eqb_sym, (Hnone _ _ Hin) in Hkey. discriminate.
  - now apply IH.
Qed.

(** *** The loops of the view *)

Lemma inner_loop_fold (strength : R) (concepts : list pyval) (cs res : list (pyval * R)) :
  foldM (fun concept_strengths concept =>
           if hashable concept
           then Ok (strengthen concept strength concept_strengths)
           else Raise (Exn TypeError "unhashable type"))
        concepts cs = Ok res ->
  Forall (fun c => hashable c = true) concepts /\
  res = fold_left (fun cs m => strengthen (fst m) (snd m) cs)
                  (List.map (fun c => (c, strength)) concepts) cs.
Proof.
  revert cs. induction concepts as [|c concepts IH]; intros cs; cbn [foldM List.map fold_left].
  - intros [= <-]. split; [constructor | reflexivity].
  - destruct (hashable c) eqn:Hc; cbn [mbind outcome_bind bind]; [|discriminate].
    intros Hrun. destruct (IH _ Hrun) as [Hall ->]. split; [now constructor | reflexivity].
Qed.

Lemma concept_strengths_fold iso now (memories : list pyval) (cs res : list (pyval * R)) :
  concept_strengths_of iso memories now cs = Ok res ->
  Forall (fun m => hashable (fst m) = true) (mentions iso now memories) /\
  res = fold_left (fun cs m => strengthen (fst m) (snd m) cs) (mentions iso now memories) cs.
Proof.
  unfold concept_strengths_of, mentions. revert cs.
  induction memories as [|memory memories IH]; intros cs; cbn [foldM flat_map fold_left].
  - intros [= <-]. split; [constructor | reflexivity].
  - unfold concepts_of at 1 3, strength_of at 1 3.
    destruct (py_get memory "content" (PDict [])) as [content|e];
      cbn [mbind outcome_bind bind]; [|discriminate].
    destruct (py_get content "key_concepts" (PList [])) as [concepts|e];
      cbn [mbind outcome_bind bind]; [|discriminate].
    rewrite (strength_of_memory iso now memory). cbn [mbind outcome_bind bind].
    destruct (py_iter concepts) as [items|e]; cbn [mbind outcome_bind bind]; [|discriminate].
    match goal with
    | |- context [foldM ?f items cs] => destruct (foldM f items cs) as [mid|e] eqn:Hinner
    end; cbn [mbind outcome_bind bind]; [|discriminate].
    intros Hrun. destruct (inner_loop_fold _ _ _ _ Hinner) as [Hitems ->].
    destruct (IH _ Hrun) as [Hrest ->].
    split.
    + apply Forall_app. split; [|exact Hrest].
      apply Forall_forall. intros m Hm.
      apply list_elem_of_In, in_map_iff in Hm as (c & <- & Hc).
      rewrite List.Forall_forall in Hitems. now apply Hitems.
    + now rewrite fold_left_app.
Qed.

Lemma paper_nodes_only (papers : list pyval) (nodes : list node) :
  mapM (fun paper =>
          paper_id ← py_get paper "paper_id" PNone;
          title ← py_get paper "title" PNone;
          Ok (PaperNode paper_id title))
       papers = Ok nodes ->
  concept_entries nodes = [] /\ Forall well_formed_node nodes /\ length nodes = length papers.
Proof.
  revert nodes. induction papers as [|paper papers IH]; intros nodes; cbn [mapM].
  - intros [= <-]. split; [reflexivity|]. split; [constructor | reflexivity].
  - destruct (py_get paper "paper_id" PNone) as [pid|e]; cbn [mbind outcome_bind bind];
      [|discriminate].
    destruct (py_get paper "title" PNone) as [title|e]; cbn [mbind outcome_bind bind];
      [|discriminate].
    destruct (mapM _ papers) as [rest|e]; cbn [mbind outcome_bind bind]; [|discriminate].
    intros [= <-]. destruct (IH rest eq_refl) as (Hnone & Hwf & Hlen).
    split; [exact Hnone|]. split; [constructor; [exact I | exact Hwf] | cbn; lia].
Qed.

Lemma paper_nodes_kind (papers : list pyval) (nodes : list node) :
  mapM (fun paper =>
          paper_id ← py_get paper "paper_id" PNone;
          title ← py_get paper "title" PNone;
          Ok (PaperNode paper_id title))
       papers = Ok nodes ->
  Forall (fun n => is_concept_node n = false) nodes.
Proof.
  revert nodes. induction papers as [|paper papers IH]; intros nodes; cbn [mapM].
  - intros [= <-]. constructor.
  - destruct (py_get paper "paper_id" PNone) as [pid|e]; cbn [mbind outcome_bind bind];
      [|discriminate].
    destruct (py_get paper "title" PNone) as [title|e]; cbn [mbind outcome_bind bind];
      [|discriminate].
    destruct (mapM _ papers) as [rest|e]; cbn [mbind outcome_bind bind]; [|discriminate].
    intros [= <-]. constructor; [reflexivity | now apply IH].
Qed.

Lemma concept_nodes_entries (cs : list (pyval * R)) :
  concept_entries
    (List.map (fun entry : pyval * R =>
                 ConceptNode (fst entry) (snd entry) (_strength_to_mastery (snd entry))
                   (snd entry * 100)%R) cs) = cs.
Proof.
  unfold concept_entries. induction cs as [|[k v] cs IH]; cbn [List.map flat_map fst snd app];
    [reflexivity | now rewrite IH].
Qed.

Lemma edges_from_sound bridge concept1 strength1 later acc edges :
  edges_from bridge concept1 strength1 later acc = Ok edges ->
  (0 <= strength1 <= 1)%R -> Forall (fun m => (0 <= snd m <= 1)%R) later ->
  Forall sound_edge acc ->
  Forall sound_edge edges /\ (length edges <= length acc + length later)%nat.
Proof.
  unfold edges_from. intros Hrun H1 Hlater. revert acc Hrun.
  induction Hlater as [|[concept2 strength2] later H2 _ IH]; intros acc; cbn [foldM].
  - intros [= <-] Hacc. split; [exact Hacc | lia].
  - destruct (bridge concept1 concept2) as [[|b bridges]|e]; cbn [mbind outcome_bind bind];
      [| |discriminate].
    + intros Hrun Hacc. destruct (IH _ Hrun Hacc) as [Hall Hlen].
      split; [exact Hall | cbn [length]; lia].
    + intros Hrun Hacc. destruct (IH _ Hrun) as [Hall Hlen].
      * apply Forall_app. split; [exact Hacc|]. constructor; [|constructor].
        unfold sound_edge. cbn [ed_weight ed_bridge_concepts snd] in *.
        split; [lra|]. split; [discriminate|].
        change (slice_to 3 (b :: bridges)) with (firstn 3 (b :: bridges)).
        rewrite length_firstn. lia.
      * split; [exact Hall|]. rewrite length_app in Hlen. cbn [length] in *. lia.
Qed.

Lemma edges_of_sound bridge cs acc edges :
  edges_of bridge cs acc = Ok edges ->
  Forall (fun m => (0 <= snd m <= 1)%R) cs ->
  Forall sound_edge acc ->
  Forall sound_edge edges /\
  (2 * length edges <= 2 * length acc + length cs * (length cs - 1))%nat.
Proof.
  intros Hrun Hcs. revert acc Hrun.
  induction Hcs as [|[concept1 strength1] later H1 Hlater IH]; intros acc; cbn [edges_of].
  - intros [= <-] Hacc. split; [exact Hacc | simpl; lia].
  - destruct (edges_from bridge concept1 strength1 later acc) as [mid|e] eqn:Hmid;
      cbn [mbind outcome_bind bind]; [|discriminate].
    intros Hrun Hacc.
    destruct (edges_from_sound _ _ _ _ _ _ Hmid H1 Hlater Hacc) as [Hsound Hlen].
    destruct (IH _ Hrun Hsound) as [Hall Hcount].
    split; [exact Hall|]. cbn [length]. nia.
Qed.

Lemma tracked_range iso now memories cs :
  tracks (mentions iso now memories) cs -> Forall (fun m => (0 <= snd m <= 1)%R) cs.
Proof.
  intros (Horigin & _ & _). apply Forall_forall. intros [k v] Hin.
  apply list_elem_of_In in Hin. destruct (Horigin k v Hin) as (c & Hc & _).
  unfold mentions in Hc. apply in_flat_map in Hc as (memory & _ & Hc).
  apply in_map_iff in Hc as (c' & [= _ <-] & _). apply strength_of_range.
Qed.

Lemma tracked_strongest iso now memories cs :
  Forall (fun m => hashable (fst m) = true) (mentions iso now memories) ->
  tracks (mentions iso now memories) cs -> Forall (strongest iso now memories) cs.
Proof.
  intros Hhash (Horigin & Hcover & Hdistinct). apply Forall_forall. intros [k v] Hin.
  apply list_elem_of_In in Hin. split; cbn [fst snd].
  - destruct (Horigin k v Hin) as (c & Hc & Hck).
    unfold mentions in Hc. apply in_flat_map in Hc as (memory & Hm & Hc).
    apply in_map_iff in Hc as (c' & [= -> <-] & Hc).
    exists memory, c. repeat split; assumption.
  - intros memory concept Hm Hc Hkey.
    assert (Hmention : In (concept, strength_of iso now memory) (mentions iso now memories)).
    { unfold mentions. apply in_flat_map. exists memory. split; [exact Hm|].
      apply in_map_iff. now exists concept. }
    destruct (Hcover _ _ Hmention) as (k' & v' & Hin' & Hck' & Hle).
    assert (Heq : (k', v') = (k, v)).
    { apply (distinct_keys_unique cs); try assumption.
      apply (key_eqb_trans k' concept k); [|exact Hkey].
      now rewrite key_eqb_sym. }
    injection Heq as _ ->. exact Hle.
Qed.

End GraphViewFacts.

Module GraphViewClaims.
Import Py Services MemoryConsolidation Spec StrengthFacts WeakFacts CrossQuantities CrossFacts
  GraphView GraphViewFacts.

(** When [personalized_graph_view] returns its view, its nodes are the
    concept nodes followed by the paper nodes, as many as the statistics
    count concepts and papers read; every concept node has a strength in
    [0,1], the mastery label of that strength and a size of a hundred times
    it; every concept of a recalled memory has a node; and the strength of a
    concept node is that of the strongest recalled memory that carries the
    concept. *)
Theorem personalized_graph_view_concepts
    (fromisoformat : string -> outcome datetime) (memory_service : MemoryService)
    (graph_service : GraphService)
    (find_bridge_concepts : pyval -> pyval -> outcome (list pyval))
    (researcher_id : string) (now : datetime) (memories : list pyval) (view : graph_view) :
  recall_paper_memories memory_service researcher_id PNone 50 = Ok memories ->
  personalized_graph_view fromisoformat memory_service graph_service find_bridge_concepts
    researcher_id now = Ok (Result view) ->
  Forall well_formed_node (gv_nodes view) /\
  Forall (strongest fromisoformat now memories) (concept_entries (gv_nodes view)) /\
  (forall memory concept,
     In memory memories -> In concept (concepts_of memory) ->
     exists entry, In entry (concept_entries (gv_nodes view)) /\
                   key_eqb concept (fst entry) = true) /\
  length (concept_entries (gv_nodes view)) = st_total_concepts (gv_graph_statistics view) /\
  length (gv_nodes view)
  = (st_total_concepts (gv_graph_statistics view)
     + st_papers_read (gv_graph_statistics view))%nat /\
  exists concept_nodes paper_nodes,
    gv_nodes view = (concept_nodes ++ paper_nodes)%list /\
    Forall (fun n => is_concept_node n = true) concept_nodes /\
    Forall (fun n => is_concept_node n = false) paper_nodes /\
    length concept_nodes = st_total_concepts (gv_graph_statistics view) /\
    length paper_nodes = st_papers_read (gv_graph_statistics view).
Proof.
  intros Hrecall. unfold personalized_graph_view, try_except.
  rewrite Hrecall. cbn [mbind outcome_bind bind].
  destruct (concept_strengths_of fromisoformat memories now []) as [cs|e] eqn:Hcs;
    cbn [mbind outcome_bind bind]; [|discriminate].
  destruct (get_researcher_papers graph_service researcher_id) as [papers|e];
    cbn [mbind outcome_bind bind]; [|discriminate].
  destruct (mapM _ papers) as [paper_nodes|e] eqn:Hpapers;
    cbn [mbind outcome_bind bind]; [|discriminate].
  destruct (edges_of find_bridge_concepts cs []) as [edges|e];
    cbn [mbind outcome_bind bind]; [|discriminate].
  intros [= <-]. cbn [gv_nodes gv_graph_statistics st_total_concepts st_papers_read].
  destruct (concept_strengths_fold _ _ _ _ _ Hcs) as [Hhash ->].
  set (cs := fold_left _ (mentions fromisoformat now memories) []).
  assert (Htracks : tracks (mentions fromisoformat now memories) cs).
  { apply (tracks_fold _ [] [] Hhash). split; [intros k v []|]. split; [intros c s []|].
    reflexivity. }
  destruct (paper_nodes_only _ _ Hpapers) as (Hnone & Hwf & Hlen).
  assert (Hentries : concept_entries
                       (List.map (fun entry : pyval * R =>
                                    ConceptNode (fst entry) (snd entry)
                                      (_strength_to_mastery (snd entry))
                                      (snd entry * 100)%R) cs ++ paper_nodes) = cs).
  { unfold concept_entries. rewrite flat_map_app.
    fold (concept_entries paper_nodes). rewrite Hnone, app_nil_r.
    apply concept_nodes_entries. }
  rewrite Hentries.
  split; [|split; [|split; [|split; [|split]]]].
  - apply Forall_app. split; [|exact Hwf].
    apply Forall_forall. intros n Hn.
    apply list_elem_of_In, in_map_iff in Hn as ([k v] & <- & Hin). cbn [fst snd].
    pose proof (tracked_range _ _ _ _ Htracks) as Hrange.
    rewrite List.Forall_forall in Hrange. specialize (Hrange _ Hin).
    split; [exact Hrange|]. split; reflexivity.
  - now apply tracked_strongest.
  - intros memory concept Hm Hc. destruct Htracks as (_ & Hcover & _).
    destruct (Hcover concept (strength_of fromisoformat now memory)) as (k & v & Hin & Hk & _).
    { unfold mentions. apply in_flat_map. exists memory. split; [exact Hm|].
      apply in_map_iff. now exists concept. }
    exists (k, v). split; [exact Hin | exact Hk].
  - reflexivity.
  - rewrite length_app, length_map, Hlen. reflexivity.
  - eexists. exists paper_nodes. split; [reflexivity|].
    split; [|split; [exact (paper_nodes_kind _ _ Hpapers)|split]].
    + apply Forall_forall. intros n Hn.
      now apply list_elem_of_In, in_map_iff in Hn as (entry & <- & _).
    + apply length_map.
    + exact Hlen.
Qed.

(** The memory of a paper on transformers and attention gives two concept
    nodes; the graph store of the repository adds one paper node after
    them. *)
Lemma personalized_graph_view_concepts_witness :
  exists view,
    personalized_graph_view no_parser (sample_store [transformer_memory] [] [])
      MockGraphService two_bridges "researcher-1" new_year_2026 = Ok (Result view) /\
    Forall well_formed_node (gv_nodes view) /\
    length (concept_entries (gv_nodes view)) = 2%nat /\
    length (gv_nodes view) = 3%nat /\
    List.map is_concept_node (gv_nodes view) = [true; true; false].
Proof.
  assert (Hrun : exists view,
            personalized_graph_view no_parser (sample_store [transformer_memory] [] [])
              MockGraphService two_bridges "researcher-1" new_year_2026 = Ok (Result view) /\
            st_total_concepts (gv_graph_statistics view) = 2%nat /\
            st_papers_read (gv_graph_statistics view) = 1%nat)
    by (eexists; split; [reflexivity | split; reflexivity]).
  destruct Hrun as (view & Hrun & Htotal & Hpapers). exists view.
  destruct (personalized_graph_view_concepts no_parser
              (sample_store [transformer_memory] [] []) MockGraphService two_bridges
              "researcher-1" new_year_2026 [transformer_memory] view eq_refl Hrun)
    as (Hwf & _ & _ & Hentries & Hnodes & concept_nodes & paper_nodes & Horder
        & Hconcepts & Hpaper_nodes & Hfirst & Hlast).
  split; [exact Hrun|]. split; [exact Hwf|].
  rewrite Hentries, Hnodes, Htotal, Hpapers.
  split; [reflexivity|]. split; [reflexivity|].
  rewrite Htotal in Hfirst. rewrite Hpapers in Hlast. rewrite Horder.
  destruct concept_nodes as [|a [|b [|c rest]]]; try discriminate.
  destruct paper_nodes as [|p [|q rest]]; try discriminate.
  apply Forall_cons in Hconcepts as [Ha Hconcepts].
  apply Forall_cons in Hconcepts as [Hb _].
  apply Forall_cons in Hpaper_nodes as [Hp _].
  cbn [app List.map]. now rewrite Ha, Hb, Hp.
Defined.

(** When [personalized_graph_view] returns its view, strong and weak
    concepts together are no more than the concepts; every edge has a weight
    in [0,1] and between one and three bridge concepts; and there are no
    more edges than pairs of concepts. *)
Theorem personalized_graph_view_edges
    (fromisoformat : string -> outcome datetime) (memory_service : MemoryService)
    (graph_service : GraphService)
    (find_bridge_concepts : pyval -> pyval -> outcome (list pyval))
    (researcher_id : string) (now : datetime) (view : graph_view) :
  personalized_graph_view fromisoformat memory_service graph_service find_bridge_concepts
    researcher_id now = Ok (Result view) ->
  (st_strong_concepts (gv_graph_statistics view) + st_weak_concepts (gv_graph_statistics view)
   <= st_total_concepts (gv_graph_statistics view))%nat /\
  Forall (fun e => (0 <= ed_weight e <= 1)%R /\ ed_bridge_concepts e <> [] /\
                   (length (ed_bridge_concepts e) <= 3)%nat) (gv_edges view) /\
  (2 * length (gv_edges view)
   <= st_total_concepts (gv_graph_statistics view)
      * (st_total_concepts (gv_graph_statistics view) - 1))%nat.
Proof.
  unfold personalized_graph_view, try_except.
  destruct (recall_paper_memories memory_service researcher_id PNone 50) as [memories|e];
    cbn [mbind outcome_bind bind]; [|discriminate].
  destruct (concept_strengths_of fromisoformat memories now []) as [cs|e] eqn:Hcs;
    cbn [mbind outcome_bind bind]; [|discriminate].
  destruct (get_researcher_papers graph_service researcher_id) as [papers|e];
    cbn [mbind outcome_bind bind]; [|discriminate].
  destruct (mapM _ papers) as [paper_nodes|e] eqn:Hpapers;
    cbn [mbind outcome_bind bind]; [|discriminate].
  destruct (edges_of find_bridge_concepts cs []) as [edges|e] eqn:Hedges;
    cbn [mbind outcome_bind bind]; [|discriminate].
  intros [= <-].
  cbn [gv_edges gv_graph_statistics st_total_concepts st_strong_concepts st_weak_concepts].
  destruct (concept_strengths_fold _ _ _ _ _ Hcs) as [Hhash Hfold].
  assert (Htracks : tracks (mentions fromisoformat now memories) cs).
  { rewrite Hfold. apply (tracks_fold _ [] [] Hhash). split; [intros k v []|].
    split; [intros c s []|]. reflexivity. }
  pose proof (tracked_range _ _ _ _ Htracks) as Hrange.
  destruct (edges_of_sound _ _ _ _ Hedges Hrange) as [Hsound Hcount]; [constructor|].
  split; [|split; [exact Hsound | simpl in Hcount; lia]].
  rewrite <- (length_map snd cs).
  apply (ReportFacts.strong_weak_bound 0.3). lra.
Qed.

(** Two concepts with a bridge between them: one edge. *)
Lemma personalized_graph_view_edges_witness :
  exists view,
    personalized_graph_view no_parser (sample_store [transformer_memory] [] [])
      MockGraphService two_bridges "researcher-1" new_year_2026 = Ok (Result view) /\
    length (gv_edges view) = 1%nat /\
    Forall (fun e => (0 <= ed_weight e <= 1)%R /\ ed_bridge_concepts e <> [] /\
                     (length (ed_bridge_concepts e) <= 3)%nat) (gv_edges view).
Proof.
  assert (Hrun : exists view,
            personalized_graph_view no_parser (sample_store [transformer_memory] [] [])
              MockGraphService two_bridges "researcher-1" new_year_2026 = Ok (Result view) /\
            length (gv_edges view) = 1%nat)
    by (eexists; split; reflexivity).
  destruct Hrun as (view & Hrun & Hone). exists view.
  destruct (personalized_graph_view_edges no_parser
              (sample_store [transformer_memory] [] []) MockGraphService two_bridges
              "researcher-1" new_year_2026 view Hrun) as (_ & Hsound & _).
  split; [exact Hrun|]. split; [exact Hone | exact Hsound].
Defined.

End GraphViewClaims.

(** ** Grouping memories by concept *)

Module GroupFacts.
Import Py Services MemoryConsolidation Spec CrossQuantities CrossFacts GraphView GraphViewFacts
  GroupQuantities.

Lemma file_item_keys groups mention :
  List.map fst (file_item groups mention)
  = (List.map fst groups
     ++ if set_mem (fst mention) (List.map fst groups) then [] else [fst mention])%list.
Proof.
  unfold file_item, set_mem. destruct mention as [c item]. cbn [fst snd].
  induction groups as [|[k l] groups IH]; cbn [vassoc_update List.map existsb fst app];
    [reflexivity|].
  destruct (key_eqb c k); cbn [List.map fst orb app].
  - now rewrite app_nil_r.
  - now rewrite IH.
Qed.

(** Groups only grow. *)
Lemma file_item_keeps groups mention k members :
  In (k, members) groups ->
  exists members', In (k, members') (file_item groups mention) /\
                   (forall x, In x members -> In x members').
Proof.
  unfold file_item. destruct mention as [c item]. cbn [fst snd].
  induction groups as [|[k0 l0] groups IH]; cbn [vassoc_update]; [intros []|].
  intros [[= -> ->]|Hin].
  - destruct (key_eqb c k).
    + exists (members ++ [item])%list. split; [now left|].
      intros x Hx. apply in_or_app. now left.
    + exists members. split; [now left | auto].
  - destruct (key_eqb c k0).
    + exists members. split; [now right | auto].
    + destruct (IH Hin) as (m' & Hin' & Hsub). exists m'. split; [now right | exact Hsub].
Qed.

Lemma file_item_files groups c item :
  hashable c = true ->
  exists k members, In (k, members) (file_item groups (c, item)) /\
                    key_eqb c k = true /\ In item members.
Proof.
  intros Hh. unfold file_item. cbn [fst snd].
  induction groups as [|[k0 l0] groups IH]; cbn [vassoc_update].
  - exists c, [item]. split; [now left|]. split; [now apply key_eqb_refl | now left].
  - destruct (key_eqb c k0) eqn:Hk.
    + exists k0, (l0 ++ [item])%list. split; [now left|]. split; [exact Hk|].
      apply in_or_app. right. now left.
    + destruct IH as (k & m & Hin & Hkey & Hitem). exists k, m.
      split; [now right|]. now split.
Qed.

Lemma file_item_origin groups c item k members x :
  hashable c = true ->
  In (k, members) (file_item groups (c, item)) -> In x members ->
  (exists members0, In (k, members0) groups /\ In x members0) \/
  (key_eqb c k = true /\ x = item).
Proof.
  intros Hh. unfold file_item. cbn [fst snd].
  induction groups as [|[k0 l0] groups IH]; cbn [vassoc_update].
  - intros [[= <- <-]|[]] [<-|[]]. right. split; [now apply key_eqb_refl | reflexivity].
  - destruct (key_eqb c k0) eqn:Hk.
    + intros [[= <- <-]|Hin] Hx.
      * apply in_app_or in Hx as [Hx|[<-|[]]].
        -- left. exists l0. split; [now left | exact Hx].
        -- right. now split.
      * left. exists members. split; [now right | exact Hx].
    + intros [[= <- <-]|Hin] Hx.
      * left. exists l0. split; [now left | exact Hx].
      * destruct (IH Hin Hx) as [(m0 & Hm0 & Hx0)|Hnew].
        -- left. exists m0. split; [now right | exact Hx0].
        -- now right.
Qed.

Lemma file_item_nonempty groups mention :
  Forall (fun g => snd g <> []) groups ->
  Forall (fun g => snd g <> []) (file_item groups mention).
Proof.
  unfold file_item. destruct mention as [c item]. cbn [fst snd].
  induction 1 as [|[k0 l0] groups Hne Hrest IH]; cbn [vassoc_update].
  - constructor; [discriminate | constructor].
  - destruct (key_eqb c k0).
    + constructor; [|assumption]. cbn [snd]. destruct l0; discriminate.
    + constructor; assumption.
Qed.

Lemma file_item_size groups mention :
  list_sum (List.map (fun g => length (snd g)) (file_item groups mention))
  = S (list_sum (List.map (fun g : pyval * list strength_item => length (snd g)) groups)).
Proof.
  unfold file_item, list_sum. destruct mention as [c item]. cbn [fst snd].
  induction groups as [|[k0 l0] groups IH]; cbn [vassoc_update List.map fold_right snd];
    [reflexivity|].
  destruct (key_eqb c k0); cbn [List.map fold_right snd].
  - rewrite length_app. cbn [length]. lia.
  - rewrite IH. lia.
Qed.

Lemma groups_of_step seen groups c item :
  hashable c = true ->
  groups_of seen groups -> groups_of (seen ++ [(c, item)]) (file_item groups (c, item)).
Proof.
  intros Hh (Hcover & Horigin & Hne & Hdistinct & Hsize).
  split; [|split; [|split; [|split]]].
  - intros c' item' Hin. apply in_app_or in Hin as [Hin|[[= <- <-]|[]]].
    + destruct (Hcover c' item' Hin) as (k & m & Hkm & Hck & Hitem).
      destruct (file_item_keeps groups (c, item) k m Hkm) as (m' & Hin' & Hsub).
      exists k, m'. split; [exact Hin'|]. split; [exact Hck | now apply Hsub].
    + now apply file_item_files.
  - intros k members x Hin Hx.
    destruct (file_item_origin _ _ _ _ _ _ Hh Hin Hx) as [(m0 & Hm0 & Hx0)|[Hkey ->]].
    + destruct (Horigin k m0 x Hm0 Hx0) as (c' & Hc' & Hck). exists c'.
      split; [apply in_or_app; now left | exact Hck].
    + exists c. split; [apply in_or_app; right; now left | exact Hkey].
  - now apply file_item_nonempty.
  - rewrite file_item_keys. cbn [fst].
    destruct (set_mem c (List.map fst groups)) eqn:Hmem.
    + now rewrite app_nil_r.
    + now apply distinct_keys_snoc.
  - rewrite file_item_size, Hsize, length_app. cbn [length]. lia.
Qed.

Lemma groups_of_fold (ms seen : list (pyval * strength_item)) groups :
  Forall (fun m => hashable (fst m) = true) ms ->
  groups_of seen groups -> groups_of (seen ++ ms) (fold_left file_item ms groups).
Proof.
  intros Hms. revert seen groups.
  induction Hms as [|[c item] ms Hc _ IH]; intros seen groups Hg; cbn [fold_left].
  - now rewrite app_nil_r.
  - replace (seen ++ (c, item) :: ms)%list with ((seen ++ [(c, item)]) ++ ms)%list
      by now rewrite <- app_assoc.
    apply IH. now apply groups_of_step.
Qed.

Lemma group_inner_fold (item : strength_item) (concepts : list pyval)
    (groups res : list (pyval * list strength_item)) :
  foldM (fun groups concept =>
           if hashable concept
           then Ok (vassoc_update concept [] (fun l => (l ++ [item])%list) groups)
           else Raise (Exn TypeError "unhashable type"))
        concepts groups = Ok res ->
  Forall (fun c => hashable c = true) concepts /\
  res = fold_left file_item (List.map (fun c => (c, item)) concepts) groups.
Proof.
  revert groups. induction concepts as [|c concepts IH]; intros groups;
    cbn [foldM List.map fold_left].
  - intros [= <-]. split; [constructor | reflexivity].
  - destruct (hashable c) eqn:Hc; cbn [mbind outcome_bind bind]; [|discriminate].
    intros Hrun. destruct (IH _ Hrun) as [Hall ->]. split; [now constructor | reflexivity].
Qed.

Lemma group_by_concept_fold (items : list strength_item)
    (groups res : list (pyval * list strength_item)) :
  foldM (fun concept_groups item =>
           content ← py_get (item_memory item) "content" (PDict []);
           concepts ← py_get content "key_concepts" (PList []);
           cs ← py_iter concepts;
           foldM (fun groups concept =>
                    if hashable concept
                    then Ok (vassoc_update concept [] (fun l => (l ++ [item])%list) groups)
                    else Raise (Exn TypeError "unhashable type"))
                 cs concept_groups)
        items groups = Ok res ->
  Forall (fun m => hashable (fst m) = true) (item_mentions items) /\
  res = fold_left file_item (item_mentions items) groups.
Proof.
  unfold item_mentions. revert groups.
  induction items as [|item items IH]; intros groups; cbn [foldM flat_map fold_left].
  - intros [= <-]. split; [constructor | reflexivity].
  - unfold concepts_of at 1 3.
    destruct (py_get (item_memory item) "content" (PDict [])) as [content|e];
      cbn [mbind outcome_bind bind]; [|discriminate].
    destruct (py_get content "key_concepts" (PList [])) as [concepts|e];
      cbn [mbind outcome_bind bind]; [|discriminate].
    destruct (py_iter concepts) as [cs|e]; cbn [mbind outcome_bind bind]; [|discriminate].
    match goal with
    | |- context [foldM ?f cs groups] => destruct (foldM f cs groups) as [mid|e] eqn:Hinner
    end; cbn [mbind outcome_bind bind]; [|discriminate].
    intros Hrun. destruct (group_inner_fold _ _ _ _ Hinner) as [Hcs ->].
    destruct (IH _ Hrun) as [Hrest ->].
    split.
    + apply Forall_app. split; [|exact Hrest].
      apply Forall_forall. intros m Hm.
      apply list_elem_of_In, in_map_iff in Hm as (c & <- & Hc).
      rewrite List.Forall_forall in Hcs. now apply Hcs.
    + now rewrite fold_left_app.
Qed.

End GroupFacts.

Module GroupClaims.
Import Py Services MemoryConsolidation Spec CrossQuantities CrossFacts GraphView GraphViewFacts
  GroupQuantities GroupFacts.

(** When [_group_by_concept] returns, its groups partition the concept
    mentions of the items: every item is in the group of each concept it
    carries; every member of a group carries the group's concept; no group is
    empty; no two groups have the same concept; and the sizes of the groups
    add up to the number of mentions. *)
Theorem group_by_concept_partition
    (memory_strengths : list strength_item) (groups : list (pyval * list strength_item)) :
  _group_by_concept memory_strengths = Ok groups ->
  (forall item concept,
     In item memory_strengths -> In concept (concepts_of (item_memory item)) ->
     exists k members, In (k, members) groups /\ key_eqb concept k = true /\ In item members) /\
  (forall k members item,
     In (k, members) groups -> In item members ->
     In item memory_strengths /\
     exists concept, In concept (concepts_of (item_memory item)) /\
                     key_eqb concept k = true) /\
  Forall (fun g => snd g <> []) groups /\
  distinct_keys (List.map fst groups) = true /\
  list_sum (List.map (fun g => length (snd g)) groups)
  = length (item_mentions memory_strengths).
Proof.
  unfold _group_by_concept. intros Hrun.
  destruct (group_by_concept_fold _ _ _ Hrun) as [Hhash ->].
  destruct (groups_of_fold (item_mentions memory_strengths) [] [] Hhash)
    as (Hcover & Horigin & Hne & Hdistinct & Hsize).
  { split; [intros c item []|]. split; [intros k m item []|].
    split; [constructor|]. split; reflexivity. }
  cbn [app] in *.
  split; [|split; [|split; [|split]]]; try assumption.
  - intros item concept Hitem Hc. apply (Hcover concept item).
    unfold item_mentions. apply in_flat_map. exists item. split; [exact Hitem|].
    apply in_map_iff. now exists concept.
  - intros k members item Hin Hx. destruct (Horigin k members item Hin Hx) as (c & Hc & Hck).
    unfold item_mentions in Hc. apply in_flat_map in Hc as (item' & Hitem' & Hc).
    apply in_map_iff in Hc as (c' & [= -> ->] & Hc).
    split; [exact Hitem'|]. exists c. now split.
Qed.

(** Two memories that share one of three concept mentions fall into two
    groups. *)
Lemma group_by_concept_partition_witness :
  exists groups,
    _group_by_concept [attention_item; survey_item] = Ok groups /\
    length groups = 2%nat /\
    list_sum (List.map (fun g => length (snd g)) groups) = 3%nat.
Proof.
  assert (Hrun : exists groups,
            _group_by_concept [attention_item; survey_item] = Ok groups /\
            length groups = 2%nat)
    by (eexists; split; reflexivity).
  destruct Hrun as (groups & Hrun & Hlen). exists groups.
  destruct (group_by_concept_partition _ _ Hrun) as (_ & _ & _ & _ & Hsize).
  split; [exact Hrun|]. split; [exact Hlen | exact Hsize].
Defined.

End GroupClaims.
